(** * EV-Bus Intelligent Fleet Analytics: the browser page controllers

    A shallow embedding of the page controllers under [frontend/js]
    (logs.js, prediction.js, login.js, authGuard.js, route.js,
    maintenance.js, dashboard.js, signup.js) and the properties the design
    document states about them.

    Conventions of the embedding.
    - JavaScript numbers that carry positions or percentages are rationals
      ([Q]); the statements about them are statements of exact arithmetic.
    - Objects used as dictionaries ([busMarkers], [animationState],
      [stationMarkers], [localStorage]) are finite maps keyed by strings.
      Bus identifiers and station names are assumed not to be names of
      members of [Object.prototype].
    - [null] and [undefined] are [None].
    - An [async] function is cut at its [await]: the part before it and the
      continuation that receives the outcome of the remote call are separate
      functions, and the browser's event loop is a step function over
      events. *)

From Stdlib Require Import Ascii String QArith Qabs Qround ZArith Lia Lqa.
From stdpp Require Import gmap strings list fin_maps.

Local Open Scope Z_scope.
Local Open Scope string_scope.

#[local] Set Warnings "-clear-no-such-hyp".

(** ** Text and numbers shared by the pages *)

(** What a failed remote call or a property access on [undefined] throws
    without the program choosing the message: the text is the engine's. *)
Inductive EngineError :=
  | FetchFailed          (* fetch rejected: network error *)
  | JsonParseFailed      (* res.json() rejected *)
  | TypeErrorThrown.     (* property access on undefined *)

(** Text built by a template literal: literal pieces, numbers rendered by
    the engine, and messages of engine errors. *)
Inductive frag :=
  | Lit (s : string)
  | Num (q : Q)
  | ErrMessage (e : EngineError).

Definition text := list frag.

(** Truthiness of a string: the empty string is falsy. *)
Definition truthy (s : string) : bool :=
  match s with EmptyString => false | _ => true end.

(** [a || b] on an optional string and a default. *)
Definition or_default (o : option string) (d : string) : string :=
  match o with
  | Some s => if truthy s then s else d
  | None => d
  end.

(** The characters [String.prototype.trim] strips, restricted to ASCII:
    tab, line feed, vertical tab, form feed, carriage return, space. *)
Definition is_space (c : ascii) : bool :=
  let n := nat_of_ascii c in
  ((9 <=? n)%nat && (n <=? 13)%nat) || (n =? 32)%nat.

Fixpoint trim_start (s : string) : string :=
  match s with
  | String c s' => if is_space c then trim_start s' else s
  | EmptyString => EmptyString
  end.

Definition trim (s : string) : string :=
  String.rev (trim_start (String.rev (trim_start s))).

(** [classList.add] and [classList.remove] on a list of class names. *)
Definition classList_add (c : string) (cs : list string) : list string :=
  if bool_decide (c ∈ cs) then cs else (cs ++ [c])%list.

Definition classList_remove (c : string) (cs : list string) : list string :=
  filter (fun x => x ≠ c) cs.

(** ** logs.js *)
Module Logs.

Record StatusAndIssues := { status : string; issues : Z }.

(** logs.js, getStatusAndIssues *)
Definition getStatusAndIssues (sohPercent : Q) : StatusAndIssues :=
  if Qle_bool 90 sohPercent then {| status := "Good"; issues := 0 |}
  else if Qle_bool 60 sohPercent then {| status := "Proper"; issues := 0 |}
  else if Qle_bool 50 sohPercent then {| status := "Attention"; issues := 1 |}
  else {| status := "Critical"; issues := 1 |}.

(** logs.js, statusClass *)
Definition statusClass (sohPercent : Q) : string :=
  if Qle_bool 90 sohPercent then "status-green"
  else if Qle_bool 50 sohPercent then "status-yellow"
  else "status-red".

(** [parseFloat(x.toFixed(1))]: the nearest multiple of 1/10, ties to the
    larger magnitude. *)
Definition toFixed1 (x : Q) : Q :=
  let n := Qfloor (Qabs x * 10 + (1 # 2))%Q in
  if Qle_bool 0 x then Qmake n 10 else Qmake (- n) 10.

(** One record of the logs response: [soh] and [predicted_soh] are
    numbers or absent, [maintenance_due] a date string or absent. *)
Record LogRecord := {
  rec_bus_id : string;
  soh : option Q;
  predicted_soh : option Q;
  maintenance_due : option string
}.

(** [new Date(s).toLocaleString()] is kept as the string it was made
    from; ["-"] when there is no date. *)
Inductive DateText := NoDate | LocaleString (src : string).

Record BusObj := {
  bus_id : string;
  bus_soh : Q;
  bus_status : string;
  bus_issues : Z;
  bus_maintenance_due : DateText;
  bus_predicted_soh : Q
}.

(** The parsed body: [records] stands for [data.data.records], [None]
    when [data.data] or the member is missing. *)
Record LogsData := { success : bool; records : option (list LogRecord) }.

(** The outcome of the request: [body] is [None] when the body does not
    parse. *)
Inductive Response :=
  | Rejected (e : EngineError)
  | Resolved (ok : bool) (body : option LogsData).

Record StateBox := { sb_text : text; sb_class : string; sb_display : string }.
Record Row := { row_class : string; row_bus : BusObj }.

(** The page: [tableState] and [tableBody] may be missing from the
    document; [stored] is local-storage item "activeBuses", kept as the
    list it serialises; [routeCalls] lists the calls made to the opener's
    fetchRouteStatus; [sent] the (bus_id, limit) queries issued. *)
Record Page := {
  tableState : option StateBox;
  tableBody : option (list Row);
  activeBuses : list BusObj;
  stored : option (list BusObj);
  routeWindow : bool;
  routeCalls : list (list string);
  sent : list (string * Z)
}.

Definition setDom (st : option StateBox) (tb : option (list Row)) (p : Page) : Page :=
  {| tableState := st; tableBody := tb; activeBuses := activeBuses p;
     stored := stored p; routeWindow := routeWindow p;
     routeCalls := routeCalls p; sent := sent p |}.

Definition setBuses (bs : list BusObj) (sto : option (list BusObj)) (p : Page) : Page :=
  {| tableState := tableState p; tableBody := tableBody p; activeBuses := bs;
     stored := sto; routeWindow := routeWindow p;
     routeCalls := routeCalls p; sent := sent p |}.

Definition setTraffic (calls : list (list string)) (qs : list (string * Z)) (p : Page) : Page :=
  {| tableState := tableState p; tableBody := tableBody p;
     activeBuses := activeBuses p; stored := stored p;
     routeWindow := routeWindow p; routeCalls := calls; sent := qs |}.

(** showState *)
Definition showState (message : text) (type : string) (p : Page) : Page :=
  match tableState p with
  | None => p
  | Some _ =>
    let box := {| sb_text := message;
                  sb_class := "state-box " ++
                              (if String.eqb type "error" then "error" else "loading");
                  sb_display := "block" |} in
    setDom (Some box) (match tableBody p with Some _ => Some [] | None => None end) p
  end.

(** hideState *)
Definition hideState (p : Page) : Page :=
  match tableState p with
  | None => p
  | Some b =>
    setDom (Some {| sb_text := sb_text b; sb_class := sb_class b; sb_display := "none" |})
           (tableBody p) p
  end.

(** renderLogsTable; [None] when [tableBody] is missing and the first
    statement throws. *)
Definition renderLogsTable (p : Page) : option Page :=
  match tableBody p with
  | None => None
  | Some _ =>
    let p := setDom (tableState p) (Some []) p in
    match activeBuses p with
    | [] => Some (showState [Lit "No active buses. Enter a Bus ID to start monitoring."] "info" p)
    | _ =>
      let p := hideState p in
      let rows := map (fun b => {| row_class := statusClass (bus_soh b); row_bus := b |})
                      (activeBuses p) in
      Some (setDom (tableState p) (Some rows) p)
    end
  end.

(** The body of the [records.forEach] callback: the entry built from
    one record. *)
Definition busObj_of (r : LogRecord) : BusObj :=
  let raw := match soh r with
             | Some x => x
             | None => match predicted_soh r with Some x => x | None => 0%Q end
             end in
  let pct := if Qle_bool raw 1 then (raw * 100)%Q else raw in
  let pct := toFixed1 pct in
  let si := getStatusAndIssues pct in
  {| bus_id := rec_bus_id r; bus_soh := pct;
     bus_status := status si; bus_issues := issues si;
     bus_maintenance_due :=
       match maintenance_due r with
       | Some d => if truthy d then LocaleString d else NoDate
       | None => NoDate
       end;
     bus_predicted_soh := pct |}.

(** [activeBuses.findIndex(b => b.bus_id === id)] *)
Fixpoint findIndex (id : string) (bs : list BusObj) : option nat :=
  match bs with
  | [] => None
  | b :: bs' => if String.eqb (bus_id b) id then Some O
                else option_map S (findIndex id bs')
  end.

Definition upsert (bs : list BusObj) (r : LogRecord) : list BusObj :=
  let o := busObj_of r in
  match findIndex (rec_bus_id r) bs with
  | Some i => <[i := o]> bs
  | None => (bs ++ [o])%list
  end.

Definition notifyRoute (p : Page) : Page :=
  if routeWindow p then
    setTraffic (routeCalls p ++ [map bus_id (activeBuses p)])%list (sent p) p
  else p.

(** loadLogs up to [await fetch]; [limit] is [parseInt] of the field,
    [None] for NaN. *)
Definition loadLogs_start (busIdField : string) (limitField : option Z) (p : Page)
  : Page * option (string * Z) :=
  let busId := trim busIdField in
  let parsed := match limitField with
                | Some n => if (n =? 0)%Z then 100 else n
                | None => 100
                end in
  let limit := Z.min (Z.max parsed 1) 1000 in
  if negb (truthy busId) then
    (showState [Lit "Please enter a Bus ID"] "error" p, None)
  else
    let p := showState [Lit "Fetching logs…"] "info" p in
    (setTraffic (routeCalls p) (sent p ++ [(busId, limit)])%list p, Some (busId, limit)).

(** The [catch] block of loadLogs. *)
Definition on_catch (p : Page) : Page :=
  showState [Lit "Error loading logs"] "error" p.

(** loadLogs from the outcome of the request on. *)
Definition loadLogs_response (r : Response) (p : Page) : Page :=
  match r with
  | Rejected _ => on_catch p
  | Resolved false _ => on_catch p
  | Resolved true None => on_catch p
  | Resolved true (Some d) =>
    if negb (success d) then showState [Lit "No records found for this Bus ID"] "info" p
    else match records d with
         | None => on_catch p
         | Some [] => showState [Lit "No records found for this Bus ID"] "info" p
         | Some rs =>
           let bs := foldl upsert (activeBuses p) rs in
           let p := setBuses bs (Some bs) p in
           match renderLogsTable p with
           | None => on_catch p
           | Some p => notifyRoute p
           end
         end
  end.

(** The failures of the remote call: transport failure, a status that is
    not ok, a body that does not parse, or a falsy success flag. *)
Definition failed (r : Response) : bool :=
  match r with
  | Rejected _ => true
  | Resolved false _ => true
  | Resolved true None => true
  | Resolved true (Some d) => negb (success d)
  end.

(** The text loadLogs shows for a failure. *)
Definition failure_text (r : Response) : text :=
  match r with
  | Resolved true (Some _) => [Lit "No records found for this Bus ID"]
  | _ => [Lit "Error loading logs"]
  end.

Definition failure_class (r : Response) : string :=
  match r with
  | Resolved true (Some _) => "state-box loading"
  | _ => "state-box error"
  end.

End Logs.

(** ** prediction.js *)
Module Prediction.

Record CurvePoint := { distance : Q; soc : Q }.

(** [json.data] of the prediction response. *)
Record Result := {
  predicted_end_soc : Q;
  recommended_speed : Q;
  risk_level : string;
  energy_curve : option (list CurvePoint)
}.

Record Json := { success : bool; error : option string; data : option Result }.

Inductive Response :=
  | Rejected (e : EngineError)
  | Resolved (ok : bool) (json : Json).

(** The form fields; [passengers] is [parseFloat] of the field, [None]
    for NaN. *)
Record Form := { routeId : string; passengers : option Q; weather : string }.

Record Payload := {
  route_id : string;
  passenger_load : Q;
  payload_weather : string;
  bus_id : string;
  current_soc : Q
}.

Record Chart := { labels : list text; values : list Q }.

(** The elements predictTrip paints. [canvas] says whether #tripChart
    exists; [destroyed] counts the charts destroyed; [sent] lists the
    payloads posted. *)
Record Page := {
  endSoc : text;
  risk : text;
  riskColor : string;
  speed : text;
  messageText : text;
  messageClasses : list string;
  btnDisabled : bool;
  btnText : string;
  canvas : bool;
  predictionChart : option Chart;
  destroyed : nat;
  sent : list Payload
}.

Definition setKPIs (e r : text) (c : string) (sp : text) (p : Page) : Page :=
  {| endSoc := e; risk := r; riskColor := c; speed := sp;
     messageText := messageText p; messageClasses := messageClasses p;
     btnDisabled := btnDisabled p; btnText := btnText p;
     canvas := canvas p; predictionChart := predictionChart p;
     destroyed := destroyed p; sent := sent p |}.

Definition setMessage (t : text) (cs : list string) (p : Page) : Page :=
  {| endSoc := endSoc p; risk := risk p; riskColor := riskColor p; speed := speed p;
     messageText := t; messageClasses := cs;
     btnDisabled := btnDisabled p; btnText := btnText p;
     canvas := canvas p; predictionChart := predictionChart p;
     destroyed := destroyed p; sent := sent p |}.

Definition setButton (d : bool) (t : string) (p : Page) : Page :=
  {| endSoc := endSoc p; risk := risk p; riskColor := riskColor p; speed := speed p;
     messageText := messageText p; messageClasses := messageClasses p;
     btnDisabled := d; btnText := t;
     canvas := canvas p; predictionChart := predictionChart p;
     destroyed := destroyed p; sent := sent p |}.

Definition setChart (c : option Chart) (n : nat) (p : Page) : Page :=
  {| endSoc := endSoc p; risk := risk p; riskColor := riskColor p; speed := speed p;
     messageText := messageText p; messageClasses := messageClasses p;
     btnDisabled := btnDisabled p; btnText := btnText p;
     canvas := canvas p; predictionChart := c;
     destroyed := n; sent := sent p |}.

Definition post (pl : Payload) (p : Page) : Page :=
  {| endSoc := endSoc p; risk := risk p; riskColor := riskColor p; speed := speed p;
     messageText := messageText p; messageClasses := messageClasses p;
     btnDisabled := btnDisabled p; btnText := btnText p;
     canvas := canvas p; predictionChart := predictionChart p;
     destroyed := destroyed p; sent := (sent p ++ [pl])%list |}.

(** showFeedback *)
Definition showFeedback (t : text) (type : string) (p : Page) : Page :=
  let cs := ["state-box"] in
  let cs := if String.eqb type "error" then classList_add "state-error" cs
            else if String.eqb type "success" then classList_add "state-success" cs
            else classList_add "state-loading" cs in
  setMessage t (classList_remove "hidden" cs) p.

(** setLoadingState *)
Definition setLoadingState (isLoading : bool) (p : Page) : Page :=
  if isLoading then
    let p := setButton true "Processing AI..." p in
    let p := setMessage (messageText p) (classList_remove "hidden" (messageClasses p)) p in
    showFeedback [Lit "Calculating battery drain curve..."] "info" p
  else setButton false "Predict Trip" p.

(** updateKPIs *)
Definition updateKPIs (d : Result) (p : Page) : Page :=
  let colour :=
    if String.eqb (risk_level d) "CRITICAL" then "#ef4444"
    else if String.eqb (risk_level d) "WARNING" then "#f59e0b"
    else "#10b981" in
  setKPIs [Num (predicted_end_soc d); Lit "%"] [Lit (risk_level d)] colour
          [Num (recommended_speed d); Lit " km/h"] p.

(** resetKPIs *)
Definition resetKPIs (p : Page) : Page :=
  setKPIs [Lit "--%"] [Lit "--"] "inherit" [Lit "-- km/h"] p.

(** renderPredictionChart; [None] when [curveData.map] is called on
    [undefined]. *)
Definition renderPredictionChart (curveData : option (list CurvePoint)) (p : Page)
  : option Page :=
  if negb (canvas p) then Some p
  else match curveData with
       | None => None
       | Some pts =>
         let ls := map (fun pt => [Num (distance pt); Lit "km"]) pts in
         let vs := map soc pts in
         let n := match predictionChart p with
                  | Some _ => S (destroyed p)
                  | None => destroyed p
                  end in
         Some (setChart (Some {| labels := ls; values := vs |}) n p)
       end.

(** predictTrip up to [await fetch]: [None] when validation stops it. *)
Definition predictTrip_start (f : Form) (p : Page) : Page * option Payload :=
  let rid := trim (routeId f) in
  match passengers f with
  | Some load =>
    if negb (truthy rid) || negb (truthy (weather f)) then
      (showFeedback [Lit "Please fill all fields (Route, Load, and Weather)."] "error" p, None)
    else
      let pl := {| route_id := rid; passenger_load := load;
                   payload_weather := weather f;
                   bus_id := "EV-COMMANDER"; current_soc := 95 |} in
      (post pl (setLoadingState true p), Some pl)
  | None =>
    (showFeedback [Lit "Please fill all fields (Route, Load, and Weather)."] "error" p, None)
  end.

(** The [catch] block of predictTrip, on an error with message [m]. *)
Definition on_catch (m : frag) (p : Page) : Page :=
  resetKPIs (showFeedback [m] "error" p).

(** predictTrip from the outcome of the request on, [finally] included. *)
Definition predictTrip_response (r : Response) (p : Page) : Page :=
  let p :=
    match r with
    | Rejected e => on_catch (ErrMessage e) p
    | Resolved ok json =>
      if negb ok || negb (success json) then
        on_catch (Lit (or_default (error json) "Prediction engine error")) p
      else
        match data json with
        | None => on_catch (ErrMessage TypeErrorThrown) p
        | Some result =>
          let p := updateKPIs result p in
          match renderPredictionChart (energy_curve result) p with
          | None => on_catch (ErrMessage TypeErrorThrown) p
          | Some p => showFeedback [Lit "AI Prediction Successful."] "success" p
          end
        end
    end in
  setLoadingState false p.

(** The failures of the remote call: transport failure, a status that is
    not ok, or a falsy success flag. *)
Definition failed (r : Response) : bool :=
  match r with
  | Rejected _ => true
  | Resolved ok json => negb ok || negb (success json)
  end.

(** The message of the error the [catch] block receives on a failure. *)
Definition failure_message (r : Response) : frag :=
  match r with
  | Rejected e => ErrMessage e
  | Resolved _ json => Lit (or_default (error json) "Prediction engine error")
  end.

End Prediction.

(** ** login.js *)
Module Login.

(** JSON.stringify of a string value. *)
Definition quote_char : ascii := ascii_of_nat 34.
Definition backslash : ascii := ascii_of_nat 92.

Definition hex_digit (n : nat) : ascii :=
  if (n <? 10)%nat then ascii_of_nat (48 + n) else ascii_of_nat (87 + n).

Definition json_escape_char (c : ascii) : string :=
  let n := nat_of_ascii c in
  let esc (d : string) := String backslash d in
  if (n =? 34)%nat then esc (String quote_char EmptyString)
  else if (n =? 92)%nat then esc (String backslash EmptyString)
  else if (n =? 8)%nat then esc "b"
  else if (n =? 9)%nat then esc "t"
  else if (n =? 10)%nat then esc "n"
  else if (n =? 12)%nat then esc "f"
  else if (n =? 13)%nat then esc "r"
  else if (n <? 32)%nat then
    esc ("u00" ++ String (hex_digit (n / 16)) (String (hex_digit (n mod 16)) EmptyString))
  else String c EmptyString.

Fixpoint json_escape (s : string) : string :=
  match s with
  | EmptyString => EmptyString
  | String c s' => json_escape_char c ++ json_escape s'
  end.

Definition json_string (s : string) : string :=
  String quote_char (json_escape s ++ String quote_char EmptyString).

(** JSON.stringify of an object whose values are strings or [undefined]:
    members whose value is [undefined] are left out. *)
Fixpoint json_members (ms : list (string * option string)) : list string :=
  match ms with
  | [] => []
  | (k, Some v) :: ms' => (json_string k ++ ":" ++ json_string v) :: json_members ms'
  | (_, None) :: ms' => json_members ms'
  end.

Definition json_object (ms : list (string * option string)) : string :=
  "{" ++ String.concat "," (json_members ms) ++ "}".

(** The [user] member of the login response. *)
Record User := { name : option string; role : option string; email : option string }.

(** The body of the login response; [success] is the truthiness of the
    member. *)
Record LoginData := {
  success : bool;
  token : option string;
  error : option string;
  user : option User
}.

(** The outcome of [await fetch(...)] followed by [await res.json()]. *)
Inductive Response :=
  | Rejected (e : EngineError)
  | Resolved (ok : bool) (data : LoginData).

(** What loginUser reads and writes. [timers] holds the targets of the
    pending [setTimeout] navigations; [sent] the bodies posted to
    /api/auth/login. *)
Record Page := {
  localStorage : gmap string string;
  messageText : text;
  messageClass : string;
  messageDisplay : string;
  buttonDisabled : bool;
  buttonText : string;
  timers : list string;
  location : string;
  sent : list (string * string)
}.

Definition showMessage (msg : text) (type : string) (p : Page) : Page :=
  {| localStorage := localStorage p;
     messageText := msg;
     messageClass := "state-box " ++ type;
     messageDisplay := "block";
     buttonDisabled := buttonDisabled p; buttonText := buttonText p;
     timers := timers p; location := location p; sent := sent p |}.

Definition clearMessage (p : Page) : Page :=
  {| localStorage := localStorage p;
     messageText := [Lit ""];
     messageClass := "state-box hidden";
     messageDisplay := "none";
     buttonDisabled := buttonDisabled p; buttonText := buttonText p;
     timers := timers p; location := location p; sent := sent p |}.

Definition setButton (disabled : bool) (label : string) (p : Page) : Page :=
  {| localStorage := localStorage p;
     messageText := messageText p; messageClass := messageClass p;
     messageDisplay := messageDisplay p;
     buttonDisabled := disabled; buttonText := label;
     timers := timers p; location := location p; sent := sent p |}.

Definition setItem (k v : string) (p : Page) : Page :=
  {| localStorage := <[k := v]> (localStorage p);
     messageText := messageText p; messageClass := messageClass p;
     messageDisplay := messageDisplay p;
     buttonDisabled := buttonDisabled p; buttonText := buttonText p;
     timers := timers p; location := location p; sent := sent p |}.

Definition setTimeout_href (href : string) (p : Page) : Page :=
  {| localStorage := localStorage p;
     messageText := messageText p; messageClass := messageClass p;
     messageDisplay := messageDisplay p;
     buttonDisabled := buttonDisabled p; buttonText := buttonText p;
     timers := timers p ++ [href]; location := location p; sent := sent p |}.

Definition post (body : string * string) (p : Page) : Page :=
  {| localStorage := localStorage p;
     messageText := messageText p; messageClass := messageClass p;
     messageDisplay := messageDisplay p;
     buttonDisabled := buttonDisabled p; buttonText := buttonText p;
     timers := timers p; location := location p; sent := sent p ++ [body] |}.

Definition navigate (href : string) (p : Page) : Page :=
  {| localStorage := localStorage p;
     messageText := messageText p; messageClass := messageClass p;
     messageDisplay := messageDisplay p;
     buttonDisabled := buttonDisabled p; buttonText := buttonText p;
     timers := timers p; location := href; sent := sent p |}.

(** loginUser up to [await fetch]: the result says whether the request was
    sent, with the trimmed e-mail the continuation closes over. *)
Definition loginUser_submit (emailField passwordField : string) (p : Page)
  : Page * option string :=
  let p := clearMessage p in
  let email := trim emailField in
  let password := trim passwordField in
  if negb (truthy email) || negb (truthy password) then
    (showMessage [Lit "Please enter both email and password."] "error" p, None)
  else
    (post (email, password) (setButton true "Logging in..." p), Some email).

(** loginUser from the outcome of the request on. *)
Definition loginUser_response (formEmail : string) (r : Response) (p : Page) : Page :=
  let on_throw (p : Page) :=
    setButton false "Login"
      (showMessage [Lit "Server error. Please try again later."] "error" p) in
  match r with
  | Rejected _ => on_throw p
  | Resolved ok data =>
    let tok := match token data with Some t => t | None => "" end in
    if negb ok || negb (success data) || negb (truthy tok) then
      setButton false "Login"
        (showMessage [Lit (or_default (error data) "Login failed. Check your credentials.")]
           "error" p)
    else
      let p := setItem "evfleet_token" tok p in
      match user data with
      | None => on_throw p   (* data.user.name on undefined *)
      | Some u =>
        let stored_email := Some (or_default (email u) formEmail) in
        let p := setItem "evfleet_user"
                   (json_object [("name", name u); ("role", role u); ("email", stored_email)])
                   p in
        let shown := match name u with Some n => n | None => "undefined" end in
        let p := showMessage [Lit "Welcome "; Lit shown; Lit "! Redirecting..."] "success" p in
        setTimeout_href "/index.html" p
      end
  end.

(** The queued [setTimeout] callbacks run: each assigns
    [window.location.href]. *)
Definition fire_timers (p : Page) : Page :=
  let p' := foldl (fun p href => navigate href p) p (timers p) in
  {| localStorage := localStorage p';
     messageText := messageText p'; messageClass := messageClass p';
     messageDisplay := messageDisplay p';
     buttonDisabled := buttonDisabled p'; buttonText := buttonText p';
     timers := []; location := location p'; sent := sent p' |}.

(** The check at the end of the DOMContentLoaded handler. *)
Definition autoRedirect (p : Page) : Page :=
  match localStorage p !! "evfleet_token" with
  | Some t => if truthy t then navigate "/index.html" p else p
  | None => p
  end.

(** The failures loginUser tests for: a rejected request, a status that is
    not ok, a falsy success flag, a missing or empty token. *)
Definition failed (r : Response) : bool :=
  match r with
  | Rejected _ => true
  | Resolved ok data =>
    negb ok || negb (success data) ||
    negb (truthy (match token data with Some t => t | None => "" end))
  end.

(** The text loginUser shows for a failure. *)
Definition failure_text (r : Response) : text :=
  match r with
  | Rejected _ => [Lit "Server error. Please try again later."]
  | Resolved _ data => [Lit (or_default (error data) "Login failed. Check your credentials.")]
  end.

End Login.

(** ** authGuard.js *)
Module AuthGuard.

Definition LOGIN_PAGE : string := "login.html".

(** The body of GET /api/auth/me. *)
Record UserInfo := { name : string; email : string; role : string }.

(** The outcome of the request: rejected, or a response with its [ok]
    flag and its body ([None]: the body does not parse, or parses to a
    falsy value). *)
Inductive MeResponse :=
  | MeRejected
  | MeResolved (ok : bool) (body : option UserInfo).

(** [requests] lists the bearer tokens sent to /api/auth/me. *)
Record Browser := {
  localStorage : gmap string string;
  location : string;
  currentUser : option UserInfo;
  requests : list string;
  alerts : list string;
  wentBack : bool
}.

Definition send (tok : string) (b : Browser) : Browser :=
  {| localStorage := localStorage b; location := location b;
     currentUser := currentUser b; requests := requests b ++ [tok];
     alerts := alerts b; wentBack := wentBack b |}.

Definition removeItem (k : string) (b : Browser) : Browser :=
  {| localStorage := delete k (localStorage b); location := location b;
     currentUser := currentUser b; requests := requests b;
     alerts := alerts b; wentBack := wentBack b |}.

Definition replace_location (href : string) (b : Browser) : Browser :=
  {| localStorage := localStorage b; location := href;
     currentUser := currentUser b; requests := requests b;
     alerts := alerts b; wentBack := wentBack b |}.

Definition setCurrentUser (u : UserInfo) (b : Browser) : Browser :=
  {| localStorage := localStorage b; location := location b;
     currentUser := Some u; requests := requests b;
     alerts := alerts b; wentBack := wentBack b |}.

Definition denied (b : Browser) : Browser :=
  {| localStorage := localStorage b; location := location b;
     currentUser := currentUser b; requests := requests b;
     alerts := alerts b ++ ["❌ Access denied"]; wentBack := true |}.

(** getCurrentUser; [server] answers a request bearing a token. *)
Definition getCurrentUser (server : string -> MeResponse) (b : Browser)
  : option UserInfo * Browser :=
  match localStorage b !! "token" with
  | None => (None, b)
  | Some tok =>
    if negb (truthy tok) then (None, b)
    else
      let b := send tok b in
      match server tok with
      | MeRejected => (None, b)
      | MeResolved ok body => if ok then (body, b) else (None, b)
      end
  end.

(** requireAuth *)
Definition requireAuth (server : string -> MeResponse) (b : Browser) : Browser :=
  match getCurrentUser server b with
  | (None, b) => replace_location LOGIN_PAGE (removeItem "token" b)
  | (Some u, b) => setCurrentUser u b
  end.

(** requireRole *)
Definition requireRole (allowedRoles : list string)
    (server : string -> MeResponse) (b : Browser) : Browser :=
  match getCurrentUser server b with
  | (None, b) => replace_location LOGIN_PAGE (removeItem "token" b)
  | (Some u, b) =>
    if bool_decide (role u ∈ allowedRoles) then setCurrentUser u b else denied b
  end.

(** logoutUser *)
Definition logoutUser (b : Browser) : Browser :=
  replace_location LOGIN_PAGE (removeItem "token" b).

End AuthGuard.

(** ** route.js *)

(** The outcome of a block that may throw: the state it leaves either
    way. *)
Inductive Outcome (A : Type) :=
  | Done (a : A)
  | Threw (a : A).
Arguments Done {A} a.
Arguments Threw {A} a.

(** [toLowerCase], [toUpperCase] and [includes] on ASCII strings. *)
Definition lower_char (c : ascii) : ascii :=
  let n := nat_of_ascii c in
  if (65 <=? n)%nat && (n <=? 90)%nat then ascii_of_nat (n + 32) else c.

Definition upper_char (c : ascii) : ascii :=
  let n := nat_of_ascii c in
  if (97 <=? n)%nat && (n <=? 122)%nat then ascii_of_nat (n - 32) else c.

Fixpoint map_chars (f : ascii -> ascii) (s : string) : string :=
  match s with
  | EmptyString => EmptyString
  | String c s' => String (f c) (map_chars f s')
  end.

Definition toLowerCase : string -> string := map_chars lower_char.
Definition toUpperCase : string -> string := map_chars upper_char.

Fixpoint includes (s q : string) : bool :=
  String.prefix q s ||
  match s with
  | EmptyString => false
  | String _ s' => includes s' q
  end.

Module Route.

Definition REFRESH_INTERVAL : Z := 10.
Definition steps : nat := 40.

Definition LatLng : Type := Q * Q.

(** A charging station as a bus of the response refers to it. *)
Record Station := { name : string; st_lat : Q; st_lng : Q; available : bool }.

(** One bus of the /api/route response. *)
Record Bus := {
  bus_id : string;
  lat : option Q;
  lng : option Q;
  prev_lat : option Q;
  prev_lng : option Q;
  soc : option Q;
  status : string;
  route_id : string;
  charging_station : option Station
}.

Record RouteData := { success : bool; buses : option (list Bus) }.

(** The outcome of [await fetch] and [await res.json()]. *)
Inductive Response :=
  | Rejected (e : EngineError)
  | Resolved (data : RouteData).

(** Colours: a literal of the source, or the one trafficColor() draws
    from Math.random(). *)
Inductive Colour := Hex (s : string) | Traffic.

Record Icon := { icon_color : string; icon_focused : bool; icon_label : string }.

(** The content busPopup builds. *)
Record Popup := {
  pop_bus_id : string;
  pop_route_id : string;
  pop_soc : Q;
  pop_status : string;
  pop_color : string
}.

(** A Leaflet bus marker; [m_popup] is [None] until bindPopup. Whether
    the popup is open is Leaflet's own state and is not kept. *)
Record Marker := {
  m_latlng : LatLng;
  m_icon : Icon;
  m_popup : option Popup
}.

(** An entry of [animationState]: the interpolation cursor. *)
Record Cursor := { c_lat : Q; c_lng : Q }.

Record StationMarker := {
  sm_latlng : LatLng;
  sm_radius : Z;
  sm_color : string;
  sm_name : string;
  sm_available : bool
}.

Record Polyline := {
  pl_points : list LatLng;
  pl_color : Colour;
  pl_weight : Z;
  pl_opacity : Q
}.

(** The closure [step] of animateBus: the marker and the cursor object
    it captured, its counter [i] and its increments. *)
Record Stepper := {
  s_marker : nat;
  s_state : nat;
  s_i : nat;
  s_dLat : Q;
  s_dLng : Q
}.

Record Layers := {
  movementLayer : list Polyline;
  emergencyRouteLayer : list Polyline;
  arrowLayer : list LatLng;
  stationLayer : list StationMarker;
  markerLayer : list nat
}.

(** The map side of the page. Marker and cursor objects live in the
    stores [markers] and [cursors]; [busMarkers] and [animationState]
    hold references into them, as do the steppers queued in [frames] by
    requestAnimationFrame. [next] is the next fresh reference.
    [stationsCreated] records each L.circleMarker call, by station name. *)
Record MapState := {
  layers : Layers;
  view : LatLng * Z;
  busMarkers : gmap string nat;
  animationState : gmap string nat;
  stationMarkers : gmap string StationMarker;
  markers : gmap nat Marker;
  cursors : gmap nat Cursor;
  next : nat;
  frames : list Stepper;
  stationsCreated : list string
}.

Definition setLayers (l : Layers) (m : MapState) : MapState :=
  {| layers := l; view := view m; busMarkers := busMarkers m;
     animationState := animationState m; stationMarkers := stationMarkers m;
     markers := markers m; cursors := cursors m; next := next m;
     frames := frames m; stationsCreated := stationsCreated m |}.

Definition setView (v : LatLng * Z) (m : MapState) : MapState :=
  {| layers := layers m; view := v; busMarkers := busMarkers m;
     animationState := animationState m; stationMarkers := stationMarkers m;
     markers := markers m; cursors := cursors m; next := next m;
     frames := frames m; stationsCreated := stationsCreated m |}.

Definition setBusMarkers (bm : gmap string nat) (m : MapState) : MapState :=
  {| layers := layers m; view := view m; busMarkers := bm;
     animationState := animationState m; stationMarkers := stationMarkers m;
     markers := markers m; cursors := cursors m; next := next m;
     frames := frames m; stationsCreated := stationsCreated m |}.

Definition setAnimationState (a : gmap string nat) (m : MapState) : MapState :=
  {| layers := layers m; view := view m; busMarkers := busMarkers m;
     animationState := a; stationMarkers := stationMarkers m;
     markers := markers m; cursors := cursors m; next := next m;
     frames := frames m; stationsCreated := stationsCreated m |}.

Definition setStations (sm : gmap string StationMarker) (log : list string)
    (m : MapState) : MapState :=
  {| layers := layers m; view := view m; busMarkers := busMarkers m;
     animationState := animationState m; stationMarkers := sm;
     markers := markers m; cursors := cursors m; next := next m;
     frames := frames m; stationsCreated := log |}.

Definition setMarkers (ms : gmap nat Marker) (m : MapState) : MapState :=
  {| layers := layers m; view := view m; busMarkers := busMarkers m;
     animationState := animationState m; stationMarkers := stationMarkers m;
     markers := ms; cursors := cursors m; next := next m;
     frames := frames m; stationsCreated := stationsCreated m |}.

Definition setCursors (cs : gmap nat Cursor) (m : MapState) : MapState :=
  {| layers := layers m; view := view m; busMarkers := busMarkers m;
     animationState := animationState m; stationMarkers := stationMarkers m;
     markers := markers m; cursors := cs; next := next m;
     frames := frames m; stationsCreated := stationsCreated m |}.

Definition setNext (n : nat) (m : MapState) : MapState :=
  {| layers := layers m; view := view m; busMarkers := busMarkers m;
     animationState := animationState m; stationMarkers := stationMarkers m;
     markers := markers m; cursors := cursors m; next := n;
     frames := frames m; stationsCreated := stationsCreated m |}.

Definition setFrames (fs : list Stepper) (m : MapState) : MapState :=
  {| layers := layers m; view := view m; busMarkers := busMarkers m;
     animationState := animationState m; stationMarkers := stationMarkers m;
     markers := markers m; cursors := cursors m; next := next m;
     frames := fs; stationsCreated := stationsCreated m |}.

(** statusColor *)
Definition statusColor (st : string) : string :=
  let u := toUpperCase st in
  if String.eqb u "GOOD" then "#16a34a"
  else if String.eqb u "MEDIOCRE" then "#facc15"
  else if String.eqb u "CRITICAL" then "#dc2626"
  else "#64748b".

(** busPopup; [None] when [bus.soc.toFixed] is called on a missing
    [soc]. *)
Definition busPopup (b : Bus) : option Popup :=
  match soc b with
  | Some s => Some {| pop_bus_id := bus_id b; pop_route_id := route_id b;
                      pop_soc := s; pop_status := status b;
                      pop_color := statusColor (status b) |}
  | None => None
  end.

(** One call of the closure [step]: nothing once [i >= steps]; else the
    cursor advances, the marker follows, and the closure is queued for
    the next frame. *)
Definition run_step (st : Stepper) (m : MapState) : MapState :=
  if (steps <=? s_i st)%nat then m
  else
    match cursors m !! s_state st with
    | None => m
    | Some c =>
      let c' := {| c_lat := (c_lat c + s_dLat st)%Q; c_lng := (c_lng c + s_dLng st)%Q |} in
      let m := setCursors (<[s_state st := c']> (cursors m)) m in
      let m := setMarkers
                 (alter (fun k => {| m_latlng := (c_lat c', c_lng c'); m_icon := m_icon k;
                                     m_popup := m_popup k |})
                        (s_marker st) (markers m)) m in
      setFrames (frames m ++ [{| s_marker := s_marker st; s_state := s_state st;
                                 s_i := S (s_i st);
                                 s_dLat := s_dLat st; s_dLng := s_dLng st |}])%list m
    end.

(** animateBus *)
Definition animateBus (id : string) (target : LatLng) (m : MapState) : MapState :=
  match busMarkers m !! id, animationState m !! id with
  | Some mr, Some sr =>
    match cursors m !! sr with
    | None => m
    | Some c =>
      let dLat := ((fst target - c_lat c) / inject_Z (Z.of_nat steps))%Q in
      let dLng := ((snd target - c_lng c) / inject_Z (Z.of_nat steps))%Q in
      run_step {| s_marker := mr; s_state := sr; s_i := 0;
                  s_dLat := dLat; s_dLng := dLng |} m
    end
  | _, _ => m
  end.

(** The display refreshes: the callbacks queued so far run in order;
    those they queue wait for the next frame. *)
Definition frame (m : MapState) : MapState :=
  foldl (fun m st => run_step st m) (setFrames [] m) (frames m).

(** drawBus, for a bus whose position is present. *)
Definition drawBus (selectedBusId : string) (b : Bus) (la ln : Q) (m : MapState)
  : Outcome MapState :=
  let isFocused := String.eqb (bus_id b) selectedBusId || String.eqb (status b) "CRITICAL" in
  let icon := {| icon_color := statusColor (status b); icon_focused := isFocused;
                 icon_label := bus_id b |} in
  let pan (m : MapState) :=
    if isFocused then setView ((la, ln), snd (view m)) m else m in
  match busMarkers m !! bus_id b with
  | None =>
    let r := next m in
    let mk := {| m_latlng := (la, ln); m_icon := icon; m_popup := None |} in
    let m := setNext (S r) (setMarkers (<[r := mk]> (markers m)) m) in
    let l := layers m in
    let m := setLayers {| movementLayer := movementLayer l;
                          emergencyRouteLayer := emergencyRouteLayer l;
                          arrowLayer := arrowLayer l; stationLayer := stationLayer l;
                          markerLayer := (markerLayer l ++ [r])%list |} m in
    match busPopup b with
    | None => Threw m
    | Some pop =>
      let mk := {| m_latlng := (la, ln); m_icon := icon; m_popup := Some pop |} in
      let m := setMarkers (<[r := mk]> (markers m)) m in
      let m := setBusMarkers (<[bus_id b := r]> (busMarkers m)) m in
      let c := next m in
      let m := setNext (S c) (setCursors (<[c := {| c_lat := la; c_lng := ln |}]> (cursors m)) m) in
      let m := setAnimationState (<[bus_id b := c]> (animationState m)) m in
      Done (pan m)
    end
  | Some r =>
    let m := animateBus (bus_id b) (la, ln) m in
    let m := setMarkers
               (alter (fun k => {| m_latlng := m_latlng k; m_icon := icon;
                                   m_popup := m_popup k |})
                      r (markers m)) m in
    match busPopup b with
    | None => Threw m
    | Some pop =>
      let m := setMarkers
                 (alter (fun k => {| m_latlng := m_latlng k; m_icon := m_icon k;
                                     m_popup := Some pop |})
                        r (markers m)) m in
      Done (pan m)
    end
  end.

(** A number is falsy when missing or zero. *)
Definition falsy_num (o : option Q) : bool :=
  match o with
  | Some x => Qeq_bool x 0
  | None => true
  end.

(** drawMovementTrail *)
Definition drawMovementTrail (b : Bus) (la ln : Q) (m : MapState) : MapState :=
  match prev_lat b, prev_lng b with
  | Some pla, Some pln =>
    if falsy_num (prev_lat b) || falsy_num (prev_lng b) then m
    else
      let l := layers m in
      let line := {| pl_points := [(pla, pln); (la, ln)]; pl_color := Hex "#94a3b8";
                     pl_weight := 2; pl_opacity := 25 # 100 |} in
      setLayers {| movementLayer := (movementLayer l ++ [line])%list;
                   emergencyRouteLayer := emergencyRouteLayer l;
                   arrowLayer := arrowLayer l; stationLayer := stationLayer l;
                   markerLayer := markerLayer l |} m
  | _, _ => m
  end.

(** drawArrow: the arrow sits at [points[floor(length / 2)]]. *)
Definition drawArrow (points : list LatLng) (m : MapState) : MapState :=
  match points !! (length points / 2)%nat with
  | Some mid =>
    let l := layers m in
    setLayers {| movementLayer := movementLayer l;
                 emergencyRouteLayer := emergencyRouteLayer l;
                 arrowLayer := (arrowLayer l ++ [mid])%list;
                 stationLayer := stationLayer l;
                 markerLayer := markerLayer l |} m
  | None => m
  end.

Definition chargerColor (s : Station) : string :=
  if available s then "#22c55e" else "#facc15".

(** L.circleMarker(...).addTo(stationLayer) followed by the assignment
    to [stationMarkers]. *)
Definition addStationMarker (s : Station) (radius : Z) (m : MapState) : MapState :=
  let mk := {| sm_latlng := (st_lat s, st_lng s); sm_radius := radius;
               sm_color := chargerColor s; sm_name := name s;
               sm_available := available s |} in
  let l := layers m in
  let m := setLayers {| movementLayer := movementLayer l;
                        emergencyRouteLayer := emergencyRouteLayer l;
                        arrowLayer := arrowLayer l;
                        stationLayer := (stationLayer l ++ [mk])%list;
                        markerLayer := markerLayer l |} m in
  setStations (<[name s := mk]> (stationMarkers m))
              (stationsCreated m ++ [name s])%list m.

(** drawOptimizedEmergencyRoute, for a bus with a station. *)
Definition drawOptimizedEmergencyRoute (la ln : Q) (s : Station) (m : MapState)
  : MapState :=
  let route := [(la, ln); (st_lat s, st_lng s)] in
  let m := addStationMarker s 8 m in
  let l := layers m in
  let base := {| pl_points := route; pl_color := Hex "#e5e7eb";
                 pl_weight := 10; pl_opacity := 9 # 10 |} in
  let overlay := {| pl_points := route; pl_color := Traffic;
                    pl_weight := 5; pl_opacity := 1 |} in
  let m := setLayers {| movementLayer := movementLayer l;
                        emergencyRouteLayer := (emergencyRouteLayer l ++ [base; overlay])%list;
                        arrowLayer := arrowLayer l; stationLayer := stationLayer l;
                        markerLayer := markerLayer l |} m in
  drawArrow route m.

(** drawStation *)
Definition drawStation (s : Station) (m : MapState) : MapState :=
  match stationMarkers m !! name s with
  | Some _ => m
  | None => addStationMarker s 6 m
  end.

Definition clearLayers (m : MapState) : MapState :=
  setLayers {| movementLayer := []; emergencyRouteLayer := []; arrowLayer := [];
               stationLayer := []; markerLayer := markerLayer (layers m) |} m.

(** [forEach] with a callback that may throw: the first throw ends the
    loop and keeps what was done so far. *)
Fixpoint forEach {A B : Type} (f : A -> B -> Outcome B) (l : list A) (acc : B)
  : Outcome B :=
  match l with
  | [] => Done acc
  | x :: l' =>
    match f x acc with
    | Done acc' => forEach f l' acc'
    | Threw acc' => Threw acc'
    end
  end.

(** The callback of [buses.forEach] in updateMap; the local set
    [activeIds] is threaded with the map state. *)
Definition visit (selectedBusId : string) (b : Bus) (acc : gset string * MapState)
  : Outcome (gset string * MapState) :=
  match lat b, lng b with
  | Some la, Some ln =>
    let activeIds := {[bus_id b]} ∪ fst acc in
    match drawBus selectedBusId b la ln (snd acc) with
    | Threw m => Threw (activeIds, m)
    | Done m =>
      let m := drawMovementTrail b la ln m in
      match charging_station b with
      | Some s =>
        if String.eqb (status b) "CRITICAL"
        then Done (activeIds, drawOptimizedEmergencyRoute la ln s m)
        else Done (activeIds, drawStation s m)
      | None => Done (activeIds, m)
      end
    end
  | _, _ => Done acc
  end.

(** The callback of [Object.keys(busMarkers).forEach]. *)
Definition removeInactive (activeIds : gset string) (m : MapState) (id : string)
  : MapState :=
  if bool_decide (id ∈ activeIds) then m
  else
    let l := layers m in
    let kept := match busMarkers m !! id with
                | Some r => filter (fun x => x ≠ r) (markerLayer l)
                | None => markerLayer l
                end in
    let m := setLayers {| movementLayer := movementLayer l;
                          emergencyRouteLayer := emergencyRouteLayer l;
                          arrowLayer := arrowLayer l; stationLayer := stationLayer l;
                          markerLayer := kept |} m in
    let m := setBusMarkers (delete id (busMarkers m)) m in
    setAnimationState (delete id (animationState m)) m.

(** updateMap. The keys of [busMarkers] are visited in the order the
    finite map lists them; the result does not depend on the order. *)
Definition updateMap (selectedBusId : string) (bs : list Bus) (m : MapState)
  : Outcome MapState :=
  match forEach (visit selectedBusId) bs (∅, clearLayers m) with
  | Threw acc => Threw (snd acc)
  | Done acc =>
    Done (foldl (removeInactive (fst acc)) (snd acc)
                (map fst (map_to_list (busMarkers (snd acc)))))
  end.

(** A row of #routeTable: the bus its click handler closes over, and
    the cells. *)
Record Row := { row_bus : Bus; row_soc : Q; row_color : string }.

(** The callback of [buses.forEach] in renderTable. *)
Definition addRow (b : Bus) (rows : list Row) : Outcome (list Row) :=
  match soc b with
  | Some s => Done (rows ++ [{| row_bus := b; row_soc := s;
                                row_color := statusColor (status b) |}])%list
  | None => Threw rows
  end.

(** renderTable *)
Definition renderTable (bs : list Bus) : Outcome (list Row) :=
  forEach addRow bs [].

(** The page. [mapSearch] is the value of #mapSearch, [None] when the
    element is missing; [stored] is local-storage item "selectedBusId";
    [issued] counts the requests sent to /api/route and [inFlight] those
    not yet settled. *)
Record Page := {
  selectedBusId : string;
  stored : option string;
  isFetching : bool;
  countdown : Z;
  mapSearch : option string;
  routeStateText : text;
  routeStateDisplay : string;
  syncTimer : text;
  syncProgress : Q;
  tableRows : list Row;
  map : MapState;
  issued : nat;
  inFlight : nat
}.

Definition setSelected (id : string) (p : Page) : Page :=
  {| selectedBusId := id; stored := Some id; isFetching := isFetching p;
     countdown := countdown p; mapSearch := mapSearch p;
     routeStateText := routeStateText p; routeStateDisplay := routeStateDisplay p;
     syncTimer := syncTimer p; syncProgress := syncProgress p;
     tableRows := tableRows p; map := map p;
     issued := issued p; inFlight := inFlight p |}.

Definition setFetching (f : bool) (n k : nat) (p : Page) : Page :=
  {| selectedBusId := selectedBusId p; stored := stored p; isFetching := f;
     countdown := countdown p; mapSearch := mapSearch p;
     routeStateText := routeStateText p; routeStateDisplay := routeStateDisplay p;
     syncTimer := syncTimer p; syncProgress := syncProgress p;
     tableRows := tableRows p; map := map p;
     issued := n; inFlight := k |}.

Definition setCountdown (c : Z) (p : Page) : Page :=
  {| selectedBusId := selectedBusId p; stored := stored p; isFetching := isFetching p;
     countdown := c; mapSearch := mapSearch p;
     routeStateText := routeStateText p; routeStateDisplay := routeStateDisplay p;
     syncTimer := syncTimer p; syncProgress := syncProgress p;
     tableRows := tableRows p; map := map p;
     issued := issued p; inFlight := inFlight p |}.

Definition setSync (t : text) (w : Q) (p : Page) : Page :=
  {| selectedBusId := selectedBusId p; stored := stored p; isFetching := isFetching p;
     countdown := countdown p; mapSearch := mapSearch p;
     routeStateText := routeStateText p; routeStateDisplay := routeStateDisplay p;
     syncTimer := t; syncProgress := w;
     tableRows := tableRows p; map := map p;
     issued := issued p; inFlight := inFlight p |}.

Definition setSearch (q : option string) (p : Page) : Page :=
  {| selectedBusId := selectedBusId p; stored := stored p; isFetching := isFetching p;
     countdown := countdown p; mapSearch := q;
     routeStateText := routeStateText p; routeStateDisplay := routeStateDisplay p;
     syncTimer := syncTimer p; syncProgress := syncProgress p;
     tableRows := tableRows p; map := map p;
     issued := issued p; inFlight := inFlight p |}.

Definition setRouteState (t : text) (d : string) (p : Page) : Page :=
  {| selectedBusId := selectedBusId p; stored := stored p; isFetching := isFetching p;
     countdown := countdown p; mapSearch := mapSearch p;
     routeStateText := t; routeStateDisplay := d;
     syncTimer := syncTimer p; syncProgress := syncProgress p;
     tableRows := tableRows p; map := map p;
     issued := issued p; inFlight := inFlight p |}.

Definition setRows (rows : list Row) (p : Page) : Page :=
  {| selectedBusId := selectedBusId p; stored := stored p; isFetching := isFetching p;
     countdown := countdown p; mapSearch := mapSearch p;
     routeStateText := routeStateText p; routeStateDisplay := routeStateDisplay p;
     syncTimer := syncTimer p; syncProgress := syncProgress p;
     tableRows := rows; map := map p;
     issued := issued p; inFlight := inFlight p |}.

Definition setMap (m : MapState) (p : Page) : Page :=
  {| selectedBusId := selectedBusId p; stored := stored p; isFetching := isFetching p;
     countdown := countdown p; mapSearch := mapSearch p;
     routeStateText := routeStateText p; routeStateDisplay := routeStateDisplay p;
     syncTimer := syncTimer p; syncProgress := syncProgress p;
     tableRows := tableRows p; map := m;
     issued := issued p; inFlight := inFlight p |}.

(** fetchRouteStatus up to [await fetch]: the guard, and the request. *)
Definition fetchRouteStatus (p : Page) : Page :=
  if isFetching p then p
  else setFetching true (S (issued p)) (S (inFlight p)) p.

(** The predicate of [data.buses.filter] for the query [q]. *)
Definition matches (q : string) (b : Bus) : bool :=
  includes (toLowerCase (bus_id b)) q ||
  includes (toLowerCase (match charging_station b with
                         | Some s => if truthy (name s) then name s else ""
                         | None => ""
                         end)) q.

Definition query (p : Page) : string :=
  match mapSearch p with
  | Some v => toLowerCase v
  | None => ""
  end.

(** The [try] block of fetchRouteStatus after the awaits. *)
Definition poll_body (r : Response) (p : Page) : Outcome Page :=
  match r with
  | Rejected _ => Threw p
  | Resolved data =>
    if negb (success data) then Threw p
    else
      match buses data with
      | None => Threw p
      | Some bs =>
        let filtered := List.filter (matches (query p)) bs in
        match renderTable filtered with
        | Threw rows => Threw (setRows rows p)
        | Done rows =>
          let p := setRows rows p in
          match updateMap (selectedBusId p) filtered (map p) with
          | Threw m => Threw (setMap m p)
          | Done m => Done (setRouteState (routeStateText p) "none" (setMap m p))
          end
        end
      end
  end.

(** The [catch] block. *)
Definition on_catch (p : Page) : Page :=
  setRouteState [Lit "Live telemetry unavailable"] "block" p.

(** fetchRouteStatus from the settled request on: [try], [catch] and
    [finally]. *)
Definition settle (r : Response) (p : Page) : Page :=
  let p := match poll_body r p with
           | Done p => p
           | Threw p => on_catch p
           end in
  setCountdown REFRESH_INTERVAL (setFetching false (issued p) (pred (inFlight p)) p).

(** The [setInterval] callback. *)
Definition tick (p : Page) : Page :=
  let c := countdown p - 1 in
  let p := setCountdown c p in
  let p := setSync [Num (inject_Z c); Lit "s"]
                   (inject_Z c / inject_Z REFRESH_INTERVAL * 100)%Q p in
  if (c <=? 0)%Z then fetchRouteStatus p else p.

(** The click handler of a table row; flyTo needs both coordinates. *)
Definition rowClick (i : nat) (p : Page) : Page :=
  match tableRows p !! i with
  | None => p
  | Some row =>
    let b := row_bus row in
    let p := setSelected (bus_id b) p in
    match lat b, lng b with
    | Some la, Some ln => setMap (setView ((la, ln), 15) (map p)) p
    | _, _ => p
    end
  end.

(** What the event loop delivers to the page. *)
Inductive Event :=
  | Tick                         (* the one-second interval *)
  | SearchInput (v : string)     (* input on #mapSearch *)
  | Call                         (* fetchRouteStatus() from the load handler or the logs window *)
  | Settle (r : Response)        (* the outstanding request settles *)
  | Frame                        (* the display refreshes *)
  | RowClick (i : nat).

Definition step (p : Page) (e : Event) : Page :=
  match e with
  | Tick => tick p
  | SearchInput v =>
    match mapSearch p with
    | Some _ => fetchRouteStatus (setSearch (Some v) p)
    | None => p
    end
  | Call => fetchRouteStatus p
  | Settle r => if (0 <? inFlight p)%nat then settle r p else p
  | Frame => setMap (frame (map p)) p
  | RowClick i => rowClick i p
  end.

Definition run (p : Page) (es : list Event) : Page := foldl step p es.

(** The page once the script has run and initMap has set the view. *)
Definition initial (storedSelection : option string) (search : option string) : Page :=
  {| selectedBusId := or_default storedSelection "";
     stored := storedSelection;
     isFetching := false;
     countdown := 10;
     mapSearch := search;
     routeStateText := [];
     routeStateDisplay := "";
     syncTimer := [];
     syncProgress := 100;
     tableRows := [];
     map := {| layers := {| movementLayer := []; emergencyRouteLayer := [];
                            arrowLayer := []; stationLayer := []; markerLayer := [] |};
               view := ((185204 # 10000, 738567 # 10000)%Q, 13);
               busMarkers := ∅; animationState := ∅; stationMarkers := ∅;
               markers := ∅; cursors := ∅; next := 0; frames := [];
               stationsCreated := [] |};
     issued := 0;
     inFlight := 0 |}.

(** The identifiers of the buses updateMap does not skip. *)
Definition positioned (b : Bus) : bool :=
  match lat b, lng b with
  | Some _, Some _ => true
  | _, _ => false
  end.

Definition ids (bs : list Bus) : gset string := list_to_set (bus_id <$> bs).

(** The failures fetchRouteStatus tests for: a rejected request or
    unparsable body, or a falsy success flag. *)
Definition failed (r : Response) : bool :=
  match r with
  | Rejected _ => true
  | Resolved data => negb (success data)
  end.

End Route.

(** ** maintenance.js *)
Module Maintenance.

Record MRecord := {
  bus_id : option string;
  last_service : option string;
  next_service : option string;
  status : option string
}.

(** [json.data]: a KPI is [Some] when [Number.isFinite] holds of it,
    [records] when [Array.isArray] does. *)
Record Data := {
  upcoming_services : option Q;
  active_alerts : option Q;
  avg_battery_health : option Q;
  records : option (list MRecord)
}.

Record Json := { success : bool; error : option string; data : option Data }.

Inductive Response :=
  | Rejected (e : EngineError)
  | Resolved (ok : bool) (json : Json).

Record StateBox := { sb_text : text; sb_class : string; sb_display : string }.

Record Row := {
  row_bus : string;
  row_last : string;
  row_next : string;
  row_status : string;
  row_class : string
}.

(** The elements loadMaintenance paints. The load handler has checked
    that the table, its body, the status box and the three KPI elements
    exist; #maintenanceCount is not checked, so [maintenanceCount] is
    [None] when it is missing. *)
Record Page := {
  upcomingServices : text;
  activeAlerts : text;
  avgBatteryHealth : text;
  tableBody : list Row;
  tableState : StateBox;
  maintenanceCount : option text
}.

Definition setKPIs (u a h : text) (p : Page) : Page :=
  {| upcomingServices := u; activeAlerts := a; avgBatteryHealth := h;
     tableBody := tableBody p; tableState := tableState p;
     maintenanceCount := maintenanceCount p |}.

Definition setRows (rows : list Row) (p : Page) : Page :=
  {| upcomingServices := upcomingServices p; activeAlerts := activeAlerts p;
     avgBatteryHealth := avgBatteryHealth p;
     tableBody := rows; tableState := tableState p;
     maintenanceCount := maintenanceCount p |}.

Definition setState (b : StateBox) (p : Page) : Page :=
  {| upcomingServices := upcomingServices p; activeAlerts := activeAlerts p;
     avgBatteryHealth := avgBatteryHealth p;
     tableBody := tableBody p; tableState := b;
     maintenanceCount := maintenanceCount p |}.

(** [maintenanceCountEl.textContent = t]; [None] when the element is
    missing and the assignment throws. *)
Definition setCount (t : text) (p : Page) : option Page :=
  match maintenanceCount p with
  | None => None
  | Some _ =>
    Some {| upcomingServices := upcomingServices p; activeAlerts := activeAlerts p;
            avgBatteryHealth := avgBatteryHealth p;
            tableBody := tableBody p; tableState := tableState p;
            maintenanceCount := Some t |}
  end.

(** showState *)
Definition showState (message : text) (isError : bool) (p : Page) : Page :=
  setState {| sb_text := message;
              sb_class := "state-box " ++ (if isError then "error" else "loading");
              sb_display := "block" |} p.

(** hideState *)
Definition hideState (p : Page) : Page :=
  setState {| sb_text := sb_text (tableState p); sb_class := "state-box";
              sb_display := "none" |} p.

(** statusClass *)
Definition statusClass (st : option string) : string :=
  let s := toLowerCase (match st with Some s => s | None => "" end) in
  if String.eqb s "critical" then "status-red"
  else if String.eqb s "warning" then "status-yellow"
  else "status-green".

(** createTableRow *)
Definition createTableRow (r : MRecord) : Row :=
  let dash (o : option string) := match o with Some s => s | None => "—" end in
  {| row_bus := dash (bus_id r); row_last := dash (last_service r);
     row_next := dash (next_service r);
     row_status := match status r with Some s => s | None => "Normal" end;
     row_class := statusClass (status r) |}.

(** loadMaintenance up to [await fetch]. *)
Definition loadMaintenance_start (p : Page) : Page :=
  showState [Lit "Fetching maintenance analytics…"] false p.

(** The [try] block after the awaits. *)
Definition try_body (r : Response) (p : Page) : Outcome Page :=
  match r with
  | Rejected _ => Threw p
  | Resolved ok json =>
    if negb ok || negb (success json) then Threw p
    else
      let d := match data json with
               | Some d => d
               | None => {| upcoming_services := None; active_alerts := None;
                            avg_battery_health := None; records := None |}
               end in
      let num (o : option Q) := match o with Some x => [Num x] | None => [Lit "—"] end in
      let p := setKPIs (num (upcoming_services d)) (num (active_alerts d))
                       (match avg_battery_health d with
                        | Some x => [Num x; Lit "%"]
                        | None => [Lit "—%"]
                        end) p in
      let p := setRows [] p in
      let rs := match records d with Some rs => rs | None => [] end in
      match rs with
      | [] =>
        match setCount [Lit "0 records"] p with
        | None => Threw p
        | Some p => Done (showState [Lit "No maintenance records available"] false p)
        end
      | _ =>
        let p := setRows (map createTableRow rs) p in
        match setCount [Num (inject_Z (Z.of_nat (length rs))); Lit " records"] p with
        | None => Threw p
        | Some p => Done (hideState p)
        end
      end
  end.

(** loadMaintenance from the settled request on; [Threw] when the
    [catch] block itself throws. *)
Definition loadMaintenance_response (r : Response) (p : Page) : Outcome Page :=
  match try_body r p with
  | Done p => Done p
  | Threw p =>
    match setCount [Lit "—"] p with
    | None => Threw p
    | Some p => Done (showState [Lit "Failed to load maintenance data"] true p)
    end
  end.

Definition failed (r : Response) : bool :=
  match r with
  | Rejected _ => true
  | Resolved ok json => negb ok || negb (success json)
  end.

End Maintenance.

(** ** dashboard.js *)
Module Dashboard.

Record Alert := { level : option string; issue : option string; alert_bus : string }.
Record HistoryPoint := { timestamp : string; value : Q }.
Record StatusCounts := { active : option Q; idle : option Q; critical : option Q }.

(** [json.data] of /api/dashboard/kpis. *)
Record Metrics := {
  avg_soc : option Q;
  avg_soh : option Q;
  total_energy : option Q;
  fleet_readiness : option Q;
  co2_savings : option Q;
  alerts : option (list Alert);
  energy_history : option (list HistoryPoint);
  status_counts : option StatusCounts
}.

Record Json := { success : bool; error : option string; data : option Metrics }.

Inductive Response :=
  | Rejected (e : EngineError)
  | Resolved (ok : bool) (json : Json).

Record AlertItem := {
  item_color : string;
  item_bg : string;
  item_bus : string;
  item_issue : string
}.

(** #alerts and #alertsState. *)
Record AlertsBox := {
  items : list AlertItem;
  state_display : string;
  state_html : text
}.

Record LineChart := { labels : list string; values : list Q }.

(** The page: [texts] maps the id of each element that exists to its
    innerText; [alertsBox] is [None] unless both alert elements exist;
    a canvas flag says whether the canvas exists. *)
Record Page := {
  texts : gmap string text;
  alertsBox : option AlertsBox;
  energyCanvas : bool;
  energyChart : option LineChart;
  statusCanvas : bool;
  statusChart : option (list Q)
}.

Definition setTexts (t : gmap string text) (p : Page) : Page :=
  {| texts := t; alertsBox := alertsBox p;
     energyCanvas := energyCanvas p; energyChart := energyChart p;
     statusCanvas := statusCanvas p; statusChart := statusChart p |}.

Definition setAlerts (a : option AlertsBox) (p : Page) : Page :=
  {| texts := texts p; alertsBox := a;
     energyCanvas := energyCanvas p; energyChart := energyChart p;
     statusCanvas := statusCanvas p; statusChart := statusChart p |}.

Definition setEnergyChart (c : option LineChart) (p : Page) : Page :=
  {| texts := texts p; alertsBox := alertsBox p;
     energyCanvas := energyCanvas p; energyChart := c;
     statusCanvas := statusCanvas p; statusChart := statusChart p |}.

Definition setStatusChart (c : option (list Q)) (p : Page) : Page :=
  {| texts := texts p; alertsBox := alertsBox p;
     energyCanvas := energyCanvas p; energyChart := energyChart p;
     statusCanvas := statusCanvas p; statusChart := c |}.

(** safeUpdateText *)
Definition safeUpdateText (id : string) (t : text) (p : Page) : Page :=
  match texts p !! id with
  | Some _ => setTexts (<[id := t]> (texts p)) p
  | None => p
  end.

(** [x || 0] on a number. *)
Definition or0 (o : option Q) : Q :=
  match o with
  | Some x => if Qeq_bool x 0 then 0%Q else x
  | None => 0%Q
  end.

(** The callback of [alerts.forEach]; it throws when [a.issue] is
    missing and has to be lower-cased. *)
Definition addAlert (a : Alert) (b : AlertsBox) : Outcome AlertsBox :=
  let add (isCritical : bool) (shown : string) :=
    {| items := (items b ++
                 [{| item_color := if isCritical then "#ef4444" else "#f59e0b";
                     item_bg := if isCritical then "rgba(239, 68, 68, 0.08)"
                                else "rgba(245, 158, 11, 0.05)";
                     item_bus := alert_bus a; item_issue := shown |}])%list;
       state_display := state_display b; state_html := state_html b |} in
  let shown := match issue a with Some s => s | None => "undefined" end in
  if match level a with Some l => String.eqb l "critical" | None => false end
  then Done (add true shown)
  else match issue a with
       | None => Threw b
       | Some s => Done (add (includes (toLowerCase s) "degradation") shown)
       end.

Fixpoint forEach_alert (l : list Alert) (b : AlertsBox) : Outcome AlertsBox :=
  match l with
  | [] => Done b
  | a :: l' =>
    match addAlert a b with
    | Done b' => forEach_alert l' b'
    | Threw b' => Threw b'
    end
  end.

(** updateAlerts *)
Definition updateAlerts (al : list Alert) (p : Page) : Outcome Page :=
  match alertsBox p with
  | None => Done p
  | Some b =>
    let b := {| items := []; state_display := state_display b;
                state_html := state_html b |} in
    match al with
    | [] =>
      Done (setAlerts (Some {| items := items b; state_display := "block";
                               state_html := [Lit "✔ Fleet Status Optimal"] |}) p)
    | _ =>
      let b := {| items := items b; state_display := "none";
                  state_html := state_html b |} in
      match forEach_alert al b with
      | Done b => Done (setAlerts (Some b) p)
      | Threw b => Threw (setAlerts (Some b) p)
      end
    end
  end.

(** updateEnergyChart *)
Definition updateEnergyChart (history : list HistoryPoint) (p : Page) : Page :=
  if negb (energyCanvas p) then p
  else setEnergyChart (Some {| labels := map timestamp history;
                               values := map value history |}) p.

(** updateStatusChart *)
Definition updateStatusChart (counts : option StatusCounts) (p : Page) : Page :=
  if negb (statusCanvas p) then p
  else
    let vs := match counts with
              | Some c => [or0 (active c); or0 (idle c); or0 (critical c)]
              | None => [0%Q; 0%Q; 0%Q]
              end in
    setStatusChart (Some vs) p.

(** showDashboardFallback *)
Definition showDashboardFallback (p : Page) : Page :=
  foldl (fun p id => safeUpdateText id [Lit "SYNCING..."] p) p
        ["avgSoc"; "avgSoh"; "energy"; "fleetReadiness"; "co2Savings"].

(** fetchDashboardMetrics from the settled request on. *)
Definition fetchDashboardMetrics_response (r : Response) (p : Page) : Page :=
  match r with
  | Rejected _ => showDashboardFallback p
  | Resolved ok json =>
    if negb ok || negb (success json) then showDashboardFallback p
    else
      let m := match data json with
               | Some m => m
               | None => {| avg_soc := None; avg_soh := None; total_energy := None;
                            fleet_readiness := None; co2_savings := None;
                            alerts := None; energy_history := None;
                            status_counts := None |}
               end in
      let p := safeUpdateText "avgSoc" [Num (or0 (avg_soc m)); Lit "%"] p in
      let p := safeUpdateText "avgSoh" [Num (or0 (avg_soh m)); Lit "%"] p in
      let p := safeUpdateText "energy" [Num (or0 (total_energy m)); Lit " kWh"] p in
      let p := safeUpdateText "fleetReadiness" [Num (or0 (fleet_readiness m)); Lit "%"] p in
      let p := safeUpdateText "co2Savings" [Num (or0 (co2_savings m)); Lit " kg"] p in
      match updateAlerts (match alerts m with Some l => l | None => [] end) p with
      | Threw p => showDashboardFallback p
      | Done p =>
        let p := updateEnergyChart
                   (match energy_history m with Some h => h | None => [] end) p in
        updateStatusChart (status_counts m) p
      end
  end.

Definition failed (r : Response) : bool :=
  match r with
  | Rejected _ => true
  | Resolved ok json => negb ok || negb (success json)
  end.

Definition kpi_ids : list string :=
  ["avgSoc"; "avgSoh"; "energy"; "fleetReadiness"; "co2Savings"].

End Dashboard.

(** ** signup.js *)
Module Signup.

Record Form := {
  name : string;
  organization : string;
  email : string;
  password : string;
  confirmPassword : string
}.

Record Body := {
  body_name : string;
  body_email : string;
  body_organization : string;
  body_password : string
}.

(** The outcome of the request: the status flag and [data.error]. *)
Inductive Response :=
  | Rejected (e : EngineError)
  | Resolved (ok : bool) (error : option string).

Record Page := {
  messageText : text;
  messageClasses : list string;
  messageDisplay : string;
  buttonDisabled : bool;
  buttonText : string;
  timers : list string;
  sent : list Body
}.

Definition setMessage (t : text) (cs : list string) (d : string) (p : Page) : Page :=
  {| messageText := t; messageClasses := cs; messageDisplay := d;
     buttonDisabled := buttonDisabled p; buttonText := buttonText p;
     timers := timers p; sent := sent p |}.

Definition setButton (d : bool) (t : string) (p : Page) : Page :=
  {| messageText := messageText p; messageClasses := messageClasses p;
     messageDisplay := messageDisplay p;
     buttonDisabled := d; buttonText := t;
     timers := timers p; sent := sent p |}.

Definition post (b : Body) (p : Page) : Page :=
  {| messageText := messageText p; messageClasses := messageClasses p;
     messageDisplay := messageDisplay p;
     buttonDisabled := buttonDisabled p; buttonText := buttonText p;
     timers := timers p; sent := (sent p ++ [b])%list |}.

Definition setTimeout_href (href : string) (p : Page) : Page :=
  {| messageText := messageText p; messageClasses := messageClasses p;
     messageDisplay := messageDisplay p;
     buttonDisabled := buttonDisabled p; buttonText := buttonText p;
     timers := (timers p ++ [href])%list; sent := sent p |}.

(** showMessage *)
Definition showMessage (msg : text) (type : string) (p : Page) : Page :=
  setMessage msg (classList_add type (messageClasses p)) "block" p.

(** The submit handler up to [await fetch]. *)
Definition submit (f : Form) (p : Page) : Page * option Body :=
  let p := setMessage [Lit ""] ["state-box"] "none" p in
  let nm := trim (name f) in
  let em := trim (email f) in
  if negb (truthy nm) || negb (truthy (organization f)) || negb (truthy em)
     || negb (truthy (password f)) || negb (truthy (confirmPassword f)) then
    (showMessage [Lit "All fields are required."] "error" p, None)
  else if negb (String.eqb (password f) (confirmPassword f)) then
    (showMessage [Lit "Passwords do not match."] "error" p, None)
  else
    let b := {| body_name := nm; body_email := em;
                body_organization := organization f;
                body_password := password f |} in
    (post b (setButton true "Creating account..." p), Some b).

(** The [catch] block, on an error with message [m]. *)
Definition on_catch (m : frag) (p : Page) : Page :=
  setButton false "Sign Up" (showMessage [m] "error" p).

(** The submit handler from the settled request on. *)
Definition response (r : Response) (p : Page) : Page :=
  match r with
  | Rejected e => on_catch (ErrMessage e) p
  | Resolved ok err =>
    if negb ok then on_catch (Lit (or_default err "Signup failed")) p
    else
      setTimeout_href "/login.html"
        (showMessage [Lit "Account created successfully! Redirecting to login..."]
                     "success" p)
  end.

Definition failed (r : Response) : bool :=
  match r with
  | Rejected _ => true
  | Resolved ok _ => negb ok
  end.

Definition failure_message (r : Response) : frag :=
  match r with
  | Rejected e => ErrMessage e
  | Resolved _ err => Lit (or_default err "Signup failed")
  end.

End Signup.

(** ** Vocabulary of the statements *)

(** The state a block leaves, whether it threw or not. *)
Definition outcome_state {A : Type} (o : Outcome A) : A :=
  match o with Done a => a | Threw a => a end.

(** The guard flag of fetchRouteStatus mirrors the outstanding request. *)
Definition guard_inv (p : Route.Page) : Prop :=
  Route.inFlight p = if Route.isFetching p then 1%nat else 0%nat.

(** [n] display refreshes in a row. *)
Definition after_frames (n : nat) (m : Route.MapState) : Route.MapState :=
  Nat.iter n Route.frame m.

(** The stepper as run_step queues it again. *)
Definition bump (st : Route.Stepper) : Route.Stepper :=
  {| Route.s_marker := Route.s_marker st; Route.s_state := Route.s_state st;
     Route.s_i := S (Route.s_i st);
     Route.s_dLat := Route.s_dLat st; Route.s_dLng := Route.s_dLng st |}.

(** A component of a stepper that queueing does not change. *)
Definition stable (d : Route.Stepper -> Q) : Prop :=
  forall st, d (bump st) = d st.

Fixpoint sumQ (f : Route.Stepper -> Q) (l : list Route.Stepper) : Q :=
  match l with
  | [] => 0%Q
  | st :: l' => (f st + sumQ f l')%Q
  end.

(** The steps a queued stepper has left. *)
Definition remaining (st : Route.Stepper) : nat := (Route.steps - Route.s_i st)%nat.

(** What a queued stepper adds to the cursor [sr] within the next [n]
    frames, in the component [d]. *)
Definition pending (d : Route.Stepper -> Q) (sr n : nat) (st : Route.Stepper) : Q :=
  if Nat.eqb (Route.s_state st) sr
  then (inject_Z (Z.of_nat (Nat.min n (remaining st))) * d st)%Q
  else 0%Q.

(** No queued stepper holds the cursor [sr]. *)
Definition idle (sr : nat) (m : Route.MapState) : bool :=
  forallb (fun st => negb (Nat.eqb (Route.s_state st) sr)) (Route.frames m).

(** The per-step increment animateBus computes. *)
Definition increment (target current : Q) : Q :=
  ((target - current) / inject_Z (Z.of_nat Route.steps))%Q.

(** The stepper animateBus leaves in the queue after its first step. *)
Definition first_stepper (mr sr : nat) (a : Route.Cursor) (b : Route.LatLng)
  : Route.Stepper :=
  {| Route.s_marker := mr; Route.s_state := sr; Route.s_i := 1;
     Route.s_dLat := increment (fst b) (Route.c_lat a);
     Route.s_dLng := increment (snd b) (Route.c_lng a) |}.

(** ** Sample pages and responses *)
Module Sample.

Definition login_page : Login.Page :=
  {| Login.localStorage := ∅; Login.messageText := [Lit ""];
     Login.messageClass := "state-box hidden";
     Login.messageDisplay := "none";
     Login.buttonDisabled := true; Login.buttonText := "Logging in...";
     Login.timers := []; Login.location := "/login.html";
     Login.sent := [("jo@x.org", "pw")] |}.

Definition login_ok : Login.LoginData :=
  {| Login.success := true; Login.token := Some "abc"; Login.error := None;
     Login.user := Some {| Login.name := Some "Jo"; Login.role := None;
                           Login.email := None |} |}.

Definition login_denied : Login.Response :=
  Login.Resolved true
    {| Login.success := false; Login.token := None;
       Login.error := Some "Invalid credentials"; Login.user := None |}.

Definition me_server (tok : string) : AuthGuard.MeResponse :=
  AuthGuard.MeResolved true
    (Some {| AuthGuard.name := "Jo"; AuthGuard.email := "jo@x.org";
             AuthGuard.role := "admin" |}).

Definition browser_after_login : AuthGuard.Browser :=
  {| AuthGuard.localStorage :=
       Login.localStorage
         (Login.loginUser_response "jo@x.org" (Login.Resolved true login_ok) login_page);
     AuthGuard.location := "/index.html";
     AuthGuard.currentUser := None; AuthGuard.requests := [];
     AuthGuard.alerts := []; AuthGuard.wentBack := false |}.

Definition bus (id : string) (la ln : Q) (st : string) (cs : option Route.Station)
  : Route.Bus :=
  {| Route.bus_id := id; Route.lat := Some la; Route.lng := Some ln;
     Route.prev_lat := None; Route.prev_lng := None; Route.soc := Some 80%Q;
     Route.status := st; Route.route_id := "R1"; Route.charging_station := cs |}.

(** A bus the server reports without a position. *)
Definition lost_bus (id : string) : Route.Bus :=
  {| Route.bus_id := id; Route.lat := None; Route.lng := None;
     Route.prev_lat := None; Route.prev_lng := None; Route.soc := Some 80%Q;
     Route.status := "GOOD"; Route.route_id := "R1";
     Route.charging_station := None |}.

Definition ok (bs : list Route.Bus) : Route.Response :=
  Route.Resolved {| Route.success := true; Route.buses := Some bs |}.

Definition station_S1 : Route.Station :=
  {| Route.name := "S1"; Route.st_lat := 1; Route.st_lng := 1;
     Route.available := true |}.

(** The page after loading, with an empty search box, its first poll
    outstanding. *)
Definition polling_page : Route.Page :=
  Route.run (Route.initial None (Some "")) [Route.Call].

(** One bus shown at (0,0), nothing moving. *)
Definition one_bus_page : Route.Page :=
  Route.run polling_page [Route.Settle (ok [bus "EV-1" 0 0 "GOOD" None])].

(** The same bus sent towards (40,0): its stepper has made its first
    step and is queued. *)
Definition moving_page : Route.Page :=
  Route.run one_bus_page
    [Route.Call; Route.Settle (ok [bus "EV-1" 40 0 "GOOD" None])].

(** A further poll is outstanding while the bus moves. *)
Definition repolling_page : Route.Page :=
  Route.run moving_page [Route.Call].

(** A further poll, before any frame, sends the bus back to (0,0); then
    39 frames pass. *)
Definition retargeted_page : Route.Page :=
  Route.run moving_page
    ([Route.Call; Route.Settle (ok [bus "EV-1" 0 0 "GOOD" None])]
       ++ repeat Route.Frame 39)%list.

(** One poll with two critical buses heading for the same station S1. *)
Definition critical_pair : list Route.Event :=
  [Route.Call;
   Route.Settle (ok [bus "EV-1" 0 0 "CRITICAL" (Some station_S1);
                     bus "EV-2" 2 2 "CRITICAL" (Some station_S1)])].

(** Two polls, each with a critical bus heading for station S1. *)
Definition critical_twice : list Route.Event :=
  [Route.Call; Route.Settle (ok [bus "EV-1" 0 0 "CRITICAL" (Some station_S1)]);
   Route.Call; Route.Settle (ok [bus "EV-1" 0 0 "CRITICAL" (Some station_S1)])].

(** The search box holds "ev-2" while the poll is outstanding. *)
Definition searching_page : Route.Page :=
  Route.run (Route.initial None (Some "ev-2")) [Route.Call].

Definition prediction_page : Prediction.Page :=
  {| Prediction.endSoc := [Lit "--%"]; Prediction.risk := [Lit "--"];
     Prediction.riskColor := "inherit"; Prediction.speed := [Lit "-- km/h"];
     Prediction.messageText := []; Prediction.messageClasses := ["state-box"; "hidden"];
     Prediction.btnDisabled := false; Prediction.btnText := "Predict Trip";
     Prediction.canvas := true; Prediction.predictionChart := None;
     Prediction.destroyed := 0; Prediction.sent := [] |}.

Definition prediction_form : Prediction.Form :=
  {| Prediction.routeId := "R1"; Prediction.passengers := Some 30%Q;
     Prediction.weather := "Sunny" |}.

Definition prediction_ok : Prediction.Response :=
  Prediction.Resolved true
    {| Prediction.success := true; Prediction.error := None;
       Prediction.data :=
         Some {| Prediction.predicted_end_soc := 42; Prediction.recommended_speed := 35;
                 Prediction.risk_level := "WARNING";
                 Prediction.energy_curve :=
                   Some [{| Prediction.distance := 0; Prediction.soc := 95 |};
                         {| Prediction.distance := 10; Prediction.soc := 42 |}] |} |}.

(** The prediction page after one successful prediction and the start
    of a second one. *)
Definition predicted_page : Prediction.Page :=
  fst (Prediction.predictTrip_start prediction_form
         (Prediction.predictTrip_response prediction_ok
            (fst (Prediction.predictTrip_start prediction_form prediction_page)))).

Definition logs_page : Logs.Page :=
  {| Logs.tableState := Some {| Logs.sb_text := [Lit "Fetching logs…"];
                                Logs.sb_class := "state-box loading";
                                Logs.sb_display := "block" |};
     Logs.tableBody := Some [];
     Logs.activeBuses := [];
     Logs.stored := None;
     Logs.routeWindow := false;
     Logs.routeCalls := [];
     Logs.sent := [("EV-1", 100)] |}.

Definition maintenance_page : Maintenance.Page :=
  {| Maintenance.upcomingServices := [Num 3]; Maintenance.activeAlerts := [Num 1];
     Maintenance.avgBatteryHealth := [Num 91; Lit "%"];
     Maintenance.tableBody := [];
     Maintenance.tableState :=
       {| Maintenance.sb_text := [Lit "Fetching maintenance analytics…"];
          Maintenance.sb_class := "state-box loading";
          Maintenance.sb_display := "block" |};
     Maintenance.maintenanceCount := Some [Lit "0 records"] |}.

Definition dashboard_page : Dashboard.Page :=
  {| Dashboard.texts := {[ "avgSoc" := [Num 77; Lit "%"]; "energy" := [Num 12; Lit " kWh"] ]};
     Dashboard.alertsBox := None;
     Dashboard.energyCanvas := true; Dashboard.energyChart := None;
     Dashboard.statusCanvas := true; Dashboard.statusChart := None |}.

Definition signup_page : Signup.Page :=
  {| Signup.messageText := [Lit ""]; Signup.messageClasses := ["state-box"];
     Signup.messageDisplay := "none";
     Signup.buttonDisabled := true; Signup.buttonText := "Creating account...";
     Signup.timers := []; Signup.sent := [] |}.

End Sample.


(** ** logs.js: the handlers of the table buttons *)
Module LogsHandlers.

(** The click handler of a row's remove button, for the bus [id] of that
    row; [Threw] when renderLogsTable throws. *)
Definition removeBus (id : string) (p : Logs.Page) : Outcome Logs.Page :=
  let bs := List.filter (fun b => negb (String.eqb (Logs.bus_id b) id)) (Logs.activeBuses p) in
  let p := Logs.setBuses bs (Some bs) p in
  match Logs.renderLogsTable p with
  | None => Threw p
  | Some p => Done (Logs.notifyRoute p)
  end.

(** The click handler of #closeLogs. *)
Definition closeAll (p : Logs.Page) : Outcome Logs.Page :=
  let p := Logs.setBuses [] None p in
  match Logs.renderLogsTable p with
  | None => Threw p
  | Some p =>
    Done (if Logs.routeWindow p
          then Logs.setTraffic (Logs.routeCalls p ++ [[]])%list (Logs.sent p) p
          else p)
  end.

End LogsHandlers.

(** ** logs.js: exportCSV *)
Module LogsExport.

(** The outcome of the export request: [body] is the text of the
    response, [None] when [res.text()] rejects. *)
Inductive Response :=
  | Rejected (e : EngineError)
  | Resolved (ok : bool) (body : option string).

(** The page of logs.js with what exportCSV adds to it: the alert dialogs
    shown, the export queries sent, and the files handed to the browser,
    each as the bus id in its name and its CSV text (the name also holds
    the time of the export). *)
Record Page := {
  logs : Logs.Page;
  alerts : list string;
  queries : list (string * Z);
  downloads : list (string * string)
}.

Definition alert (msg : string) (p : Page) : Page :=
  {| logs := logs p; alerts := (alerts p ++ [msg])%list;
     queries := queries p; downloads := downloads p |}.

Definition send (q : string * Z) (p : Page) : Page :=
  {| logs := logs p; alerts := alerts p;
     queries := (queries p ++ [q])%list; downloads := downloads p |}.

Definition download (busId csv : string) (p : Page) : Page :=
  {| logs := logs p; alerts := alerts p;
     queries := queries p; downloads := (downloads p ++ [(busId, csv)])%list |}.

(** exportCSV up to [await fetch]; [limitField] is [parseInt] of the
    field, [None] for NaN. *)
Definition exportCSV_start (busIdField : string) (limitField : option Z) (p : Page)
  : Page * option (string * Z) :=
  let busId := trim busIdField in
  if negb (truthy busId) then
    (alert "Please enter a Bus ID to export telemetry" p, None)
  else
    let parsed := match limitField with
                  | Some n => if (n =? 0)%Z then 10000 else n
                  | None => 10000
                  end in
    let limit := Z.min (Z.max parsed 1) 10000 in
    (send (busId, limit) p, Some (busId, limit)).

(** The [catch] block of exportCSV. *)
Definition on_catch (p : Page) : Page :=
  alert "Failed to export CSV. Check console for details." p.

(** exportCSV from the outcome of the request on, for the bus id it
    was started with. *)
Definition exportCSV_response (busId : string) (r : Response) (p : Page) : Page :=
  match r with
  | Rejected _ => on_catch p
  | Resolved false _ => on_catch p
  | Resolved true None => on_catch p
  | Resolved true (Some csv) =>
    if negb (truthy csv) || String.eqb (trim csv) "" then
      alert "No telemetry records to export" p
    else download busId csv p
  end.

End LogsExport.

(** ** Remote calls as the failure policy sees them *)

(** The symptoms of a failed remote call: the request is rejected or its
    body cannot be read, the response has a non-success HTTP status, the
    body carries a falsy success flag. *)
Inductive Symptom := NetworkError | BadStatus | FailureFlag.

(** The symptoms of an answer with status flag [ok] and success flag
    [success]. *)
Definition symptoms_of (ok success : bool) : list Symptom :=
  ((if ok then [] else [BadStatus]) ++ (if success then [] else [FailureFlag]))%list.

Definition prediction_symptoms (r : Prediction.Response) : list Symptom :=
  match r with
  | Prediction.Rejected _ => [NetworkError]
  | Prediction.Resolved ok json => symptoms_of ok (Prediction.success json)
  end.

(** loadLogs reads the body of an ok response only. *)
Definition logs_symptoms (r : Logs.Response) : list Symptom :=
  match r with
  | Logs.Rejected _ => [NetworkError]
  | Logs.Resolved false _ => [BadStatus]
  | Logs.Resolved true None => [NetworkError]
  | Logs.Resolved true (Some d) => symptoms_of true (Logs.success d)
  end.

Definition maintenance_symptoms (r : Maintenance.Response) : list Symptom :=
  match r with
  | Maintenance.Rejected _ => [NetworkError]
  | Maintenance.Resolved ok json => symptoms_of ok (Maintenance.success json)
  end.

Definition dashboard_symptoms (r : Dashboard.Response) : list Symptom :=
  match r with
  | Dashboard.Rejected _ => [NetworkError]
  | Dashboard.Resolved ok json => symptoms_of ok (Dashboard.success json)
  end.

Definition login_symptoms (r : Login.Response) : list Symptom :=
  match r with
  | Login.Rejected _ => [NetworkError]
  | Login.Resolved ok data => symptoms_of ok (Login.success data)
  end.

(** A settled signup request as it arrives. The handler reads the status
    flag and [data.error]; the success flag of the body is in none of its
    tests. *)
Inductive SignupArrival :=
  | SignupRejected (e : EngineError)
  | SignupAnswered (ok success : bool) (error : option string).

Definition signup_reads (a : SignupArrival) : Signup.Response :=
  match a with
  | SignupRejected e => Signup.Rejected e
  | SignupAnswered ok _ err => Signup.Resolved ok err
  end.

Definition signup_symptoms (a : SignupArrival) : list Symptom :=
  match a with
  | SignupRejected _ => [NetworkError]
  | SignupAnswered ok success _ => symptoms_of ok success
  end.

(** A settled request of /api/route as it arrives. fetchRouteStatus reads
    the body; the status flag is in none of its tests. *)
Inductive RouteArrival :=
  | RouteRejected (e : EngineError)
  | RouteAnswered (ok : bool) (d : Route.RouteData).

Definition route_reads (a : RouteArrival) : Route.Response :=
  match a with
  | RouteRejected e => Route.Rejected e
  | RouteAnswered _ d => Route.Resolved d
  end.

Definition route_symptoms (a : RouteArrival) : list Symptom :=
  match a with
  | RouteRejected _ => [NetworkError]
  | RouteAnswered ok d => symptoms_of ok (Route.success d)
  end.

(** The export answers with CSV text: there is no success flag. *)
Definition export_symptoms (r : LogsExport.Response) : list Symptom :=
  match r with
  | LogsExport.Rejected _ => [NetworkError]
  | LogsExport.Resolved false _ => [BadStatus]
  | LogsExport.Resolved true None => [NetworkError]
  | LogsExport.Resolved true (Some _) => []
  end.

(** /api/auth/me answers with the user: there is no success flag. *)
Definition me_symptoms (r : AuthGuard.MeResponse) : list Symptom :=
  match r with
  | AuthGuard.MeRejected => [NetworkError]
  | AuthGuard.MeResolved false _ => [BadStatus]
  | AuthGuard.MeResolved true _ => []
  end.

(** ** Vocabulary of the further properties *)



(** The position updateMap draws a bus at. *)
Definition position (b : Route.Bus) : option Route.LatLng :=
  match Route.lat b, Route.lng b with
  | Some la, Some ln => Some (la, ln)
  | _, _ => None
  end.

(** The test drawBus makes before it pans the map. *)
Definition focused (selectedBusId : string) (b : Route.Bus) : bool :=
  String.eqb (Route.bus_id b) selectedBusId || String.eqb (Route.status b) "CRITICAL".

Definition has_soc (b : Route.Bus) : bool :=
  match Route.soc b with Some _ => true | None => false end.

(** A bus that does not take the emergency-route branch of updateMap. *)
Definition calm (b : Route.Bus) : bool :=
  negb (String.eqb (Route.status b) "CRITICAL" &&
        match Route.charging_station b with Some _ => true | None => false end).

(** An event that brings no bus onto the emergency-route branch. *)
Definition calm_event (e : Route.Event) : bool :=
  match e with
  | Route.Settle (Route.Resolved d) =>
    match Route.buses d with
    | Some bs => forallb calm bs
    | None => true
    end
  | _ => true
  end.

(** The station of a bus is registered in [stationMarkers]. *)
Definition station_known (m : Route.MapState) (b : Route.Bus) : Prop :=
  match Route.charging_station b with
  | Some s => is_Some (Route.stationMarkers m !! Route.name s)
  | None => True
  end.

(** How the stores of the map hang together: a bus marker at reference
    [r] has its cursor at [S r], both exist, the steppers hold such pairs,
    a marker shows the position of its cursor, and references from [next]
    on are free. *)
Record paired (m : Route.MapState) : Prop := {
  paired_marker : forall id r,
    Route.busMarkers m !! id = Some r ->
    Route.animationState m !! id = Some (S r) /\
    is_Some (Route.markers m !! r) /\ is_Some (Route.cursors m !! S r);
  paired_state : forall id s,
    Route.animationState m !! id = Some s -> is_Some (Route.busMarkers m !! id);
  paired_frames : forall st,
    st ∈ Route.frames m -> Route.s_state st = S (Route.s_marker st);
  paired_position : forall r mk c,
    Route.markers m !! r = Some mk -> Route.cursors m !! S r = Some c ->
    Route.m_latlng mk = (Route.c_lat c, Route.c_lng c);
  paired_fresh : forall r,
    (Route.next m <= r)%nat ->
    Route.markers m !! r = None /\ Route.cursors m !! r = None
}.

(** Station markers are created once per name. *)
Definition stations_once (m : Route.MapState) : Prop :=
  NoDup (Route.stationsCreated m) /\
  forall n, n ∈ Route.stationsCreated m <-> is_Some (Route.stationMarkers m !! n).

(** Two map states that differ only in the layers, the view and the
    station bookkeeping. *)
Definition same_core (m m' : Route.MapState) : Prop :=
  Route.busMarkers m' = Route.busMarkers m /\
  Route.animationState m' = Route.animationState m /\
  Route.markers m' = Route.markers m /\
  Route.cursors m' = Route.cursors m /\
  Route.next m' = Route.next m /\
  Route.frames m' = Route.frames m.

(** Where drawBus leaves the view after a bus. *)
Definition recentre (selectedBusId : string) (v : Route.LatLng * Z) (b : Route.Bus)
  : Route.LatLng * Z :=
  match position b with
  | Some pos => if focused selectedBusId b then (pos, snd v) else v
  | None => v
  end.

(** The data a prediction response carries, if any. *)
Definition response_data (r : Prediction.Response) : option Prediction.Result :=
  match r with
  | Prediction.Resolved _ json => Prediction.data json
  | Prediction.Rejected _ => None
  end.


(** loadMaintenance from its call to the end of its promise, for the
    response [r] of the request. *)
Definition loadMaintenance (r : Maintenance.Response) (p : Maintenance.Page)
  : Outcome Maintenance.Page :=
  Maintenance.loadMaintenance_response r (Maintenance.loadMaintenance_start p).

(** The records loadMaintenance reads from a response. *)
Definition response_records (r : Maintenance.Response) : list Maintenance.MRecord :=
  match r with
  | Maintenance.Resolved _ json =>
    match Maintenance.data json with
    | Some d => match Maintenance.records d with Some rs => rs | None => [] end
    | None => []
    end
  | Maintenance.Rejected _ => []
  end.

(** An alert the callback of updateAlerts gets through: its level is
    "critical", or it has an issue to lower-case. *)
Definition showable (a : Dashboard.Alert) : bool :=
  match Dashboard.level a with Some l => String.eqb l "critical" | None => false end
  || match Dashboard.issue a with Some _ => true | None => false end.

(** The alerts a dashboard response carries. *)
Definition response_alerts (json : Dashboard.Json) : list Dashboard.Alert :=
  match Dashboard.data json with
  | Some m => match Dashboard.alerts m with Some l => l | None => [] end
  | None => []
  end.

(** The property names every object inherits from Object.prototype: a
    lookup of such a key in an object literal finds the inherited member,
    not undefined. *)
Definition prototype_names : list string :=
  ["constructor"; "__proto__"; "hasOwnProperty"; "isPrototypeOf";
   "propertyIsEnumerable"; "toLocaleString"; "toString"; "valueOf";
   "__defineGetter__"; "__defineSetter__"; "__lookupGetter__"; "__lookupSetter__"].

(** A key for which [obj[key]] finds the object's own members only. *)
Definition own_key (k : string) : bool :=
  negb (existsb (String.eqb k) prototype_names).

(** No bus of the response is named like a member of Object.prototype. *)
Definition plain_ids (r : Route.Response) : bool :=
  match r with
  | Route.Resolved d =>
    match Route.buses d with
    | Some bs => forallb (fun b => own_key (Route.bus_id b)) bs
    | None => true
    end
  | Route.Rejected _ => true
  end.

(** A string of ASCII characters: on these the case mappings of the
    engine change the letters a-z and A-Z only. *)
Definition ascii_only (s : string) : bool :=
  forallb (fun c => (nat_of_ascii c <? 128)%nat) (list_ascii_of_string s).

(** [json.data || {}] of a maintenance response. *)
Definition maintenance_data (r : Maintenance.Response) : Maintenance.Data :=
  match r with
  | Maintenance.Resolved _ json =>
    match Maintenance.data json with
    | Some d => d
    | None => {| Maintenance.upcoming_services := None;
                 Maintenance.active_alerts := None;
                 Maintenance.avg_battery_health := None;
                 Maintenance.records := None |}
    end
  | Maintenance.Rejected _ =>
    {| Maintenance.upcoming_services := None; Maintenance.active_alerts := None;
       Maintenance.avg_battery_health := None; Maintenance.records := None |}
  end.

(** The text loadMaintenance writes for a count KPI. *)
Definition kpi_text (o : option Q) : text :=
  match o with Some x => [Num x] | None => [Lit "—"] end.

(** What a dashboard cycle may change between two pages: the texts of
    the five KPI fields that exist, the alert list if its elements exist,
    and the chart of a canvas that exists. *)
Definition dashboard_frame (p q : Dashboard.Page) : Prop :=
  dom (Dashboard.texts q) = dom (Dashboard.texts p) /\
  (forall id, id ∉ Dashboard.kpi_ids ->
              Dashboard.texts q !! id = Dashboard.texts p !! id) /\
  Dashboard.energyCanvas q = Dashboard.energyCanvas p /\
  Dashboard.statusCanvas q = Dashboard.statusCanvas p /\
  (Dashboard.alertsBox p = None -> Dashboard.alertsBox q = None) /\
  (Dashboard.energyCanvas p = false ->
   Dashboard.energyChart q = Dashboard.energyChart p) /\
  (Dashboard.statusCanvas p = false ->
   Dashboard.statusChart q = Dashboard.statusChart p).

(** ** Further sample inputs *)
Module Sample2.

(** Two polls, each with two buses in normal state that name station S1. *)
Definition calm_polls : list Route.Event :=
  [Route.Call;
   Route.Settle (Sample.ok [Sample.bus "EV-1" 0 0 "GOOD" (Some Sample.station_S1);
                            Sample.bus "EV-2" 2 2 "GOOD" (Some Sample.station_S1)]);
   Route.Call;
   Route.Settle (Sample.ok [Sample.bus "EV-1" 1 1 "GOOD" (Some Sample.station_S1);
                            Sample.bus "EV-2" 3 3 "GOOD" (Some Sample.station_S1)])].

(** The map after one poll that showed bus EV-1 near station S1. *)
Definition station_map : Route.MapState :=
  Route.map (Route.run (Route.initial None (Some ""))
               [Route.Call;
                Route.Settle (Sample.ok [Sample.bus "EV-1" 0 0 "GOOD"
                                           (Some Sample.station_S1)])]).

(** A maintenance page without the #maintenanceCount element. *)
Definition uncounted_page : Maintenance.Page :=
  {| Maintenance.upcomingServices := [Lit "—"]; Maintenance.activeAlerts := [Lit "—"];
     Maintenance.avgBatteryHealth := [Lit "—%"];
     Maintenance.tableBody := [];
     Maintenance.tableState :=
       {| Maintenance.sb_text := []; Maintenance.sb_class := "state-box";
          Maintenance.sb_display := "none" |};
     Maintenance.maintenanceCount := None |}.

Definition maintenance_ok : Maintenance.Response :=
  Maintenance.Resolved true
    {| Maintenance.success := true; Maintenance.error := None;
       Maintenance.data :=
         Some {| Maintenance.upcoming_services := Some 2%Q;
                 Maintenance.active_alerts := None;
                 Maintenance.avg_battery_health := Some 90%Q;
                 Maintenance.records :=
                   Some [{| Maintenance.bus_id := Some "EV-1";
                            Maintenance.last_service := None;
                            Maintenance.next_service := Some "2026-01-01";
                            Maintenance.status := Some "Warning" |}] |} |}.

(** A dashboard with the two alert elements and one KPI field. *)
Definition alerting_dashboard : Dashboard.Page :=
  {| Dashboard.texts := {[ "avgSoc" := [Num 77; Lit "%"] ]};
     Dashboard.alertsBox :=
       Some {| Dashboard.items := []; Dashboard.state_display := "block";
               Dashboard.state_html := [] |};
     Dashboard.energyCanvas := true; Dashboard.energyChart := None;
     Dashboard.statusCanvas := true; Dashboard.statusChart := None |}.

(** A success response whose second alert has no issue. *)
Definition dashboard_bad_alert : Dashboard.Json :=
  {| Dashboard.success := true; Dashboard.error := None;
     Dashboard.data :=
       Some {| Dashboard.avg_soc := Some 80%Q; Dashboard.avg_soh := None;
               Dashboard.total_energy := None; Dashboard.fleet_readiness := None;
               Dashboard.co2_savings := None;
               Dashboard.alerts :=
                 Some [{| Dashboard.level := Some "critical"; Dashboard.issue := None;
                          Dashboard.alert_bus := "EV-1" |};
                       {| Dashboard.level := Some "warning"; Dashboard.issue := None;
                          Dashboard.alert_bus := "EV-2" |}];
               Dashboard.energy_history := None; Dashboard.status_counts := None |} |}.

(** The logs page after one record of bus EV-1 was loaded. *)
Definition loaded_logs_page : Logs.Page :=
  Logs.loadLogs_response
    (Logs.Resolved true
       (Some {| Logs.success := true;
                Logs.records :=
                  Some [{| Logs.rec_bus_id := "EV-1"; Logs.soh := Some (92 # 1);
                           Logs.predicted_soh := None;
                           Logs.maintenance_due := None |}] |}))
    Sample.logs_page.

(** The same page in a document without the #logState element. *)
Definition boxless_logs_page : Logs.Page :=
  Logs.setDom None (Logs.tableBody loaded_logs_page) loaded_logs_page.

(** The logs page with one export request outstanding. *)
Definition exporting_page : LogsExport.Page :=
  {| LogsExport.logs := loaded_logs_page; LogsExport.alerts := [];
     LogsExport.queries := [("EV-1", 10000)]; LogsExport.downloads := [] |}.

(** An answer of /api/route with status 500 whose body reports success. *)
Definition route_bad_status : RouteArrival :=
  RouteAnswered false
    {| Route.success := true;
       Route.buses := Some [Sample.bus "EV-1" 0 0 "GOOD" None] |}.

(** An answer of the signup endpoint with status 200 whose body reports a
    failure. *)
Definition signup_flagged : SignupArrival :=
  SignupAnswered true false (Some "Email already registered").

(** A browser that holds a session token, and a server that is down. *)
Definition browser_with_token : AuthGuard.Browser :=
  {| AuthGuard.localStorage := {[ "token" := "abc" ]};
     AuthGuard.location := "/index.html";
     AuthGuard.currentUser := None; AuthGuard.requests := [];
     AuthGuard.alerts := []; AuthGuard.wentBack := false |}.

Definition me_down (tok : string) : AuthGuard.MeResponse := AuthGuard.MeRejected.

(** The third report for bus EV-1 while its first interpolation is ten
    frames old: the bus was shown at (0,0), reported at (40,0), and is now
    reported at (80,0); then 39 frames pass. *)
Definition overlapping_page : Route.Page :=
  Route.run Sample.moving_page
    (repeat Route.Frame 10
       ++ [Route.Call; Route.Settle (Sample.ok [Sample.bus "EV-1" 80 0 "GOOD" None])]
       ++ repeat Route.Frame 39)%list.

End Sample2.
(** ** Properties of logs.js *)

Lemma Qle_bool_false_lt (a b : Q) : Qle_bool a b = false -> (b < a)%Q.
Proof.
  intros H. apply Qnot_le_lt. intros Hle.
  apply Qle_bool_iff in Hle. congruence.
Qed.

Lemma Qlt_Qle_bool_false (a b : Q) : (b < a)%Q -> Qle_bool a b = false.
Proof.
  intros H. destruct (Qle_bool a b) eqn:E; [|reflexivity].
  apply Qle_bool_iff in E. exfalso. exact (Qlt_not_le _ _ H E).
Qed.

(** C8: the SoH classification yields Good/0 at 92, Attention/1 at 55 and
    Critical/1 at 40; in general Good/0 from 90 up, Proper/0 on [60,90),
    Attention/1 on [50,60) and Critical/1 below 50. *)
Theorem getStatusAndIssues_classes :
  Logs.getStatusAndIssues 92 = {| Logs.status := "Good"; Logs.issues := 0 |} /\
  Logs.getStatusAndIssues 55 = {| Logs.status := "Attention"; Logs.issues := 1 |} /\
  Logs.getStatusAndIssues 40 = {| Logs.status := "Critical"; Logs.issues := 1 |} /\
  forall soh : Q,
    ((90 <= soh)%Q ->
       Logs.getStatusAndIssues soh = {| Logs.status := "Good"; Logs.issues := 0 |}) /\
    ((60 <= soh)%Q -> (soh < 90)%Q ->
       Logs.getStatusAndIssues soh = {| Logs.status := "Proper"; Logs.issues := 0 |}) /\
    ((50 <= soh)%Q -> (soh < 60)%Q ->
       Logs.getStatusAndIssues soh = {| Logs.status := "Attention"; Logs.issues := 1 |}) /\
    ((soh < 50)%Q ->
       Logs.getStatusAndIssues soh = {| Logs.status := "Critical"; Logs.issues := 1 |}).
Proof.
  repeat split; try reflexivity; unfold Logs.getStatusAndIssues.
  - intros H. apply Qle_bool_iff in H. by rewrite H.
  - intros H1 H2. apply Qle_bool_iff in H1.
    by rewrite (Qlt_Qle_bool_false _ _ H2), H1.
  - intros H1 H2. apply Qle_bool_iff in H1.
    assert (soh < 90)%Q as H3 by (eapply Qlt_trans; [exact H2|reflexivity]).
    by rewrite (Qlt_Qle_bool_false _ _ H3), (Qlt_Qle_bool_false _ _ H2), H1.
  - intros H.
    assert (soh < 60)%Q as H2 by (eapply Qlt_trans; [exact H|reflexivity]).
    assert (soh < 90)%Q as H3 by (eapply Qlt_trans; [exact H|reflexivity]).
    by rewrite (Qlt_Qle_bool_false _ _ H3), (Qlt_Qle_bool_false _ _ H2),
      (Qlt_Qle_bool_false _ _ H).
Qed.

Lemma getStatusAndIssues_classes_witness :
  Logs.getStatusAndIssues 75 = {| Logs.status := "Proper"; Logs.issues := 0 |}.
Proof.
  destruct getStatusAndIssues_classes as (_ & _ & _ & H).
  destruct (H 75%Q) as (_ & H2 & _).
  apply H2; lra.
Defined.

(** ** Properties of login.js and authGuard.js *)

Lemma fire_timers_location (p : Login.Page) (ts : list string) (h : string) :
  Login.location (foldl (fun p href => Login.navigate href p) p (ts ++ [h])%list) = h.
Proof. by rewrite foldl_app. Qed.

(** C9: on the response {success:true, token:"abc", user:{name:"Jo"}} the
    token kept in local storage is "abc" and the page goes to the dashboard
    once the redirect timer fires; on a rejected request, a response that is
    not ok, a falsy success flag or a missing token, nothing is stored and
    no navigation is queued or made. *)
Theorem loginUser_token_and_redirect :
  (forall (formEmail : string) (p : Login.Page),
     let data := {| Login.success := true; Login.token := Some "abc";
                    Login.error := None;
                    Login.user := Some {| Login.name := Some "Jo";
                                          Login.role := None;
                                          Login.email := None |} |} in
     let p' := Login.loginUser_response formEmail (Login.Resolved true data) p in
     Login.localStorage p' !! "evfleet_token" = Some "abc" /\
     Login.timers p' = (Login.timers p ++ ["/index.html"])%list /\
     Login.location (Login.fire_timers p') = "/index.html") /\
  (forall (formEmail : string) (r : Login.Response) (p : Login.Page),
     (match r with
      | Login.Rejected _ => True
      | Login.Resolved ok data =>
          ok = false \/ Login.success data = false \/
          Login.token data = None \/ Login.token data = Some ""
      end) ->
     let p' := Login.loginUser_response formEmail r p in
     Login.localStorage p' = Login.localStorage p /\
     Login.timers p' = Login.timers p /\
     Login.location p' = Login.location p).
Proof.
  split.
  - intros formEmail p data p'. subst p' data. cbn.
    split; [by rewrite lookup_insert_ne, lookup_insert_eq|].
    split; [done|]. apply fire_timers_location.
  - intros formEmail r p Hr p'. subst p'.
    destruct r as [e|ok data]; [done|].
    unfold Login.loginUser_response.
    destruct Hr as [->|[Hs|[Ht|Ht]]]; [done| | |];
      rewrite ?Hs, ?Ht; cbn; rewrite ?orb_true_r; done.
Qed.

Lemma loginUser_token_and_redirect_witness :
  Login.localStorage
    (Login.loginUser_response "jo@x.org" Sample.login_denied Sample.login_page) = ∅ /\
  Login.timers
    (Login.loginUser_response "jo@x.org" Sample.login_denied Sample.login_page) = [] /\
  Login.location
    (Login.loginUser_response "jo@x.org" Sample.login_denied Sample.login_page)
    = "/login.html".
Proof.
  apply (proj2 loginUser_token_and_redirect "jo@x.org" Sample.login_denied Sample.login_page).
  simpl. right. left. reflexivity.
Defined.

(** The storage a successful login leaves behind holds the token under
    "evfleet_token" and nothing under "token". *)
Lemma login_storage_keys (formEmail : string) (ok : bool)
    (data : Login.LoginData) (t : string) (p : Login.Page) :
  Login.localStorage p = ∅ ->
  ok = true -> Login.success data = true ->
  Login.token data = Some t -> truthy t = true ->
  let st := Login.localStorage
              (Login.loginUser_response formEmail (Login.Resolved ok data) p) in
  st !! "evfleet_token" = Some t /\ st !! "token" = None.
Proof.
  intros Hp -> Hs Ht Htr st. subst st.
  unfold Login.loginUser_response. rewrite Hs, Ht, Htr. cbn.
  destruct (Login.user data) as [u|]; cbn; rewrite Hp.
  - split; [by rewrite lookup_insert_ne, lookup_insert_eq|].
    by rewrite !lookup_insert_ne, lookup_empty.
  - split; [by rewrite lookup_insert_eq|].
    by rewrite lookup_insert_ne, lookup_empty.
Qed.

(** C10: the guard reads key "token", the login flow writes only
    "evfleet_token" (and "evfleet_user"); so on the storage left by a
    successful login alone, getCurrentUser returns null without sending a
    request and requireAuth goes to the login page. *)
Theorem guard_misses_login_token
    (formEmail : string) (data : Login.LoginData) (t : string)
    (p : Login.Page) (server : string -> AuthGuard.MeResponse)
    (b : AuthGuard.Browser) :
  Login.localStorage p = ∅ ->
  Login.success data = true ->
  Login.token data = Some t -> truthy t = true ->
  AuthGuard.localStorage b =
    Login.localStorage
      (Login.loginUser_response formEmail (Login.Resolved true data) p) ->
  AuthGuard.localStorage b !! "evfleet_token" = Some t /\
  AuthGuard.localStorage b !! "token" = None /\
  AuthGuard.getCurrentUser server b = (None, b) /\
  AuthGuard.location (AuthGuard.requireAuth server b) = "login.html" /\
  AuthGuard.requests (AuthGuard.requireAuth server b) = AuthGuard.requests b /\
  AuthGuard.currentUser (AuthGuard.requireAuth server b) = AuthGuard.currentUser b.
Proof.
  intros Hp Hs Ht Htr Hb.
  destruct (login_storage_keys formEmail true data t p Hp eq_refl Hs Ht Htr)
    as [Hev Htok].
  rewrite <- Hb in Hev, Htok.
  assert (AuthGuard.getCurrentUser server b = (None, b)) as Hg.
  { unfold AuthGuard.getCurrentUser. by rewrite Htok. }
  repeat split; try done.
  all: unfold AuthGuard.requireAuth; by rewrite Hg.
Qed.

Lemma guard_misses_login_token_witness :
  AuthGuard.localStorage Sample.browser_after_login !! "evfleet_token" = Some "abc" /\
  AuthGuard.localStorage Sample.browser_after_login !! "token" = None /\
  AuthGuard.getCurrentUser Sample.me_server Sample.browser_after_login
    = (None, Sample.browser_after_login) /\
  AuthGuard.location (AuthGuard.requireAuth Sample.me_server Sample.browser_after_login)
    = "login.html" /\
  AuthGuard.requests (AuthGuard.requireAuth Sample.me_server Sample.browser_after_login)
    = AuthGuard.requests Sample.browser_after_login /\
  AuthGuard.currentUser (AuthGuard.requireAuth Sample.me_server Sample.browser_after_login)
    = AuthGuard.currentUser Sample.browser_after_login.
Proof.
  apply (guard_misses_login_token "jo@x.org" Sample.login_ok "abc" Sample.login_page
           Sample.me_server Sample.browser_after_login);
    reflexivity.
Defined.

(** ** Properties of route.js: the poll guard and the failing poll *)

(** C7: when the poll fails (the request is rejected, or the response's
    success flag is false), the page shows "Live telemetry unavailable" and
    the map state, busMarkers and animationState included, is the one
    before the cycle. *)
Theorem failed_poll_keeps_markers (r : Route.Response) (p : Route.Page) :
  (0 < Route.inFlight p)%nat ->
  match r with
  | Route.Rejected _ => True
  | Route.Resolved data => Route.success data = false
  end ->
  let p' := Route.step p (Route.Settle r) in
  Route.routeStateText p' = [Lit "Live telemetry unavailable"] /\
  Route.routeStateDisplay p' = "block" /\
  Route.busMarkers (Route.map p') = Route.busMarkers (Route.map p) /\
  Route.animationState (Route.map p') = Route.animationState (Route.map p) /\
  Route.map p' = Route.map p.
Proof.
  intros Hin Hr p'. subst p'. cbn [Route.step].
  apply Nat.ltb_lt in Hin. rewrite Hin.
  assert (Route.poll_body r p = Threw p) as Hb.
  { destruct r as [e|data]; [done|]. cbn. by rewrite Hr. }
  unfold Route.settle. rewrite Hb. done.
Qed.

Lemma failed_poll_keeps_markers_witness :
  Route.routeStateText
    (Route.step Sample.repolling_page (Route.Settle (Route.Rejected FetchFailed)))
    = [Lit "Live telemetry unavailable"] /\
  Route.routeStateDisplay
    (Route.step Sample.repolling_page (Route.Settle (Route.Rejected FetchFailed)))
    = "block" /\
  Route.busMarkers
    (Route.map (Route.step Sample.repolling_page (Route.Settle (Route.Rejected FetchFailed))))
    = Route.busMarkers (Route.map Sample.repolling_page) /\
  Route.animationState
    (Route.map (Route.step Sample.repolling_page (Route.Settle (Route.Rejected FetchFailed))))
    = Route.animationState (Route.map Sample.repolling_page) /\
  Route.map (Route.step Sample.repolling_page (Route.Settle (Route.Rejected FetchFailed)))
    = Route.map Sample.repolling_page.
Proof.
  apply (failed_poll_keeps_markers (Route.Rejected FetchFailed) Sample.repolling_page);
    [vm_compute; lia | exact I].
Defined.

Lemma fetchRouteStatus_guard_inv (p : Route.Page) :
  guard_inv p -> guard_inv (Route.fetchRouteStatus p).
Proof.
  unfold guard_inv, Route.fetchRouteStatus.
  destruct (Route.isFetching p) eqn:E; cbn; [by rewrite E|].
  by intros ->.
Qed.

Lemma poll_body_counters (r : Route.Response) (p : Route.Page) :
  let q := outcome_state (Route.poll_body r p) in
  Route.inFlight q = Route.inFlight p /\
  Route.issued q = Route.issued p /\
  Route.isFetching q = Route.isFetching p.
Proof.
  unfold Route.poll_body. repeat case_match; done.
Qed.

Lemma step_guard_inv (p : Route.Page) (e : Route.Event) :
  guard_inv p -> guard_inv (Route.step p e).
Proof.
  intros H. destruct e as [|v|  |r| |i]; cbn [Route.step].
  - unfold Route.tick. case_match; [apply fetchRouteStatus_guard_inv|]; exact H.
  - destruct (Route.mapSearch p); [apply fetchRouteStatus_guard_inv|]; exact H.
  - by apply fetchRouteStatus_guard_inv.
  - destruct (0 <? Route.inFlight p)%nat eqn:E; [|exact H].
    unfold guard_inv in *.
    destruct (poll_body_counters r p) as (Hi & _ & _).
    unfold Route.settle.
    destruct (Route.poll_body r p) as [q|q]; cbn in *; rewrite Hi, H;
      by destruct (Route.isFetching p).
  - exact H.
  - unfold Route.rowClick. repeat case_match; exact H.
Qed.

Lemma run_guard_inv (es : list Route.Event) (p : Route.Page) :
  guard_inv p -> guard_inv (Route.run p es).
Proof.
  revert p. induction es as [|e es IH]; intros p H; [exact H|].
  cbn. apply IH. by apply step_guard_inv.
Qed.

Lemma fetchRouteStatus_dropped (p : Route.Page) :
  Route.isFetching p = true -> Route.fetchRouteStatus p = p.
Proof. intros H. unfold Route.fetchRouteStatus. by rewrite H. Qed.

Lemma step_issued_while_fetching (p : Route.Page) (e : Route.Event) :
  Route.isFetching p = true -> Route.issued (Route.step p e) = Route.issued p.
Proof.
  intros H. destruct e as [|v|  |r| |i]; cbn [Route.step].
  - unfold Route.tick. case_match; [|done].
    by rewrite fetchRouteStatus_dropped.
  - destruct (Route.mapSearch p); [|done]. by rewrite fetchRouteStatus_dropped.
  - by rewrite fetchRouteStatus_dropped.
  - case_match; [|done]. unfold Route.settle.
    destruct (poll_body_counters r p) as (_ & Hi & _).
    by destruct (Route.poll_body r p) as [q|q].
  - done.
  - unfold Route.rowClick. repeat case_match; done.
Qed.

(** C5: on every run of the page at most one poll is outstanding; while
    one is, a call of fetchRouteStatus returns at the guard and leaves the
    page as it was, no event issues a request, and the settling of the
    outstanding poll issues none either (nothing was queued). *)
Theorem at_most_one_poll_in_flight
    (storedSelection search : option string) (es : list Route.Event) :
  let p := Route.run (Route.initial storedSelection search) es in
  (Route.inFlight p <= 1)%nat /\
  (Route.inFlight p = 1%nat ->
     Route.step p Route.Call = p /\
     (forall e, Route.issued (Route.step p e) = Route.issued p) /\
     (forall e, (Route.inFlight (Route.step p e) <= 1)%nat)).
Proof.
  intros p.
  assert (guard_inv p) as Hinv by (apply run_guard_inv; reflexivity).
  split.
  - unfold guard_inv in Hinv. rewrite Hinv. destruct (Route.isFetching p); lia.
  - intros H1.
    assert (Route.isFetching p = true) as Hf.
    { unfold guard_inv in Hinv. destruct (Route.isFetching p); [done|lia]. }
    split; [by apply fetchRouteStatus_dropped|].
    split; [intros e; by apply step_issued_while_fetching|].
    intros e. pose proof (step_guard_inv p e Hinv) as H.
    unfold guard_inv in H. rewrite H.
    destruct (Route.isFetching (Route.step p e)); lia.
Qed.

Lemma at_most_one_poll_in_flight_witness :
  Route.step (Route.run (Route.initial None None) [Route.Call]) Route.Call
  = Route.run (Route.initial None None) [Route.Call].
Proof.
  exact (proj1 (proj2 (at_most_one_poll_in_flight None None [Route.Call]) eq_refl)).
Defined.

(** ** Properties of route.js: interpolation *)

Lemma sumQ_app f l1 l2 : (sumQ f (l1 ++ l2) == sumQ f l1 + sumQ f l2)%Q.
Proof.
  induction l1 as [|x l1 IH]; cbn [sumQ app].
  - ring.
  - rewrite IH. ring.
Qed.

Lemma sumQ_zero f l : (forall st, st ∈ l -> (f st == 0)%Q) -> (sumQ f l == 0)%Q.
Proof.
  induction l as [|x l IH]; intros H; cbn [sumQ]; [reflexivity|].
  rewrite IH, (H x); [ring|left|]. intros st Hst. apply H. by right.
Qed.

Lemma run_step_done st m :
  (Route.steps <= Route.s_i st)%nat -> Route.run_step st m = m.
Proof.
  intros H. unfold Route.run_step. apply Nat.leb_le in H. by rewrite H.
Qed.

Lemma run_step_live st m c :
  (Route.s_i st < Route.steps)%nat ->
  Route.cursors m !! Route.s_state st = Some c ->
  Route.cursors (Route.run_step st m) =
    <[Route.s_state st :=
        {| Route.c_lat := (Route.c_lat c + Route.s_dLat st)%Q;
           Route.c_lng := (Route.c_lng c + Route.s_dLng st)%Q |}]> (Route.cursors m) /\
  Route.frames (Route.run_step st m) = (Route.frames m ++ [bump st])%list.
Proof.
  intros Hi Hc. unfold Route.run_step.
  apply Nat.leb_gt in Hi. rewrite Hi, Hc. done.
Qed.

Lemma pending_split d sr n st :
  stable d ->
  (pending d sr (S n) st ==
   pending d sr 1 st +
   (if (Route.s_i st <? Route.steps)%nat then pending d sr n (bump st) else 0))%Q.
Proof.
  intros Hd. unfold pending, remaining. rewrite Hd.
  cbn [bump Route.s_state Route.s_i].
  destruct (Nat.eqb (Route.s_state st) sr); [|by destruct (_ <? _)%nat].
  destruct (Route.s_i st <? Route.steps)%nat eqn:E.
  - apply Nat.ltb_lt in E.
    replace (Nat.min (S n) (Route.steps - Route.s_i st))
      with (1 + Nat.min n (Route.steps - S (Route.s_i st)))%nat by lia.
    replace (Nat.min 1 (Route.steps - Route.s_i st)) with 1%nat by lia.
    rewrite Nat2Z.inj_add, inject_Z_plus. change (inject_Z (Z.of_nat 1)) with 1%Q. ring.
  - apply Nat.ltb_ge in E.
    replace (Nat.min (S n) (Route.steps - Route.s_i st)) with 0%nat by lia.
    replace (Nat.min 1 (Route.steps - Route.s_i st)) with 0%nat by lia.
    change (inject_Z (Z.of_nat 0)) with 0%Q. ring.
Qed.

Lemma pending_one d sr st :
  pending d sr 1 st =
  if Nat.eqb (Route.s_state st) sr
  then (if (Route.s_i st <? Route.steps)%nat then (1 * d st)%Q else (0 * d st)%Q)
  else 0%Q.
Proof.
  unfold pending, remaining. destruct (Nat.eqb _ _); [|done].
  destruct (Route.s_i st <? Route.steps)%nat eqn:E.
  - apply Nat.ltb_lt in E. by replace (Nat.min 1 (Route.steps - Route.s_i st)) with 1%nat by lia.
  - apply Nat.ltb_ge in E. by replace (Nat.min 1 (Route.steps - Route.s_i st)) with 0%nat by lia.
Qed.

Lemma pending_other d sr n st :
  Route.s_state st ≠ sr -> pending d sr n st = 0%Q.
Proof. intros H. unfold pending. apply Nat.eqb_neq in H. by rewrite H. Qed.

(** One call of a stepper, seen from the cursor [sr]. *)
Lemma run_step_effect st m sr c :
  Route.cursors m !! sr = Some c ->
  exists c',
    Route.cursors (Route.run_step st m) !! sr = Some c' /\
    (Route.c_lat c' == Route.c_lat c + pending Route.s_dLat sr 1 st)%Q /\
    (Route.c_lng c' == Route.c_lng c + pending Route.s_dLng sr 1 st)%Q /\
    forall d n, stable d ->
      (sumQ (pending d sr n) (Route.frames (Route.run_step st m)) + pending d sr 1 st ==
       sumQ (pending d sr n) (Route.frames m) + pending d sr (S n) st)%Q.
Proof.
  intros Hc.
  destruct (Route.s_i st <? Route.steps)%nat eqn:E.
  - apply Nat.ltb_lt in E.
    destruct (Route.cursors m !! Route.s_state st) as [c0|] eqn:Hc0.
    + destruct (run_step_live st m c0 E Hc0) as [Hcur Hfr].
      rewrite Hcur, Hfr.
      destruct (decide (Route.s_state st = sr)) as [Heq|Hne].
      * rewrite Heq in *. rewrite lookup_insert_eq. eexists; split; [done|].
        rewrite Hc in Hc0. injection Hc0 as <-.
        rewrite !pending_one, Heq, Nat.eqb_refl. apply Nat.ltb_lt in E. rewrite E. cbn.
        split; [ring|]. split; [ring|].
        intros d n Hd. rewrite sumQ_app, (pending_split d _ n st Hd), E. cbn [sumQ]. ring.
      * rewrite lookup_insert_ne by done. exists c. split; [done|].
        rewrite !(pending_other _ sr _ st) by done.
        split; [ring|]. split; [ring|].
        intros d n Hd. rewrite sumQ_app. cbn [sumQ].
        rewrite !(pending_other _ sr _ st), (pending_other _ sr _ (bump st)) by done.
        ring.
    + assert (Route.run_step st m = m) as ->.
      { unfold Route.run_step. rewrite Hc0. by destruct (_ <=? _)%nat. }
      assert (Route.s_state st ≠ sr) as Hne by congruence.
      exists c. split; [done|].
      rewrite !(pending_other _ sr _ st) by done.
      split; [ring|]. split; [ring|]. intros d n _.
      rewrite !(pending_other _ sr _ st) by done. ring.
  - apply Nat.ltb_ge in E. rewrite run_step_done by done.
    exists c. split; [done|].
    rewrite !pending_one. apply Nat.ltb_ge in E. rewrite E.
    assert (forall d n, pending d sr (S n) st == 0)%Q as Hz.
    { intros d n. unfold pending, remaining. apply Nat.ltb_ge in E.
      replace (Nat.min (S n) (Route.steps - Route.s_i st)) with 0%nat by lia.
      destruct (Nat.eqb _ _); [|reflexivity]. change (inject_Z (Z.of_nat 0)) with 0%Q. ring. }
    destruct (Nat.eqb _ _); (split; [ring|]; split; [ring|]); intros d n _;
      rewrite (Hz d n), (Hz d 0%nat); ring.
Qed.

Lemma fold_run_step_effect q : forall m sr c,
  Route.cursors m !! sr = Some c ->
  exists c',
    Route.cursors (foldl (fun m st => Route.run_step st m) m q) !! sr = Some c' /\
    (Route.c_lat c' == Route.c_lat c + sumQ (pending Route.s_dLat sr 1) q)%Q /\
    (Route.c_lng c' == Route.c_lng c + sumQ (pending Route.s_dLng sr 1) q)%Q /\
    forall d n, stable d ->
      (sumQ (pending d sr n) (Route.frames (foldl (fun m st => Route.run_step st m) m q))
         + sumQ (pending d sr 1) q ==
       sumQ (pending d sr n) (Route.frames m) + sumQ (pending d sr (S n)) q)%Q.
Proof.
  induction q as [|st q IH]; intros m sr c Hc; cbn [foldl sumQ].
  - exists c. split; [done|]. split; [ring|]. split; [ring|]. intros; ring.
  - destruct (run_step_effect st m sr c Hc) as (c1 & Hc1 & Hlat1 & Hlng1 & Hfr1).
    destruct (IH _ sr c1 Hc1) as (c2 & Hc2 & Hlat2 & Hlng2 & Hfr2).
    exists c2. split; [done|].
    split; [rewrite Hlat2, Hlat1; ring|].
    split; [rewrite Hlng2, Hlng1; ring|].
    intros d n Hd. specialize (Hfr1 d n Hd). specialize (Hfr2 d n Hd).
    lra.
Qed.

Lemma pending_zero d sr st : (pending d sr 0 st == 0)%Q.
Proof.
  unfold pending. destruct (Nat.eqb _ _); [|reflexivity].
  cbn. ring.
Qed.

Lemma stable_dLat : stable Route.s_dLat.
Proof. by intros st. Qed.

Lemma stable_dLng : stable Route.s_dLng.
Proof. by intros st. Qed.

Lemma frame_effect m sr c :
  Route.cursors m !! sr = Some c ->
  exists c',
    Route.cursors (Route.frame m) !! sr = Some c' /\
    (Route.c_lat c' == Route.c_lat c + sumQ (pending Route.s_dLat sr 1) (Route.frames m))%Q /\
    (Route.c_lng c' == Route.c_lng c + sumQ (pending Route.s_dLng sr 1) (Route.frames m))%Q /\
    forall d n, stable d ->
      (sumQ (pending d sr n) (Route.frames (Route.frame m))
         + sumQ (pending d sr 1) (Route.frames m) ==
       sumQ (pending d sr (S n)) (Route.frames m))%Q.
Proof.
  intros Hc. unfold Route.frame.
  destruct (fold_run_step_effect (Route.frames m) (Route.setFrames [] m) sr c Hc)
    as (c' & Hc' & Hlat & Hlng & Hfr).
  exists c'. repeat split; try done.
  intros d n Hd. rewrite (Hfr d n Hd). cbn [Route.setFrames Route.frames sumQ]. ring.
Qed.

(** After [n] frames a cursor has moved by what each queued stepper still
    had to add to it, up to [n] steps each. *)
Lemma after_frames_effect n : forall m sr c,
  Route.cursors m !! sr = Some c ->
  exists c',
    Route.cursors (after_frames n m) !! sr = Some c' /\
    (Route.c_lat c' == Route.c_lat c + sumQ (pending Route.s_dLat sr n) (Route.frames m))%Q /\
    (Route.c_lng c' == Route.c_lng c + sumQ (pending Route.s_dLng sr n) (Route.frames m))%Q.
Proof.
  induction n as [|n IH]; intros m sr c Hc.
  - exists c. split; [done|].
    rewrite !sumQ_zero by (intros; apply pending_zero). split; ring.
  - unfold after_frames. rewrite Nat.iter_succ_r. fold (after_frames n (Route.frame m)).
    destruct (frame_effect m sr c Hc) as (c1 & Hc1 & Hlat1 & Hlng1 & Hfr).
    destruct (IH _ sr c1 Hc1) as (c2 & Hc2 & Hlat2 & Hlng2).
    exists c2. split; [done|].
    pose proof (Hfr _ n stable_dLat). pose proof (Hfr _ n stable_dLng).
    split; lra.
Qed.

Lemma animateBus_started m id mr sr a (b : Route.LatLng) :
  Route.busMarkers m !! id = Some mr ->
  Route.animationState m !! id = Some sr ->
  Route.cursors m !! sr = Some a ->
  Route.cursors (Route.animateBus id b m) !! sr =
    Some {| Route.c_lat := (Route.c_lat a + increment (fst b) (Route.c_lat a))%Q;
            Route.c_lng := (Route.c_lng a + increment (snd b) (Route.c_lng a))%Q |} /\
  Route.frames (Route.animateBus id b m) =
    (Route.frames m ++ [first_stepper mr sr a b])%list.
Proof.
  intros Hm Hs Hc. unfold Route.animateBus. rewrite Hm, Hs, Hc.
  unfold Route.run_step. cbn [Route.s_i Route.s_state]. rewrite Hc. cbn.
  by rewrite lookup_insert_eq.
Qed.

Lemma steps_count (n : nat) :
  (inject_Z (Z.of_nat (Nat.min (S n) Route.steps)) ==
   1 + inject_Z (Z.of_nat (Nat.min n (Route.steps - 1))))%Q.
Proof.
  replace (Nat.min (S n) Route.steps) with (1 + Nat.min n (Route.steps - 1))%nat
    by (unfold Route.steps; lia).
  rewrite Nat2Z.inj_add, inject_Z_plus. reflexivity.
Qed.

Lemma increment_total (target current : Q) :
  (current + inject_Z (Z.of_nat Route.steps) * increment target current == target)%Q.
Proof. unfold increment, Route.steps. cbn. field. Qed.

(** The cursor [n] frames after a call of animateBus: the new stepper has
    made [min (n+1) 40] steps, and each stepper queued before the call has
    gone on with its own. *)
Lemma animateBus_after_frames m id mr sr a (b : Route.LatLng) (n : nat) :
  Route.busMarkers m !! id = Some mr ->
  Route.animationState m !! id = Some sr ->
  Route.cursors m !! sr = Some a ->
  exists c,
    Route.cursors (after_frames n (Route.animateBus id b m)) !! sr = Some c /\
    (Route.c_lat c ==
       Route.c_lat a
       + inject_Z (Z.of_nat (Nat.min (S n) Route.steps)) * increment (fst b) (Route.c_lat a)
       + sumQ (pending Route.s_dLat sr n) (Route.frames m))%Q /\
    (Route.c_lng c ==
       Route.c_lng a
       + inject_Z (Z.of_nat (Nat.min (S n) Route.steps)) * increment (snd b) (Route.c_lng a)
       + sumQ (pending Route.s_dLng sr n) (Route.frames m))%Q.
Proof.
  intros Hm Hs Hc.
  destruct (animateBus_started m id mr sr a b Hm Hs Hc) as [Hc1 Hfr].
  destruct (after_frames_effect n _ sr _ Hc1) as (c & Hcn & Hlat & Hlng).
  exists c. split; [done|].
  rewrite Hfr, !sumQ_app in Hlat, Hlng. cbn [sumQ Route.c_lat Route.c_lng] in Hlat, Hlng.
  unfold pending at 2 in Hlat. unfold pending at 2 in Hlng.
  unfold remaining in Hlat, Hlng.
  cbn [first_stepper Route.s_state Route.s_i Route.s_dLat Route.s_dLng] in Hlat, Hlng.
  rewrite Nat.eqb_refl in Hlat, Hlng.
  rewrite steps_count. split; lra.
Qed.

(** ** Properties of route.js: reconciliation *)

Lemma run_step_maps st m :
  Route.busMarkers (Route.run_step st m) = Route.busMarkers m /\
  Route.animationState (Route.run_step st m) = Route.animationState m.
Proof. unfold Route.run_step. by repeat case_match. Qed.

Lemma animateBus_maps id t m :
  Route.busMarkers (Route.animateBus id t m) = Route.busMarkers m /\
  Route.animationState (Route.animateBus id t m) = Route.animationState m.
Proof.
  unfold Route.animateBus. repeat case_match; try done. apply run_step_maps.
Qed.

Lemma drawBus_dom sel b la ln m m' :
  Route.drawBus sel b la ln m = Done m' ->
  dom (Route.busMarkers m') = {[Route.bus_id b]} ∪ dom (Route.busMarkers m).
Proof.
  unfold Route.drawBus.
  destruct (Route.busMarkers m !! Route.bus_id b) as [r|] eqn:Hb;
    destruct (Route.busPopup b) as [pop|]; try done; intros [= <-].
  - assert (Route.bus_id b ∈ dom (Route.busMarkers m)) by (apply elem_of_dom; eauto).
    destruct (animateBus_maps (Route.bus_id b) (la, ln) m) as [Hbm _].
    case_match; cbn; rewrite Hbm; set_solver.
  - case_match; cbn; by rewrite dom_insert_L.
Qed.

Lemma drawMovementTrail_maps b la ln m :
  Route.busMarkers (Route.drawMovementTrail b la ln m) = Route.busMarkers m /\
  Route.animationState (Route.drawMovementTrail b la ln m) = Route.animationState m.
Proof. unfold Route.drawMovementTrail. by repeat case_match. Qed.

Lemma drawStation_maps s m :
  Route.busMarkers (Route.drawStation s m) = Route.busMarkers m /\
  Route.animationState (Route.drawStation s m) = Route.animationState m.
Proof. unfold Route.drawStation. by repeat case_match. Qed.

Lemma drawOptimizedEmergencyRoute_maps la ln s m :
  Route.busMarkers (Route.drawOptimizedEmergencyRoute la ln s m) = Route.busMarkers m /\
  Route.animationState (Route.drawOptimizedEmergencyRoute la ln s m) = Route.animationState m.
Proof. done. Qed.

Lemma ids_cons b bs : Route.ids (b :: bs) = {[Route.bus_id b]} ∪ Route.ids bs.
Proof. done. Qed.

Lemma visit_dom sel b acc acc' :
  Route.visit sel b acc = Done acc' ->
  fst acc' = fst acc ∪ Route.ids (List.filter Route.positioned [b]) /\
  dom (Route.busMarkers (snd acc')) =
    dom (Route.busMarkers (snd acc)) ∪ Route.ids (List.filter Route.positioned [b]).
Proof.
  unfold Route.visit. cbn [List.filter]. unfold Route.positioned.
  destruct (Route.lat b) as [la|]; [destruct (Route.lng b) as [ln|]|].
  2,3: intros [= <-]; unfold Route.ids; cbn; set_solver.
  destruct (Route.drawBus sel b la ln (snd acc)) as [m1|m1] eqn:Hd; [|done].
  apply drawBus_dom in Hd.
  destruct (drawMovementTrail_maps b la ln m1) as [Ht _].
  rewrite ids_cons. unfold Route.ids at 1 2. cbn [fmap list_fmap list_to_set].
  repeat case_match; intros [= <-]; cbn [fst snd].
  - rewrite (proj1 (drawOptimizedEmergencyRoute_maps _ _ _ _)), Ht, Hd. set_solver.
  - rewrite (proj1 (drawStation_maps _ _)), Ht, Hd. set_solver.
  - rewrite Ht, Hd. set_solver.
Qed.

Lemma filter_positioned_cons b bs :
  Route.ids (List.filter Route.positioned (b :: bs)) =
  Route.ids (List.filter Route.positioned [b]) ∪ Route.ids (List.filter Route.positioned bs).
Proof.
  cbn [List.filter]. destruct (Route.positioned b); unfold Route.ids; cbn; set_solver.
Qed.

Lemma forEach_visit_dom sel bs : forall acc acc',
  Route.forEach (Route.visit sel) bs acc = Done acc' ->
  fst acc' = fst acc ∪ Route.ids (List.filter Route.positioned bs) /\
  dom (Route.busMarkers (snd acc')) =
    dom (Route.busMarkers (snd acc)) ∪ Route.ids (List.filter Route.positioned bs).
Proof.
  induction bs as [|b bs IH]; intros acc acc'; cbn [Route.forEach].
  - intros [= <-]. unfold Route.ids. cbn. set_solver.
  - destruct (Route.visit sel b acc) as [acc1|acc1] eqn:Hv; [|done].
    intros H. apply IH in H as [H1 H2]. apply visit_dom in Hv as [H3 H4].
    rewrite filter_positioned_cons, H1, H2, H3, H4. set_solver.
Qed.

Lemma removeInactive_lookup A m id j :
  let m' := Route.removeInactive A m id in
  Route.busMarkers m' !! j =
    (if bool_decide (j = id ∧ id ∉ A) then None else Route.busMarkers m !! j) /\
  Route.animationState m' !! j =
    (if bool_decide (j = id ∧ id ∉ A) then None else Route.animationState m !! j).
Proof.
  unfold Route.removeInactive.
  destruct (bool_decide (id ∈ A)) eqn:E.
  - apply bool_decide_eq_true in E. rewrite bool_decide_eq_false_2 by tauto. done.
  - apply bool_decide_eq_false in E. cbn.
    destruct (decide (j = id)) as [->|Hne].
    + rewrite bool_decide_eq_true_2 by done. by rewrite !lookup_delete_eq.
    + rewrite bool_decide_eq_false_2 by tauto. by rewrite !lookup_delete_ne.
Qed.

Lemma fold_removeInactive_lookup A l : forall m j,
  let m' := foldl (Route.removeInactive A) m l in
  Route.busMarkers m' !! j =
    (if bool_decide (j ∈ l ∧ j ∉ A) then None else Route.busMarkers m !! j) /\
  Route.animationState m' !! j =
    (if bool_decide (j ∈ l ∧ j ∉ A) then None else Route.animationState m !! j).
Proof.
  induction l as [|id l IH]; intros m j; cbn [foldl].
  - rewrite bool_decide_eq_false_2; [done|]. intros [H _]. by apply elem_of_nil in H.
  - destruct (IH (Route.removeInactive A m id) j) as [H1 H2].
    destruct (removeInactive_lookup A m id j) as [H3 H4].
    cbn zeta in *. rewrite H1, H2, H3, H4.
    destruct (decide (j ∈ l ∧ j ∉ A)) as [Hl|Hl].
    + rewrite !(bool_decide_eq_true_2 _ Hl).
      rewrite bool_decide_eq_true_2; [done|]. split; [right|]; tauto.
    + rewrite !(bool_decide_eq_false_2 _ Hl).
      destruct (decide (j = id ∧ id ∉ A)) as [[-> Hj]|Hj].
      * rewrite !bool_decide_eq_true_2; [done| |done]. split; [left|done].
      * rewrite !(bool_decide_eq_false_2 _ Hj).
        rewrite bool_decide_eq_false_2; [done|].
        intros [Hin HA]. apply elem_of_cons in Hin as [->|Hin]; tauto.
Qed.

Lemma keys_elem_of {V} (bm : gmap string V) j :
  j ∈ (map fst (map_to_list bm)) <-> is_Some (bm !! j).
Proof.
  rewrite <- elem_of_dom. rewrite dom_alt. rewrite elem_of_list_to_set. done.
Qed.

Lemma updateMap_reconciles sel bs m m' :
  Route.updateMap sel bs m = Done m' ->
  dom (Route.busMarkers m') = Route.ids (List.filter Route.positioned bs) /\
  forall id, id ∈ dom (Route.busMarkers m) ->
             id ∉ Route.ids (List.filter Route.positioned bs) ->
             Route.busMarkers m' !! id = None /\ Route.animationState m' !! id = None.
Proof.
  unfold Route.updateMap.
  destruct (Route.forEach _ _ _) as [acc|acc] eqn:Hf; [|done]. intros [= <-].
  apply forEach_visit_dom in Hf as [HA Hdom]. cbn [fst snd Route.clearLayers] in HA, Hdom.
  change (Route.busMarkers (Route.clearLayers m)) with (Route.busMarkers m) in Hdom.
  destruct acc as [A m1]. cbn [fst snd] in *.
  assert (A = Route.ids (List.filter Route.positioned bs)) as -> by set_solver.
  clear HA.
  pose proof (fold_removeInactive_lookup (Route.ids (List.filter Route.positioned bs))
                (map fst (map_to_list (Route.busMarkers m1))) m1) as Hfold.
  cbn zeta in Hfold.
  split.
  - apply set_eq. intros j. rewrite elem_of_dom.
    destruct (Hfold j) as [H1 _]. rewrite H1.
    case_bool_decide as Hd.
    + split; [by intros [? ?]|]. tauto.
    + rewrite <- elem_of_dom, Hdom. split; [|set_solver].
      intros Hj. destruct (decide (j ∈ Route.ids (List.filter Route.positioned bs)));
        [done|]. exfalso. apply Hd.
      split; [|done]. apply keys_elem_of. apply elem_of_dom. by rewrite Hdom.
  - intros id Hid Hn.
    destruct (Hfold id) as [H1 H2]. rewrite H1, H2.
    rewrite bool_decide_eq_true_2; [done|].
    split; [|done]. apply keys_elem_of, elem_of_dom. rewrite Hdom. set_solver.
Qed.

(** ** The claims about interpolation *)

Lemma idle_pending (d : Route.Stepper -> Q) (sr n : nat) (m : Route.MapState) :
  idle sr m = true -> (sumQ (pending d sr n) (Route.frames m) == 0)%Q.
Proof.
  unfold idle. intros H. apply sumQ_zero. intros st Hst.
  rewrite forallb_forall in H. apply list_elem_of_In in Hst.
  specialize (H st Hst). apply negb_true_iff, Nat.eqb_neq in H.
  rewrite pending_other by done. reflexivity.
Qed.

Lemma steps_reached (n : nat) :
  (39 <= n)%nat -> Nat.min (S n) Route.steps = Route.steps.
Proof. unfold Route.steps. lia. Qed.

(** From a cursor at A with no interpolation in progress, animateBus
    towards B makes one step at once and one per frame; after [n] frames
    the cursor is at A plus [min (n+1) 40] increments (B - A)/40, and from
    the 40th step on it is at B exactly. *)
Theorem animateBus_reaches_target
    (m : Route.MapState) (id : string) (mr sr : nat)
    (a : Route.Cursor) (b : Route.LatLng) (n : nat) :
  Route.busMarkers m !! id = Some mr ->
  Route.animationState m !! id = Some sr ->
  Route.cursors m !! sr = Some a ->
  idle sr m = true ->
  exists c,
    Route.cursors (after_frames n (Route.animateBus id b m)) !! sr = Some c /\
    (Route.c_lat c ==
       Route.c_lat a
       + inject_Z (Z.of_nat (Nat.min (S n) 40)) * ((fst b - Route.c_lat a) / 40))%Q /\
    (Route.c_lng c ==
       Route.c_lng a
       + inject_Z (Z.of_nat (Nat.min (S n) 40)) * ((snd b - Route.c_lng a) / 40))%Q /\
    ((39 <= n)%nat -> (Route.c_lat c == fst b)%Q /\ (Route.c_lng c == snd b)%Q).
Proof.
  intros Hm Hs Hc Hidle.
  destruct (animateBus_after_frames m id mr sr a b n Hm Hs Hc) as (c & Hcn & Hlat & Hlng).
  rewrite (idle_pending Route.s_dLat sr n m Hidle) in Hlat.
  rewrite (idle_pending Route.s_dLng sr n m Hidle) in Hlng.
  exists c. split; [done|].
  change (inject_Z (Z.of_nat Route.steps)) with 40%Q in *.
  unfold increment in Hlat, Hlng.
  change (inject_Z (Z.of_nat Route.steps)) with 40%Q in *.
  change Route.steps with 40%nat in *.
  split; [rewrite Hlat; ring|]. split; [rewrite Hlng; ring|].
  intros Hn. replace (Nat.min (S n) 40) with 40%nat in * by lia.
  change (inject_Z (Z.of_nat 40)) with 40%Q in *.
  split; [rewrite Hlat|rewrite Hlng]; field.
Qed.

Lemma animateBus_reaches_target_witness :
  exists c,
    Route.cursors
      (after_frames 39 (Route.animateBus "EV-1" (40%Q, 8%Q) (Route.map Sample.one_bus_page)))
      !! 1%nat = Some c /\
    (Route.c_lat c == 40)%Q /\ (Route.c_lng c == 8)%Q.
Proof.
  destruct (animateBus_reaches_target (Route.map Sample.one_bus_page) "EV-1" 0 1
              {| Route.c_lat := 0; Route.c_lng := 0 |} (40%Q, 8%Q) 39)
    as (c & Hc & _ & _ & Hend); try reflexivity.
  exists c. split; [exact Hc|]. apply Hend. lia.
Defined.

(** A call of animateBus while earlier steppers of the same cursor are
    still queued adds one more stepper behind them and cancels none; each
    goes on adding its own increment, so after the new stepper's 40 steps
    the cursor is at the new target plus what the earlier steppers still
    added. *)
Theorem animateBus_retarget_adds_stepper
    (m : Route.MapState) (id : string) (mr sr : nat)
    (a : Route.Cursor) (b : Route.LatLng) (n : nat) :
  Route.busMarkers m !! id = Some mr ->
  Route.animationState m !! id = Some sr ->
  Route.cursors m !! sr = Some a ->
  Route.frames (Route.animateBus id b m) =
    (Route.frames m ++ [first_stepper mr sr a b])%list /\
  exists c,
    Route.cursors (after_frames n (Route.animateBus id b m)) !! sr = Some c /\
    (Route.c_lat c ==
       Route.c_lat a
       + inject_Z (Z.of_nat (Nat.min (S n) 40)) * ((fst b - Route.c_lat a) / 40)
       + sumQ (pending Route.s_dLat sr n) (Route.frames m))%Q /\
    (Route.c_lng c ==
       Route.c_lng a
       + inject_Z (Z.of_nat (Nat.min (S n) 40)) * ((snd b - Route.c_lng a) / 40)
       + sumQ (pending Route.s_dLng sr n) (Route.frames m))%Q /\
    ((39 <= n)%nat ->
       (Route.c_lat c == fst b + sumQ (pending Route.s_dLat sr n) (Route.frames m))%Q /\
       (Route.c_lng c == snd b + sumQ (pending Route.s_dLng sr n) (Route.frames m))%Q).
Proof.
  intros Hm Hs Hc.
  split; [exact (proj2 (animateBus_started m id mr sr a b Hm Hs Hc))|].
  destruct (animateBus_after_frames m id mr sr a b n Hm Hs Hc) as (c & Hcn & Hlat & Hlng).
  exists c. split; [done|].
  unfold increment in Hlat, Hlng.
  change (inject_Z (Z.of_nat Route.steps)) with 40%Q in *.
  change Route.steps with 40%nat in *.
  split; [rewrite Hlat; ring|]. split; [rewrite Hlng; ring|].
  intros Hn. replace (Nat.min (S n) 40) with 40%nat in * by lia.
  change (inject_Z (Z.of_nat 40)) with 40%Q in *.
  split; [rewrite Hlat|rewrite Hlng]; field.
Qed.

Lemma animateBus_retarget_adds_stepper_witness :
  exists c,
    Route.cursors
      (after_frames 39 (Route.animateBus "EV-1" (0%Q, 0%Q) (Route.map Sample.moving_page)))
      !! 1%nat = Some c /\
    (Route.c_lat c ==
       0 + sumQ (pending Route.s_dLat 1 39) (Route.frames (Route.map Sample.moving_page)))%Q.
Proof.
  destruct (animateBus_retarget_adds_stepper (Route.map Sample.moving_page) "EV-1" 0 1
              {| Route.c_lat := 0 + (40 - 0) / 40; Route.c_lng := 0 + (0 - 0) / 40 |}
              (0%Q, 0%Q) 39)
    as (_ & c & Hc & _ & _ & Hend); try reflexivity.
  exists c. split; [exact Hc|]. apply Hend. lia.
Defined.

(** C4, as stated, fails: a bus at (0,0) is sent to (40,0) and, before any
    frame, back to (0,0). The superseded stepper keeps running: 39 frames
    later the new stepper has made its 40 steps and the cursor is at
    latitude 39, not at the last target. *)
Lemma retarget_leaves_old_stepper_running :
  exists c,
    Route.animationState (Route.map Sample.retargeted_page) !! "EV-1" = Some 1%nat /\
    Route.cursors (Route.map Sample.retargeted_page) !! 1%nat = Some c /\
    (Route.c_lat c == 39)%Q /\
    ~ (Route.c_lat c == 0)%Q /\
    length (Route.frames (Route.map Sample.retargeted_page)) = 2%nat.
Proof.
  eexists. split; [vm_compute; reflexivity|].
  split; [vm_compute; reflexivity|].
  split; [vm_compute; reflexivity|].
  split; [|vm_compute; reflexivity].
  vm_compute. discriminate.
Qed.

(** C3 fails on the code: a bus shown at (0,0) is reported at (40,0) and,
    ten frames later, at (80,0). The interpolation towards (80,0) starts
    from latitude 11 with increment 69/40 and makes its 40 steps, but the
    earlier stepper adds its remaining 29 steps of 1 as well: the cursor
    ends at latitude 109, not at the target 80. *)
Theorem animateBus_misses_target_while_stepping :
  exists c,
    Route.animationState (Route.map Sample2.overlapping_page) !! "EV-1" = Some 1%nat /\
    Route.cursors (Route.map Sample2.overlapping_page) !! 1%nat = Some c /\
    (Route.c_lat c == 109)%Q /\
    ~ (Route.c_lat c == 80)%Q /\
    (Route.c_lng c == 0)%Q /\
    Forall (fun st => Route.s_i st = Route.steps)
           (Route.frames (Route.map Sample2.overlapping_page)).
Proof.
  eexists. split; [vm_compute; reflexivity|].
  split; [vm_compute; reflexivity|].
  split; [vm_compute; reflexivity|].
  split; [vm_compute; discriminate|].
  split; [vm_compute; reflexivity|].
  vm_compute. repeat constructor.
Qed.

(** ** The claims about reconciliation and stations *)

Lemma poll_body_done (r : Route.Response) (p p' : Route.Page) :
  Route.poll_body r p = Done p' ->
  exists bs rows m',
    r = Route.Resolved {| Route.success := true; Route.buses := Some bs |} /\
    Route.renderTable (List.filter (Route.matches (Route.query p)) bs) = Done rows /\
    Route.updateMap (Route.selectedBusId p)
      (List.filter (Route.matches (Route.query p)) bs) (Route.map p) = Done m' /\
    Route.map p' = m' /\ Route.routeStateDisplay p' = "none".
Proof.
  unfold Route.poll_body. destruct r as [e|[s [bs|]]]; try done; cbn.
  2: by destruct s.
  destruct s; [|done]. cbn.
  destruct (Route.renderTable _) as [rows|rows] eqn:Hr; [|done].
  cbn. destruct (Route.updateMap _ _ _) as [m'|m'] eqn:Hu; [|done].
  intros [= <-]. by exists bs, rows, m'.
Qed.

(** C1, as the code has it: after a poll cycle whose try block runs to
    its end, the keys of busMarkers are the identifiers of the buses of
    the batch that match the search box and carry both coordinates; a
    marker known before whose identifier is not among them is gone,
    together with its interpolation state. *)
Theorem poll_reconciles_markers
    (r : Route.Response) (p p' : Route.Page) :
  Route.poll_body r p = Done p' ->
  exists bs,
    r = Route.Resolved {| Route.success := true; Route.buses := Some bs |} /\
    Route.map (Route.settle r p) = Route.map p' /\
    dom (Route.busMarkers (Route.map p')) =
      Route.ids (List.filter Route.positioned
                   (List.filter (Route.matches (Route.query p)) bs)) /\
    forall id,
      id ∈ dom (Route.busMarkers (Route.map p)) ->
      id ∉ Route.ids (List.filter Route.positioned
                        (List.filter (Route.matches (Route.query p)) bs)) ->
      Route.busMarkers (Route.map p') !! id = None /\
      Route.animationState (Route.map p') !! id = None.
Proof.
  intros Hb.
  destruct (poll_body_done r p p' Hb) as (bs & rows & m' & -> & _ & Hu & Hm & _).
  exists bs. split; [done|].
  split; [unfold Route.settle; by rewrite Hb|].
  rewrite Hm. exact (updateMap_reconciles _ _ _ _ Hu).
Qed.

Lemma poll_reconciles_markers_witness :
  exists bs,
    Sample.ok [Sample.bus "EV-2" 5 5 "GOOD" None; Sample.lost_bus "EV-3"] =
      Route.Resolved {| Route.success := true; Route.buses := Some bs |} /\
    Route.map (Route.settle
                 (Sample.ok [Sample.bus "EV-2" 5 5 "GOOD" None; Sample.lost_bus "EV-3"])
                 Sample.repolling_page) =
    Route.map (outcome_state
                 (Route.poll_body
                    (Sample.ok [Sample.bus "EV-2" 5 5 "GOOD" None; Sample.lost_bus "EV-3"])
                    Sample.repolling_page)) /\
    dom (Route.busMarkers
           (Route.map (outcome_state
                         (Route.poll_body
                            (Sample.ok [Sample.bus "EV-2" 5 5 "GOOD" None;
                                        Sample.lost_bus "EV-3"])
                            Sample.repolling_page)))) =
      Route.ids (List.filter Route.positioned
                   (List.filter (Route.matches (Route.query Sample.repolling_page)) bs)) /\
    forall id,
      id ∈ dom (Route.busMarkers (Route.map Sample.repolling_page)) ->
      id ∉ Route.ids (List.filter Route.positioned
                        (List.filter (Route.matches (Route.query Sample.repolling_page)) bs)) ->
      Route.busMarkers
        (Route.map (outcome_state
                      (Route.poll_body
                         (Sample.ok [Sample.bus "EV-2" 5 5 "GOOD" None;
                                     Sample.lost_bus "EV-3"])
                         Sample.repolling_page))) !! id = None /\
      Route.animationState
        (Route.map (outcome_state
                      (Route.poll_body
                         (Sample.ok [Sample.bus "EV-2" 5 5 "GOOD" None;
                                     Sample.lost_bus "EV-3"])
                         Sample.repolling_page))) !! id = None.
Proof.
  apply (poll_reconciles_markers
           (Sample.ok [Sample.bus "EV-2" 5 5 "GOOD" None; Sample.lost_bus "EV-3"])
           Sample.repolling_page).
  vm_compute. reflexivity.
Defined.

(** C1, as stated, fails on two counts. A bus the server reports without
    coordinates gets no marker although it is in the batch; and a bus the
    search box filters out gets none either. Both cycles end without an
    error. *)
Lemma markers_differ_from_batch :
  (Route.routeStateDisplay
     (Route.settle (Sample.ok [Sample.lost_bus "EV-3"]) Sample.polling_page) = "none" /\
   dom (Route.busMarkers
          (Route.map (Route.settle (Sample.ok [Sample.lost_bus "EV-3"])
                                   Sample.polling_page)))
     ≠ Route.ids [Sample.lost_bus "EV-3"]) /\
  (Route.routeStateDisplay
     (Route.settle (Sample.ok [Sample.bus "EV-1" 0 0 "GOOD" None])
                   Sample.searching_page) = "none" /\
   dom (Route.busMarkers
          (Route.map (Route.settle (Sample.ok [Sample.bus "EV-1" 0 0 "GOOD" None])
                                   Sample.searching_page)))
     ≠ Route.ids [Sample.bus "EV-1" 0 0 "GOOD" None]).
Proof.
  split; (split; [vm_compute; reflexivity|]).
  - intros H.
    assert ("EV-3" ∈ Route.ids [Sample.lost_bus "EV-3"]) as Hin
      by (unfold Route.ids; cbn; set_solver).
    rewrite <- H in Hin. apply elem_of_dom in Hin as [x Hx].
    vm_compute in Hx. discriminate.
  - intros H.
    assert ("EV-1" ∈ Route.ids [Sample.bus "EV-1" 0 0 "GOOD" None]) as Hin
      by (unfold Route.ids; cbn; set_solver).
    rewrite <- H in Hin. apply elem_of_dom in Hin as [x Hx].
    vm_compute in Hx. discriminate.
Qed.

(** drawStation leaves the map alone when the name is registered. *)
Lemma drawStation_registered (s : Route.Station) (m : Route.MapState) :
  is_Some (Route.stationMarkers m !! Route.name s) -> Route.drawStation s m = m.
Proof. intros [k Hk]. unfold Route.drawStation. by rewrite Hk. Qed.

(** C6 fails on the critical path: drawOptimizedEmergencyRoute creates a
    marker for station S1 in each of two polls that carry a critical bus
    heading for it, and twice within one poll when two critical buses
    share it. *)
Theorem emergency_route_recreates_station_marker :
  Route.stationsCreated
    (Route.map (Route.run (Route.initial None None) Sample.critical_twice))
  = ["S1"; "S1"] /\
  Route.stationsCreated
    (Route.map (Route.run (Route.initial None None) Sample.critical_pair))
  = ["S1"; "S1"] /\
  length (Route.stationLayer
            (Route.layers
               (Route.map (Route.run (Route.initial None None) Sample.critical_pair))))
  = 2%nat.
Proof. repeat split; vm_compute; reflexivity. Qed.

(** ** The claims about failing remote calls *)

Lemma prediction_failure (r : Prediction.Response) (p : Prediction.Page) :
  Prediction.failed r = true ->
  let p' := Prediction.predictTrip_response r p in
  Prediction.messageText p' = [Prediction.failure_message r] /\
  Prediction.messageClasses p' = ["state-box"; "state-error"] /\
  Prediction.endSoc p' = [Lit "--%"] /\
  Prediction.risk p' = [Lit "--"] /\
  Prediction.riskColor p' = "inherit" /\
  Prediction.speed p' = [Lit "-- km/h"] /\
  Prediction.predictionChart p' = Prediction.predictionChart p /\
  Prediction.btnDisabled p' = false.
Proof.
  intros Hf p'. subst p'.
  destruct r as [e|ok json]; cbn in Hf |- *; [done|].
  rewrite Hf. done.
Qed.

Lemma logs_failure (r : Logs.Response) (p : Logs.Page) :
  Logs.failed r = true ->
  is_Some (Logs.tableState p) ->
  let p' := Logs.loadLogs_response r p in
  Logs.tableState p' =
    Some {| Logs.sb_text := Logs.failure_text r;
            Logs.sb_class := Logs.failure_class r;
            Logs.sb_display := "block" |} /\
  Logs.tableBody p' = (match Logs.tableBody p with
                       | Some _ => Some []
                       | None => None
                       end) /\
  Logs.activeBuses p' = Logs.activeBuses p /\
  Logs.stored p' = Logs.stored p.
Proof.
  intros Hf [box Hbox] p'. subst p'.
  assert (forall t ty,
    Logs.tableState (Logs.showState t ty p) =
      Some {| Logs.sb_text := t;
              Logs.sb_class := "state-box " ++
                               (if String.eqb ty "error" then "error" else "loading");
              Logs.sb_display := "block" |} /\
    Logs.tableBody (Logs.showState t ty p) =
      (match Logs.tableBody p with Some _ => Some [] | None => None end) /\
    Logs.activeBuses (Logs.showState t ty p) = Logs.activeBuses p /\
    Logs.stored (Logs.showState t ty p) = Logs.stored p) as Hshow.
  { intros t ty. unfold Logs.showState. by rewrite Hbox. }
  destruct r as [e|[|] [d|]]; cbn in Hf |- *; try apply Hshow.
  rewrite Hf. apply Hshow.
Qed.

Lemma maintenance_failure (r : Maintenance.Response) (p : Maintenance.Page) :
  Maintenance.failed r = true ->
  is_Some (Maintenance.maintenanceCount p) ->
  exists p',
    Maintenance.loadMaintenance_response r p = Done p' /\
    Maintenance.tableState p' =
      {| Maintenance.sb_text := [Lit "Failed to load maintenance data"];
         Maintenance.sb_class := "state-box error";
         Maintenance.sb_display := "block" |} /\
    Maintenance.maintenanceCount p' = Some [Lit "—"] /\
    Maintenance.upcomingServices p' = Maintenance.upcomingServices p /\
    Maintenance.activeAlerts p' = Maintenance.activeAlerts p /\
    Maintenance.avgBatteryHealth p' = Maintenance.avgBatteryHealth p /\
    Maintenance.tableBody p' = Maintenance.tableBody p.
Proof.
  intros Hf [old Hold].
  assert (Maintenance.try_body r p = Threw p) as Ht.
  { destruct r as [e|ok json]; [done|]. cbn in Hf |- *. by rewrite Hf. }
  unfold Maintenance.loadMaintenance_response, Maintenance.setCount.
  rewrite Ht, Hold. eexists. split; [reflexivity|]. done.
Qed.

Lemma safeUpdateText_effect (id : string) (t : text) (p : Dashboard.Page) (j : string) :
  let p' := Dashboard.safeUpdateText id t p in
  Dashboard.texts p' !! j =
    (if bool_decide (j = id ∧ is_Some (Dashboard.texts p !! j)) then Some t
     else Dashboard.texts p !! j) /\
  Dashboard.alertsBox p' = Dashboard.alertsBox p /\
  Dashboard.energyChart p' = Dashboard.energyChart p /\
  Dashboard.statusChart p' = Dashboard.statusChart p.
Proof.
  unfold Dashboard.safeUpdateText.
  destruct (Dashboard.texts p !! id) as [old|] eqn:Hid; cbn.
  - split; [|done]. destruct (decide (j = id)) as [->|Hne].
    + rewrite lookup_insert_eq, bool_decide_eq_true_2; [done|]. rewrite Hid. eauto.
    + rewrite lookup_insert_ne by done. rewrite bool_decide_eq_false_2; [done|]. tauto.
  - split; [|done]. rewrite bool_decide_eq_false_2; [done|].
    intros [-> [x Hx]]. congruence.
Qed.

Lemma fold_safeUpdateText_effect (t : text) (l : list string) :
  forall (p : Dashboard.Page) (j : string),
  let p' := foldl (fun p id => Dashboard.safeUpdateText id t p) p l in
  Dashboard.texts p' !! j =
    (if bool_decide (j ∈ l ∧ is_Some (Dashboard.texts p !! j)) then Some t
     else Dashboard.texts p !! j) /\
  Dashboard.alertsBox p' = Dashboard.alertsBox p /\
  Dashboard.energyChart p' = Dashboard.energyChart p /\
  Dashboard.statusChart p' = Dashboard.statusChart p.
Proof.
  induction l as [|id l IH]; intros p j; cbn [foldl].
  - split; [|done]. rewrite bool_decide_eq_false_2; [done|].
    intros [H _]. by apply elem_of_nil in H.
  - destruct (IH (Dashboard.safeUpdateText id t p) j) as (H1 & H2 & H3 & H4).
    destruct (safeUpdateText_effect id t p j) as (G1 & G2 & G3 & G4).
    cbn zeta in *. rewrite H1, H2, H3, H4, G1, G2, G3, G4. split; [|done].
    destruct (decide (j = id ∧ is_Some (Dashboard.texts p !! j))) as [[Heq Hs]|Hn].
    + subst j. rewrite (bool_decide_eq_true_2 (id = id ∧ _)) by done.
      rewrite (bool_decide_eq_true_2 (id ∈ id :: l ∧ _)) by (split; [left|done]).
      clear. by case_bool_decide.
    + rewrite (bool_decide_eq_false_2 _ Hn). clear H1 G1 IH.
      repeat case_bool_decide; try done; exfalso.
      * destruct H as [Hin Hs]. apply H0. split; [by right|done].
      * destruct H0 as [Hin Hs]. apply elem_of_cons in Hin as [Heq|Hin]; tauto.
Qed.

Lemma dashboard_failure (r : Dashboard.Response) (p : Dashboard.Page) :
  Dashboard.failed r = true ->
  let p' := Dashboard.fetchDashboardMetrics_response r p in
  (forall id, id ∈ Dashboard.kpi_ids -> is_Some (Dashboard.texts p !! id) ->
              Dashboard.texts p' !! id = Some [Lit "SYNCING..."]) /\
  Dashboard.alertsBox p' = Dashboard.alertsBox p /\
  Dashboard.energyChart p' = Dashboard.energyChart p /\
  Dashboard.statusChart p' = Dashboard.statusChart p.
Proof.
  intros Hf. cbn zeta.
  assert (Dashboard.fetchDashboardMetrics_response r p =
          Dashboard.showDashboardFallback p) as ->.
  { destruct r as [e|ok json]; [done|]. cbn in Hf |- *. by rewrite Hf. }
  unfold Dashboard.showDashboardFallback.
  split.
  - intros id Hin Hsome.
    destruct (fold_safeUpdateText_effect [Lit "SYNCING..."] Dashboard.kpi_ids p id)
      as (H & _).
    cbn zeta in H. etransitivity; [exact H|].
    by rewrite bool_decide_eq_true_2.
  - destruct (fold_safeUpdateText_effect [Lit "SYNCING..."] Dashboard.kpi_ids p "")
      as (_ & H). exact H.
Qed.

Lemma login_failure (formEmail : string) (r : Login.Response) (p : Login.Page) :
  Login.failed r = true ->
  let p' := Login.loginUser_response formEmail r p in
  Login.messageText p' = Login.failure_text r /\
  Login.messageClass p' = "state-box error" /\
  Login.messageDisplay p' = "block" /\
  Login.buttonDisabled p' = false /\
  Login.localStorage p' = Login.localStorage p /\
  Login.timers p' = Login.timers p /\
  Login.location p' = Login.location p.
Proof.
  intros Hf p'. subst p'.
  destruct r as [e|ok data]; [done|].
  cbn in Hf |- *. rewrite Hf. done.
Qed.

Lemma signup_failure (r : Signup.Response) (p : Signup.Page) :
  Signup.failed r = true ->
  let p' := Signup.response r p in
  Signup.messageText p' = [Signup.failure_message r] /\
  "error" ∈ Signup.messageClasses p' /\
  Signup.messageDisplay p' = "block" /\
  Signup.buttonDisabled p' = false /\
  Signup.timers p' = Signup.timers p.
Proof.
  intros Hf p'. subst p'.
  assert (Signup.response r p = Signup.on_catch (Signup.failure_message r) p) as ->.
  { destruct r as [e|ok err]; [done|]. cbn in Hf |- *. by rewrite Hf. }
  cbn. repeat split; try done.
  unfold classList_add. case_bool_decide; [done|]. set_solver.
Qed.

Lemma route_failure (r : Route.Response) (p : Route.Page) :
  Route.failed r = true ->
  let p' := Route.settle r p in
  Route.routeStateText p' = [Lit "Live telemetry unavailable"] /\
  Route.routeStateDisplay p' = "block" /\
  Route.tableRows p' = Route.tableRows p /\
  Route.map p' = Route.map p.
Proof.
  intros Hf p'. subst p'.
  assert (Route.poll_body r p = Threw p) as Hb.
  { destruct r as [e|data]; [done|]. cbn in Hf |- *. by rewrite Hf. }
  unfold Route.settle. by rewrite Hb.
Qed.

Lemma symptoms_of_failed (ok success : bool) :
  symptoms_of ok success <> [] -> negb ok || negb success = true.
Proof. by destruct ok, success. Qed.

Lemma exportCSV_failure (busId : string) (r : LogsExport.Response) (p : LogsExport.Page) :
  export_symptoms r <> [] ->
  LogsExport.exportCSV_response busId r p = LogsExport.on_catch p.
Proof. by destruct r as [e|[|] [csv|]]. Qed.

Lemma getCurrentUser_failure
    (server : string -> AuthGuard.MeResponse) (b : AuthGuard.Browser) (tok : string) :
  AuthGuard.localStorage b !! "token" = Some tok -> truthy tok = true ->
  me_symptoms (server tok) <> [] ->
  AuthGuard.getCurrentUser server b = (None, AuthGuard.send tok b).
Proof.
  intros Ht Hy Hs. unfold AuthGuard.getCurrentUser. rewrite Ht, Hy. cbn.
  by destruct (server tok) as [|[|] body].
Qed.

(** C2, as stated, fails in each of its three parts. State is not kept:
    a rejected prediction request puts the KPI placeholders back, a
    rejected logs request empties the table, a rejected maintenance
    request replaces the record count by a dash, a rejected dashboard
    request overwrites a KPI value. No inline message: in a document
    without the status box loadLogs shows nothing, in one without the
    count element the catch block of loadMaintenance throws before its
    message, exportCSV raises an alert dialog and leaves the status box
    as it was, getCurrentUser shows nothing. Not every failure is
    detected: the signup handler shows its success message for an answer
    with status 200 and a false success flag, and fetchRouteStatus renders
    the body of an answer with status 500. *)
Lemma remote_failures_break_the_policy :
  (prediction_symptoms (Prediction.Rejected FetchFailed) = [NetworkError] /\
   Prediction.endSoc Sample.predicted_page = [Num 42; Lit "%"] /\
   Prediction.endSoc
     (Prediction.predictTrip_response (Prediction.Rejected FetchFailed)
        Sample.predicted_page) = [Lit "--%"]) /\
  (logs_symptoms (Logs.Rejected FetchFailed) = [NetworkError] /\
   length (default [] (Logs.tableBody Sample2.loaded_logs_page)) = 1%nat /\
   Logs.tableBody (Logs.loadLogs_response (Logs.Rejected FetchFailed)
                     Sample2.loaded_logs_page) = Some []) /\
  (maintenance_symptoms (Maintenance.Rejected FetchFailed) = [NetworkError] /\
   Maintenance.maintenanceCount Sample.maintenance_page = Some [Lit "0 records"] /\
   Maintenance.maintenanceCount
     (outcome_state (Maintenance.loadMaintenance_response
                       (Maintenance.Rejected FetchFailed) Sample.maintenance_page))
     = Some [Lit "—"]) /\
  (dashboard_symptoms (Dashboard.Rejected FetchFailed) = [NetworkError] /\
   Dashboard.texts Sample.dashboard_page !! "avgSoc" = Some [Num 77; Lit "%"] /\
   Dashboard.texts
     (Dashboard.fetchDashboardMetrics_response (Dashboard.Rejected FetchFailed)
        Sample.dashboard_page) !! "avgSoc" = Some [Lit "SYNCING..."]) /\
  (Logs.loadLogs_response (Logs.Rejected FetchFailed) Sample2.boxless_logs_page
   = Sample2.boxless_logs_page /\
   Logs.tableState Sample2.boxless_logs_page = None) /\
  (exists q,
     Maintenance.loadMaintenance_response (Maintenance.Rejected FetchFailed)
       (Maintenance.loadMaintenance_start Sample2.uncounted_page) = Threw q /\
     Maintenance.sb_text (Maintenance.tableState q)
       = [Lit "Fetching maintenance analytics…"]) /\
  (export_symptoms (LogsExport.Resolved false None) = [BadStatus] /\
   LogsExport.alerts
     (LogsExport.exportCSV_response "EV-1" (LogsExport.Resolved false None)
        Sample2.exporting_page)
     = ["Failed to export CSV. Check console for details."] /\
   LogsExport.logs
     (LogsExport.exportCSV_response "EV-1" (LogsExport.Resolved false None)
        Sample2.exporting_page)
     = LogsExport.logs Sample2.exporting_page) /\
  (me_symptoms (Sample2.me_down "abc") = [NetworkError] /\
   AuthGuard.getCurrentUser Sample2.me_down Sample2.browser_with_token
   = (None, AuthGuard.send "abc" Sample2.browser_with_token) /\
   AuthGuard.alerts (AuthGuard.send "abc" Sample2.browser_with_token) = []) /\
  (signup_symptoms Sample2.signup_flagged = [FailureFlag] /\
   Signup.messageText (Signup.response (signup_reads Sample2.signup_flagged)
                         Sample.signup_page)
     = [Lit "Account created successfully! Redirecting to login..."] /\
   Signup.timers (Signup.response (signup_reads Sample2.signup_flagged)
                    Sample.signup_page) = ["/login.html"]) /\
  (route_symptoms Sample2.route_bad_status = [BadStatus] /\
   Route.routeStateDisplay
     (Route.settle (route_reads Sample2.route_bad_status) Sample.polling_page) = "none" /\
   length (Route.tableRows
             (Route.settle (route_reads Sample2.route_bad_status) Sample.polling_page))
     = 1%nat /\
   dom (Route.busMarkers
          (Route.map (Route.settle (route_reads Sample2.route_bad_status)
                        Sample.polling_page))) = {[ "EV-1" ]}).
Proof.
  repeat split; try (vm_compute; reflexivity).
  eexists. split; vm_compute; reflexivity.
Qed.

(** C2, as the code has it. A failure is a rejected request or an
    unreadable body, a non-success status, or a falsy success flag in the
    body. predictTrip shows the error's message, resets the three KPI
    fields to their placeholders and keeps the chart; loadLogs shows its
    message and empties the table body when the status box exists, does
    nothing when it does not, and keeps the list of active buses;
    loadMaintenance, on a page with the count element, shows its message,
    sets the record count to a dash and keeps the KPI fields and the rows;
    fetchDashboardMetrics writes SYNCING... into the KPI fields that exist
    and keeps the alerts and the charts; loginUser shows its message and
    keeps storage, timers and location; the signup handler does so for
    every failure but a falsy success flag under an ok status, and
    fetchRouteStatus for every failure but a non-success status whose
    body reports success: these two are not covered here. exportCSV
    reports a failure in an alert dialog and leaves the page and the
    downloads as they were; getCurrentUser returns null and shows
    nothing. *)
Theorem remote_failures_are_reported :
  (forall (r : Prediction.Response) (p : Prediction.Page),
     prediction_symptoms r <> [] ->
     let p' := Prediction.predictTrip_response r p in
     Prediction.messageText p' = [Prediction.failure_message r] /\
     Prediction.messageClasses p' = ["state-box"; "state-error"] /\
     Prediction.endSoc p' = [Lit "--%"] /\
     Prediction.risk p' = [Lit "--"] /\
     Prediction.riskColor p' = "inherit" /\
     Prediction.speed p' = [Lit "-- km/h"] /\
     Prediction.predictionChart p' = Prediction.predictionChart p /\
     Prediction.btnDisabled p' = false) /\
  (forall (r : Logs.Response) (p : Logs.Page),
     logs_symptoms r <> [] ->
     let p' := Logs.loadLogs_response r p in
     (is_Some (Logs.tableState p) ->
      Logs.tableState p' =
        Some {| Logs.sb_text := Logs.failure_text r;
                Logs.sb_class := Logs.failure_class r;
                Logs.sb_display := "block" |} /\
      Logs.tableBody p' = (match Logs.tableBody p with
                           | Some _ => Some []
                           | None => None
                           end)) /\
     (Logs.tableState p = None -> p' = p) /\
     Logs.activeBuses p' = Logs.activeBuses p /\
     Logs.stored p' = Logs.stored p) /\
  (forall (r : Maintenance.Response) (p : Maintenance.Page),
     maintenance_symptoms r <> [] ->
     is_Some (Maintenance.maintenanceCount p) ->
     exists p',
       Maintenance.loadMaintenance_response r p = Done p' /\
       Maintenance.tableState p' =
         {| Maintenance.sb_text := [Lit "Failed to load maintenance data"];
            Maintenance.sb_class := "state-box error";
            Maintenance.sb_display := "block" |} /\
       Maintenance.maintenanceCount p' = Some [Lit "—"] /\
       Maintenance.upcomingServices p' = Maintenance.upcomingServices p /\
       Maintenance.activeAlerts p' = Maintenance.activeAlerts p /\
       Maintenance.avgBatteryHealth p' = Maintenance.avgBatteryHealth p /\
       Maintenance.tableBody p' = Maintenance.tableBody p) /\
  (forall (r : Dashboard.Response) (p : Dashboard.Page),
     dashboard_symptoms r <> [] ->
     let p' := Dashboard.fetchDashboardMetrics_response r p in
     (forall id, id ∈ Dashboard.kpi_ids -> is_Some (Dashboard.texts p !! id) ->
                 Dashboard.texts p' !! id = Some [Lit "SYNCING..."]) /\
     Dashboard.alertsBox p' = Dashboard.alertsBox p /\
     Dashboard.energyChart p' = Dashboard.energyChart p /\
     Dashboard.statusChart p' = Dashboard.statusChart p) /\
  (forall (formEmail : string) (r : Login.Response) (p : Login.Page),
     login_symptoms r <> [] ->
     let p' := Login.loginUser_response formEmail r p in
     Login.messageText p' = Login.failure_text r /\
     Login.messageClass p' = "state-box error" /\
     Login.messageDisplay p' = "block" /\
     Login.buttonDisabled p' = false /\
     Login.localStorage p' = Login.localStorage p /\
     Login.timers p' = Login.timers p /\
     Login.location p' = Login.location p) /\
  (forall (a : SignupArrival) (p : Signup.Page),
     signup_symptoms a <> [] -> signup_symptoms a <> [FailureFlag] ->
     let p' := Signup.response (signup_reads a) p in
     Signup.messageText p' = [Signup.failure_message (signup_reads a)] /\
     "error" ∈ Signup.messageClasses p' /\
     Signup.messageDisplay p' = "block" /\
     Signup.buttonDisabled p' = false /\
     Signup.timers p' = Signup.timers p) /\
  (forall (a : RouteArrival) (p : Route.Page),
     route_symptoms a <> [] -> route_symptoms a <> [BadStatus] ->
     let p' := Route.settle (route_reads a) p in
     Route.routeStateText p' = [Lit "Live telemetry unavailable"] /\
     Route.routeStateDisplay p' = "block" /\
     Route.tableRows p' = Route.tableRows p /\
     Route.map p' = Route.map p) /\
  (forall (busId : string) (r : LogsExport.Response) (p : LogsExport.Page),
     export_symptoms r <> [] ->
     let p' := LogsExport.exportCSV_response busId r p in
     LogsExport.alerts p'
       = (LogsExport.alerts p ++ ["Failed to export CSV. Check console for details."])%list /\
     LogsExport.logs p' = LogsExport.logs p /\
     LogsExport.downloads p' = LogsExport.downloads p /\
     LogsExport.queries p' = LogsExport.queries p) /\
  (forall (server : string -> AuthGuard.MeResponse) (b : AuthGuard.Browser) (tok : string),
     AuthGuard.localStorage b !! "token" = Some tok -> truthy tok = true ->
     me_symptoms (server tok) <> [] ->
     fst (AuthGuard.getCurrentUser server b) = None /\
     AuthGuard.alerts (snd (AuthGuard.getCurrentUser server b)) = AuthGuard.alerts b /\
     AuthGuard.location (snd (AuthGuard.getCurrentUser server b)) = AuthGuard.location b /\
     AuthGuard.localStorage (snd (AuthGuard.getCurrentUser server b))
       = AuthGuard.localStorage b /\
     AuthGuard.currentUser (snd (AuthGuard.getCurrentUser server b))
       = AuthGuard.currentUser b).
Proof.
  split.
  { intros r p Hs. apply prediction_failure.
    destruct r as [e|ok json]; [done|]. by apply symptoms_of_failed. }
  split.
  { intros r p Hs. cbn zeta.
    assert (Logs.failed r = true) as Hf.
    { destruct r as [e|[|] [d|]]; try done. cbn in Hs |- *.
      by destruct (Logs.success d). }
    split; [intros Hbox; by destruct (logs_failure r p Hf Hbox) as (H1 & H2 & _)|].
    assert (forall t ty, Logs.activeBuses (Logs.showState t ty p) = Logs.activeBuses p /\
                         Logs.stored (Logs.showState t ty p) = Logs.stored p /\
                         (Logs.tableState p = None -> Logs.showState t ty p = p)) as Hshow.
    { intros t ty. unfold Logs.showState. by destruct (Logs.tableState p). }
    assert (exists t ty, Logs.loadLogs_response r p = Logs.showState t ty p)
      as (t & ty & ->).
    { destruct r as [e|[|] [d|]]; cbn in Hf |- *; try (by eexists _, _).
      rewrite Hf. by eexists _, _. }
    destruct (Hshow t ty) as (H1 & H2 & H3). done. }
  split.
  { intros r p Hs. apply maintenance_failure.
    destruct r as [e|ok json]; [done|]. by apply symptoms_of_failed. }
  split.
  { intros r p Hs. apply dashboard_failure.
    destruct r as [e|ok json]; [done|]. by apply symptoms_of_failed. }
  split.
  { intros formEmail r p Hs. apply login_failure.
    destruct r as [e|ok data]; [done|]. cbn.
    by rewrite (symptoms_of_failed _ _ Hs). }
  split.
  { intros a p Hs Hn. apply signup_failure.
    destruct a as [e|[|] [|] err]; done. }
  split.
  { intros a p Hs Hn. apply route_failure.
    destruct a as [e|[|] d]; [done| |]; cbn in *; by destruct (Route.success d). }
  split.
  { intros busId r p Hs. cbn zeta. by rewrite (exportCSV_failure busId r p Hs). }
  intros server b tok Ht Hy Hs.
  by rewrite (getCurrentUser_failure server b tok Ht Hy Hs).
Qed.

Lemma remote_failures_are_reported_witness :
  Logs.tableState (Logs.loadLogs_response (Logs.Resolved false None) Sample.logs_page) =
    Some {| Logs.sb_text := [Lit "Error loading logs"];
            Logs.sb_class := "state-box error";
            Logs.sb_display := "block" |} /\
  Prediction.speed
    (Prediction.predictTrip_response (Prediction.Rejected FetchFailed) Sample.predicted_page)
    = [Lit "-- km/h"] /\
  Dashboard.texts
    (Dashboard.fetchDashboardMetrics_response (Dashboard.Rejected FetchFailed)
       Sample.dashboard_page) !! "avgSoc" = Some [Lit "SYNCING..."] /\
  Signup.messageDisplay
    (Signup.response (signup_reads (SignupAnswered false false (Some "Email already registered")))
       Sample.signup_page) = "block" /\
  LogsExport.alerts
    (LogsExport.exportCSV_response "EV-1" (LogsExport.Rejected FetchFailed)
       Sample2.exporting_page)
    = ["Failed to export CSV. Check console for details."].
Proof.
  destruct remote_failures_are_reported as (Hp & Hl & _ & Hd & _ & Hs & _ & He & _).
  split.
  { apply (Hl (Logs.Resolved false None) Sample.logs_page);
      [discriminate | eexists; reflexivity]. }
  split.
  { apply (Hp (Prediction.Rejected FetchFailed) Sample.predicted_page). discriminate. }
  split.
  { apply (Hd (Dashboard.Rejected FetchFailed) Sample.dashboard_page);
      [discriminate | unfold Dashboard.kpi_ids; set_solver | eexists; vm_compute; reflexivity]. }
  split.
  { apply (Hs (SignupAnswered false false (Some "Email already registered"))
              Sample.signup_page); discriminate. }
  apply (He "EV-1" (LogsExport.Rejected FetchFailed) Sample2.exporting_page). discriminate.
Defined.

(** ** Further properties of route.js: the stores of the map *)

Lemma paired_same_core (m m' : Route.MapState) :
  same_core m m' -> paired m -> paired m'.
Proof.
  intros (Hb & Ha & Hm & Hc & Hn & Hf) [P1 P2 P3 P4 P5].
  split; rewrite ?Hb, ?Ha, ?Hm, ?Hc, ?Hn, ?Hf; done.
Qed.

Lemma same_core_refl (m : Route.MapState) : same_core m m.
Proof. by repeat split. Qed.

Lemma same_core_trans (m1 m2 m3 : Route.MapState) :
  same_core m1 m2 -> same_core m2 m3 -> same_core m1 m3.
Proof.
  intros (A1 & A2 & A3 & A4 & A5 & A6) (B1 & B2 & B3 & B4 & B5 & B6).
  repeat split; congruence.
Qed.

Lemma paired_initial (sel search : option string) :
  paired (Route.map (Route.initial sel search)).
Proof.
  split; cbn; intros; try done.
  by apply elem_of_nil in H.
Qed.

Lemma run_step_paired (st : Route.Stepper) (m : Route.MapState) :
  Route.s_state st = S (Route.s_marker st) -> paired m -> paired (Route.run_step st m).
Proof.
  intros Hst P. unfold Route.run_step.
  destruct (Route.steps <=? Route.s_i st)%nat; [done|].
  destruct (Route.cursors m !! Route.s_state st) as [c|] eqn:Hc; [|done].
  destruct P as [P1 P2 P3 P4 P5]. rewrite Hst in *.
  split; cbn.
  - intros id r Hr. destruct (P1 id r Hr) as (Ha & Hm & Hcu).
    split; [done|]. split.
    + by apply lookup_alter_is_Some.
    + destruct (decide (S (Route.s_marker st) = S r)) as [->|Hne];
        [by rewrite lookup_insert_eq | by rewrite lookup_insert_ne].
  - exact P2.
  - intros st' Hin. apply elem_of_app in Hin as [Hin|Hin]; [by apply P3|].
    apply list_elem_of_singleton in Hin. subst st'. cbn. done.
  - intros r mk c' Hmk Hc'.
    destruct (decide (Route.s_marker st = r)) as [<-|Hne].
    + rewrite lookup_insert_eq in Hc'. injection Hc' as <-.
      rewrite lookup_alter_eq in Hmk.
      destruct (Route.markers m !! Route.s_marker st); [|done].
      cbn in Hmk. injection Hmk as <-. done.
    + rewrite lookup_alter_ne in Hmk by done.
      rewrite lookup_insert_ne in Hc' by congruence. by eapply P4.
  - intros r Hr. destruct (P5 r Hr) as [Hm Hcu]. split.
    + apply lookup_alter_None. exact Hm.
    + destruct (decide (S (Route.s_marker st) = r)) as [<-|Hne]; [congruence|].
      by rewrite lookup_insert_ne.
Qed.

Lemma animateBus_paired (id : string) (t : Route.LatLng) (m : Route.MapState) :
  paired m -> paired (Route.animateBus id t m).
Proof.
  intros P. unfold Route.animateBus.
  destruct (Route.busMarkers m !! id) as [mr|] eqn:Hm; [|done].
  destruct (Route.animationState m !! id) as [sr|] eqn:Hs; [|done].
  destruct (Route.cursors m !! sr) as [c|]; [|done].
  apply run_step_paired; [|done]. cbn.
  destruct (paired_marker m P id mr Hm) as (Ha & _). congruence.
Qed.

Lemma frame_paired (m : Route.MapState) : paired m -> paired (Route.frame m).
Proof.
  intros P. unfold Route.frame.
  assert (forall q m0, (forall st, st ∈ q -> Route.s_state st = S (Route.s_marker st)) ->
            paired m0 -> paired (foldl (fun m st => Route.run_step st m) m0 q)) as Hfold.
  { induction q as [|st q IH]; intros m0 Hq P0; [done|]. cbn.
    apply IH; [intros; apply Hq; by right|].
    apply run_step_paired; [apply Hq; by left|done]. }
  apply Hfold; [exact (paired_frames m P)|].
  destruct P as [P1 P2 P3 P4 P5]. split; cbn; try done.
  intros st H. by apply elem_of_nil in H.
Qed.

(** Changing what a marker shows besides its position. *)
Lemma relabel_paired (f : Route.Marker -> Route.Marker) (r : nat) (m : Route.MapState) :
  (forall k, Route.m_latlng (f k) = Route.m_latlng k) ->
  paired m -> paired (Route.setMarkers (alter f r (Route.markers m)) m).
Proof.
  intros Hf [P1 P2 P3 P4 P5]. split; cbn; try done.
  - intros id r0 Hr. destruct (P1 id r0 Hr) as (Ha & Hm & Hc).
    split; [done|]. split; [by apply lookup_alter_is_Some|done].
  - intros r0 mk c Hmk Hc. destruct (decide (r = r0)) as [->|Hne].
    + rewrite lookup_alter_eq in Hmk.
      destruct (Route.markers m !! r0) as [k|] eqn:Hk; [|done].
      cbn in Hmk. injection Hmk as <-. rewrite Hf. by eapply P4.
    + rewrite lookup_alter_ne in Hmk by done. by eapply P4.
  - intros r0 Hr. destruct (P5 r0 Hr) as [Hm Hc]. split; [|done].
    by apply lookup_alter_None.
Qed.

Lemma setView_core (v : Route.LatLng * Z) (m : Route.MapState) :
  same_core m (Route.setView v m).
Proof. by repeat split. Qed.

Lemma setLayers_core (l : Route.Layers) (m : Route.MapState) :
  same_core m (Route.setLayers l m).
Proof. by repeat split. Qed.

Lemma drawBus_paired (sel : string) (b : Route.Bus) (la ln : Q) (m : Route.MapState) :
  paired m -> paired (outcome_state (Route.drawBus sel b la ln m)).
Proof.
  intros P. unfold Route.drawBus.
  destruct (Route.busMarkers m !! Route.bus_id b) as [r|] eqn:Hb.
  - pose proof (animateBus_paired (Route.bus_id b) (la, ln) m P) as P1.
    set (m1 := Route.animateBus (Route.bus_id b) (la, ln) m) in *.
    match goal with |- context [Route.setMarkers (alter ?f r (Route.markers m1)) m1] =>
      pose proof (relabel_paired f r m1 (fun k => eq_refl) P1) as P2;
      set (m2 := Route.setMarkers (alter f r (Route.markers m1)) m1) in *
    end.
    destruct (Route.busPopup b) as [pop|]; cbn [outcome_state]; [|done].
    match goal with |- context [Route.setMarkers (alter ?f r (Route.markers m2)) m2] =>
      pose proof (relabel_paired f r m2 (fun k => eq_refl) P2) as P3
    end.
    case_match; [|done]. eapply paired_same_core; [apply setView_core|done].
  - destruct P as [P1 P2 P3 P4 P5].
    destruct (P5 (Route.next m) (le_n _)) as [Hfm Hfc].
    destruct (P5 (S (Route.next m)) (le_S _ _ (le_n _))) as [_ Hfc'].
    destruct (Route.busPopup b) as [pop|]; cbn [outcome_state].
    + match goal with |- paired (if ?c then Route.setView ?v ?x else ?x) =>
        assert (paired x) as Px; [|destruct c; [eapply paired_same_core; [apply setView_core|]|]; done]
      end.
      split; cbn.
      * intros id r Hr. destruct (decide (Route.bus_id b = id)) as [<-|Hne].
        -- rewrite lookup_insert_eq in Hr. injection Hr as <-.
           rewrite !lookup_insert_eq. eauto.
        -- rewrite lookup_insert_ne in Hr by done.
           destruct (P1 id r Hr) as (Ha & Hm & Hc).
           rewrite lookup_insert_ne by done. split; [done|].
           split; [rewrite !lookup_insert_is_Some'; eauto|].
           rewrite lookup_insert_is_Some'; eauto.
      * intros id s Hs. destruct (decide (Route.bus_id b = id)) as [<-|Hne].
        -- rewrite lookup_insert_eq. eauto.
        -- rewrite lookup_insert_ne in Hs by done. rewrite lookup_insert_ne by done.
           by eapply P2.
      * exact P3.
      * intros r mk c Hmk Hc. rewrite insert_insert_eq in Hmk.
        destruct (decide (Route.next m = r)) as [<-|Hne].
        -- rewrite lookup_insert_eq in Hmk. rewrite lookup_insert_eq in Hc.
           by simplify_eq.
        -- rewrite lookup_insert_ne in Hmk by done.
           rewrite lookup_insert_ne in Hc by congruence. by eapply P4.
      * intros r Hr. destruct (P5 r ltac:(lia)) as [Hm Hc].
        rewrite insert_insert_eq. rewrite !lookup_insert_ne by lia. done.
    + split; cbn; try done.
      * intros id r Hr. destruct (P1 id r Hr) as (Ha & Hm & Hc).
        split; [done|]. split; [rewrite lookup_insert_is_Some'; eauto|done].
      * intros r mk c Hmk Hc. destruct (decide (Route.next m = r)) as [<-|Hne].
        -- congruence.
        -- rewrite lookup_insert_ne in Hmk by done. by eapply P4.
      * intros r Hr. destruct (P5 r ltac:(lia)) as [Hm Hc].
        rewrite lookup_insert_ne by lia. done.
Qed.

Lemma drawMovementTrail_core (b : Route.Bus) (la ln : Q) (m : Route.MapState) :
  same_core m (Route.drawMovementTrail b la ln m).
Proof. unfold Route.drawMovementTrail. repeat case_match; by repeat split. Qed.

Lemma drawStation_core (s : Route.Station) (m : Route.MapState) :
  same_core m (Route.drawStation s m).
Proof. unfold Route.drawStation. case_match; by repeat split. Qed.

Lemma drawOptimizedEmergencyRoute_core (la ln : Q) (s : Route.Station) (m : Route.MapState) :
  same_core m (Route.drawOptimizedEmergencyRoute la ln s m).
Proof. by repeat split. Qed.

Lemma visit_paired (sel : string) (b : Route.Bus) (acc : gset string * Route.MapState) :
  paired (snd acc) -> paired (snd (outcome_state (Route.visit sel b acc))).
Proof.
  intros P. unfold Route.visit.
  destruct (Route.lat b) as [la|]; [|done]. destruct (Route.lng b) as [ln|]; [|done].
  pose proof (drawBus_paired sel b la ln (snd acc) P) as P1.
  destruct (Route.drawBus sel b la ln (snd acc)) as [m1|m1]; cbn in P1 |- *; [|done].
  pose proof (paired_same_core _ _ (drawMovementTrail_core b la ln m1) P1) as P2.
  repeat case_match; cbn; try done.
  - eapply paired_same_core; [apply drawOptimizedEmergencyRoute_core|done].
  - eapply paired_same_core; [apply drawStation_core|done].
Qed.

Lemma forEach_visit_paired (sel : string) (bs : list Route.Bus) :
  forall acc, paired (snd acc) ->
              paired (snd (outcome_state (Route.forEach (Route.visit sel) bs acc))).
Proof.
  induction bs as [|b bs IH]; intros acc P; cbn [Route.forEach]; [done|].
  pose proof (visit_paired sel b acc P) as P1.
  destruct (Route.visit sel b acc) as [acc1|acc1]; cbn in P1 |- *; [by apply IH|done].
Qed.

Lemma removeInactive_paired (A : gset string) (m : Route.MapState) (id : string) :
  paired m -> paired (Route.removeInactive A m id).
Proof.
  intros [P1 P2 P3 P4 P5]. unfold Route.removeInactive.
  case_bool_decide; [by split|]. split; cbn; try done.
  - intros id0 r Hr. destruct (decide (id = id0)) as [->|Hne].
    + by rewrite lookup_delete_eq in Hr.
    + rewrite lookup_delete_ne in Hr by done. rewrite lookup_delete_ne by done.
      by apply P1.
  - intros id0 s Hs. destruct (decide (id = id0)) as [->|Hne].
    + by rewrite lookup_delete_eq in Hs.
    + rewrite lookup_delete_ne in Hs by done. rewrite lookup_delete_ne by done.
      by eapply P2.
Qed.

Lemma updateMap_paired (sel : string) (bs : list Route.Bus) (m : Route.MapState) :
  paired m -> paired (outcome_state (Route.updateMap sel bs m)).
Proof.
  intros P. unfold Route.updateMap.
  assert (paired (Route.clearLayers m)) as P0
    by (eapply paired_same_core; [apply setLayers_core|done]).
  pose proof (forEach_visit_paired sel bs (∅, Route.clearLayers m) P0) as P1.
  destruct (Route.forEach _ _ _) as [acc|acc]; cbn in P1 |- *; [|done].
  generalize (map fst (map_to_list (Route.busMarkers acc.2))). intros l.
  revert P1. generalize (snd acc). induction l as [|id l IH]; intros m0 P0'; [done|].
  cbn. apply IH. by apply removeInactive_paired.
Qed.

Lemma poll_body_map (r : Route.Response) (p : Route.Page) :
  Route.map (outcome_state (Route.poll_body r p)) = Route.map p \/
  exists bs, Route.map (outcome_state (Route.poll_body r p)) =
             outcome_state (Route.updateMap (Route.selectedBusId p) bs (Route.map p)).
Proof.
  unfold Route.poll_body. destruct r as [e|d]; [by left|].
  destruct (Route.success d); [|by left]. cbn.
  destruct (Route.buses d) as [bs|]; [|by left].
  destruct (Route.renderTable _) as [rows|rows]; [|by left].
  right. exists (List.filter (Route.matches (Route.query p)) bs). cbn.
  by destruct (Route.updateMap _ _ _).
Qed.

Lemma settle_map (r : Route.Response) (p : Route.Page) :
  Route.map (Route.settle r p) = Route.map (outcome_state (Route.poll_body r p)).
Proof. unfold Route.settle. by destruct (Route.poll_body r p). Qed.

Lemma fetchRouteStatus_map (p : Route.Page) :
  Route.map (Route.fetchRouteStatus p) = Route.map p.
Proof. unfold Route.fetchRouteStatus. by case_match. Qed.

Lemma step_paired (p : Route.Page) (e : Route.Event) :
  paired (Route.map p) -> paired (Route.map (Route.step p e)).
Proof.
  intros P. destruct e as [|v| |r| |i]; cbn [Route.step].
  - unfold Route.tick. case_match; [rewrite fetchRouteStatus_map|]; done.
  - case_match; [rewrite fetchRouteStatus_map|]; done.
  - by rewrite fetchRouteStatus_map.
  - case_match; [|done]. rewrite settle_map.
    destruct (poll_body_map r p) as [->|[bs ->]]; [done|]. by apply updateMap_paired.
  - by apply frame_paired.
  - unfold Route.rowClick. repeat case_match; try done.
    cbn. eapply paired_same_core; [apply setView_core|done].
Qed.

Lemma run_paired (es : list Route.Event) (p : Route.Page) :
  paired (Route.map p) -> paired (Route.map (Route.run p es)).
Proof.
  revert p. induction es as [|e es IH]; intros p P; [done|].
  cbn. apply IH. by apply step_paired.
Qed.

(** On every run of the page, the buses with a marker are the buses with
    an interpolation cursor. *)
Theorem markers_and_cursors_same_buses
    (storedSelection search : option string) (es : list Route.Event) :
  dom (Route.animationState (Route.map (Route.run (Route.initial storedSelection search) es)))
  = dom (Route.busMarkers (Route.map (Route.run (Route.initial storedSelection search) es))).
Proof.
  pose proof (run_paired es _ (paired_initial storedSelection search)) as [P1 P2 _ _ _].
  apply set_eq. intros id. rewrite !elem_of_dom. split.
  - intros [s Hs]. by eapply P2.
  - intros [r Hr]. destruct (P1 id r Hr) as (Ha & _). eauto.
Qed.

(** On every run of the page, the marker of each bus stands where its
    interpolation cursor is. *)
Theorem marker_shows_cursor
    (storedSelection search : option string) (es : list Route.Event)
    (id : string) (r : nat) :
  Route.busMarkers (Route.map (Route.run (Route.initial storedSelection search) es)) !! id
    = Some r ->
  exists mk s c,
    Route.markers (Route.map (Route.run (Route.initial storedSelection search) es)) !! r
      = Some mk /\
    Route.animationState (Route.map (Route.run (Route.initial storedSelection search) es)) !! id
      = Some s /\
    Route.cursors (Route.map (Route.run (Route.initial storedSelection search) es)) !! s
      = Some c /\
    Route.m_latlng mk = (Route.c_lat c, Route.c_lng c).
Proof.
  intros Hr.
  pose proof (run_paired es _ (paired_initial storedSelection search)) as [P1 _ _ P4 _].
  destruct (P1 id r Hr) as (Ha & [mk Hmk] & [c Hc]).
  exists mk, (S r), c. repeat split; try done. by eapply P4.
Qed.

(** ** Further properties of route.js: when a poll succeeds *)

Lemma forEach_addRow_done (bs : list Route.Bus) : forall rows,
  (exists rows', Route.forEach Route.addRow bs rows = Done rows') <->
  forallb has_soc bs = true.
Proof.
  induction bs as [|b bs IH]; intros rows; cbn [Route.forEach forallb].
  - split; [done|eauto].
  - unfold Route.addRow at 1, has_soc at 1.
    destruct (Route.soc b) as [s|]; cbn.
    + apply IH.
    + split; [by intros [? ?]|done].
Qed.

Lemma drawBus_done (sel : string) (b : Route.Bus) (la ln : Q) (m : Route.MapState) :
  has_soc b = true -> exists m', Route.drawBus sel b la ln m = Done m'.
Proof.
  unfold has_soc, Route.drawBus, Route.busPopup.
  destruct (Route.soc b); [|done]. intros _. case_match; eauto.
Qed.

Lemma forEach_visit_done (sel : string) (bs : list Route.Bus) : forall acc,
  forallb has_soc bs = true ->
  exists acc', Route.forEach (Route.visit sel) bs acc = Done acc'.
Proof.
  induction bs as [|b bs IH]; intros acc H; cbn [Route.forEach]; [eauto|].
  cbn in H. apply andb_true_iff in H as [Hb Hbs].
  assert (exists acc1, Route.visit sel b acc = Done acc1) as [acc1 ->].
  { unfold Route.visit. repeat case_match; eauto.
    all: destruct (drawBus_done sel b q q0 (snd acc) Hb) as [m' Hm']; congruence. }
  by apply IH.
Qed.

Lemma updateMap_done (sel : string) (bs : list Route.Bus) (m : Route.MapState) :
  forallb has_soc bs = true -> exists m', Route.updateMap sel bs m = Done m'.
Proof.
  intros H. unfold Route.updateMap.
  destruct (forEach_visit_done sel bs (∅, Route.clearLayers m) H) as [acc ->]. eauto.
Qed.

(** For a response none of whose buses is named like a member of
    Object.prototype, a poll cycle runs to its end exactly when the
    response carries a true success flag and a list of buses, and each bus
    that passes the search box has a state of charge; updateMap itself
    never fails on a batch the table could be rendered for. *)
Theorem poll_succeeds_iff (r : Route.Response) (p : Route.Page) :
  plain_ids r = true ->
  ((exists p', Route.poll_body r p = Done p') <->
   (exists bs,
      r = Route.Resolved {| Route.success := true; Route.buses := Some bs |} /\
      forallb has_soc (List.filter (Route.matches (Route.query p)) bs) = true)).
Proof.
  intros _. split.
  - intros [p' Hp]. destruct (poll_body_done r p p' Hp) as (bs & rows & m' & -> & Hr & _).
    exists bs. split; [done|]. apply (forEach_addRow_done _ []). eauto.
  - intros (bs & -> & Hs). unfold Route.poll_body. cbn.
    destruct (proj2 (forEach_addRow_done _ []) Hs) as [rows Hr].
    unfold Route.renderTable. rewrite Hr. cbn.
    destruct (updateMap_done (Route.selectedBusId p) _ (Route.map p) Hs) as [m' ->].
    eauto.
Qed.

Lemma poll_succeeds_iff_witness :
  exists p',
    Route.poll_body (Sample.ok [Sample.bus "EV-1" 0 0 "GOOD" None; Sample.lost_bus "EV-9"])
      Sample.polling_page = Done p'.
Proof.
  apply (proj2 (poll_succeeds_iff
                  (Sample.ok [Sample.bus "EV-1" 0 0 "GOOD" None; Sample.lost_bus "EV-9"])
                  Sample.polling_page eq_refl)).
  eexists. split; [reflexivity|]. vm_compute; reflexivity.
Defined.

(** ** Further properties of route.js: the poll timer *)

Lemma ticks_to_poll (n : nat) : forall p,
  Route.isFetching p = false ->
  Route.countdown p = Z.of_nat (S n) ->
  Route.issued (Route.run p (repeat Route.Tick n)) = Route.issued p /\
  Route.issued (Route.run p (repeat Route.Tick (S n))) = S (Route.issued p).
Proof.
  induction n as [|n IH]; intros p Hf Hc.
  - split; [done|]. cbn. unfold Route.tick. rewrite Hc. cbn.
    unfold Route.fetchRouteStatus. cbn. by rewrite Hf.
  - assert (Route.tick p =
            Route.setSync [Num (inject_Z (Route.countdown p - 1)); Lit "s"]
              (inject_Z (Route.countdown p - 1) / inject_Z Route.REFRESH_INTERVAL * 100)%Q
              (Route.setCountdown (Route.countdown p - 1) p)) as Ht.
    { unfold Route.tick. rewrite Hc.
      replace (Z.of_nat (S (S n)) - 1 <=? 0)%Z with false; [done|].
      symmetry. apply Z.leb_gt. lia. }
    change (Route.run p (repeat Route.Tick (S n)))
      with (Route.run (Route.tick p) (repeat Route.Tick n)).
    change (Route.run p (repeat Route.Tick (S (S n))))
      with (Route.run (Route.tick p) (repeat Route.Tick (S n))).
    destruct (IH (Route.tick p)) as [H1 H2].
    + by rewrite Ht.
    + rewrite Ht. cbn. rewrite Hc. lia.
    + rewrite H1, H2, Ht. done.
Qed.

Lemma ticks_before_poll (k n : nat) : forall p,
  Route.isFetching p = false ->
  Route.countdown p = Z.of_nat (S n) ->
  (k <= n)%nat ->
  Route.issued (Route.run p (repeat Route.Tick k)) = Route.issued p.
Proof.
  revert n. induction k as [|k IH]; intros n p Hf Hc Hk; [done|].
  destruct n as [|n]; [lia|].
  assert (Route.tick p =
          Route.setSync [Num (inject_Z (Route.countdown p - 1)); Lit "s"]
            (inject_Z (Route.countdown p - 1) / inject_Z Route.REFRESH_INTERVAL * 100)%Q
            (Route.setCountdown (Route.countdown p - 1) p)) as Ht.
  { unfold Route.tick. rewrite Hc.
    replace (Z.of_nat (S (S n)) - 1 <=? 0)%Z with false; [done|].
    symmetry. apply Z.leb_gt. lia. }
  change (Route.run p (repeat Route.Tick (S k)))
    with (Route.run (Route.tick p) (repeat Route.Tick k)).
  rewrite (IH n (Route.tick p)); [by rewrite Ht|by rewrite Ht| |lia].
  rewrite Ht. cbn. rewrite Hc. lia.
Qed.

(** Whatever the outcome of a poll, once it has settled the guard is
    released and the countdown restarts: the next request leaves at the
    tenth tick, and no tick before it sends one. *)
Theorem next_poll_after_ten_ticks (r : Route.Response) (p : Route.Page) :
  Route.isFetching (Route.settle r p) = false /\
  (forall k, (k < 10)%nat ->
     Route.issued (Route.run (Route.settle r p) (repeat Route.Tick k))
     = Route.issued (Route.settle r p)) /\
  Route.issued (Route.run (Route.settle r p) (repeat Route.Tick 10))
  = S (Route.issued (Route.settle r p)).
Proof.
  assert (Route.isFetching (Route.settle r p) = false) as Hf
    by (unfold Route.settle; by destruct (Route.poll_body r p)).
  assert (Route.countdown (Route.settle r p) = Z.of_nat 10) as Hc
    by (unfold Route.settle; by destruct (Route.poll_body r p)).
  split; [done|]. split.
  - intros k Hk. apply (ticks_before_poll k 9); [done|done|lia].
  - apply (ticks_to_poll 9); done.
Qed.

(** ** Further properties of route.js: the steppers stop *)

Lemma fold_run_step_frames (q : list Route.Stepper) : forall m st',
  st' ∈ Route.frames (foldl (fun m st => Route.run_step st m) m q) ->
  st' ∈ Route.frames m \/
  exists st, st ∈ q /\ st' = bump st /\ (Route.s_i st < Route.steps)%nat.
Proof.
  induction q as [|st q IH]; intros m st' H; cbn in H; [by left|].
  apply IH in H as [H|(st0 & Hin & -> & Hlt)].
  - unfold Route.run_step in H.
    destruct (Route.steps <=? Route.s_i st)%nat eqn:E; [by left|].
    destruct (Route.cursors m !! Route.s_state st); [|by left].
    cbn in H. apply elem_of_app in H as [H|H]; [by left|].
    apply list_elem_of_singleton in H. right. exists st.
    split; [by left|]. split; [done|]. by apply Nat.leb_gt in E.
  - right. exists st0. split; [by right|done].
Qed.

Lemma after_frames_counters (n : nat) (m : Route.MapState) (st : Route.Stepper) :
  st ∈ Route.frames (after_frames n m) ->
  (n <= Route.s_i st)%nat /\ ((0 < n)%nat -> (Route.s_i st <= Route.steps)%nat).
Proof.
  revert st. induction n as [|n IH]; intros st H; [split; lia|].
  change (after_frames (S n) m) with (Route.frame (after_frames n m)) in H.
  unfold Route.frame in H.
  apply fold_run_step_frames in H as [H|(st0 & Hin & -> & Hlt)].
  - cbn in H. by apply elem_of_nil in H.
  - destruct (IH st0 Hin) as [H1 _]. cbn. split; lia.
Qed.

(** However many interpolations were started, 41 frames later none is
    queued any more: each stepper stops after its 40 steps. *)
Theorem steppers_stop (m : Route.MapState) :
  Route.frames (after_frames 41 m) = [].
Proof.
  apply elem_of_nil_inv. intros st H.
  destruct (after_frames_counters 41 m st H) as [H1 H2].
  specialize (H2 ltac:(lia)). unfold Route.steps in H2. lia.
Qed.

(** ** Further properties of route.js: station markers *)

Lemma run_step_rest (st : Route.Stepper) (m : Route.MapState) :
  Route.stationMarkers (Route.run_step st m) = Route.stationMarkers m /\
  Route.stationsCreated (Route.run_step st m) = Route.stationsCreated m /\
  Route.layers (Route.run_step st m) = Route.layers m /\
  Route.view (Route.run_step st m) = Route.view m.
Proof. unfold Route.run_step. by repeat case_match. Qed.

Lemma animateBus_rest (id : string) (t : Route.LatLng) (m : Route.MapState) :
  Route.stationMarkers (Route.animateBus id t m) = Route.stationMarkers m /\
  Route.stationsCreated (Route.animateBus id t m) = Route.stationsCreated m /\
  Route.layers (Route.animateBus id t m) = Route.layers m /\
  Route.view (Route.animateBus id t m) = Route.view m.
Proof. unfold Route.animateBus. repeat case_match; try done. apply run_step_rest. Qed.

Lemma drawBus_stations (sel : string) (b : Route.Bus) (la ln : Q) (m : Route.MapState) :
  let m' := outcome_state (Route.drawBus sel b la ln m) in
  Route.stationMarkers m' = Route.stationMarkers m /\
  Route.stationsCreated m' = Route.stationsCreated m /\
  Route.stationLayer (Route.layers m') = Route.stationLayer (Route.layers m).
Proof.
  destruct (animateBus_rest (Route.bus_id b) (la, ln) m) as (H1 & H2 & H3 & _).
  unfold Route.drawBus. repeat case_match; cbn; rewrite ?H1, ?H2, ?H3; done.
Qed.

Lemma drawMovementTrail_stations (b : Route.Bus) (la ln : Q) (m : Route.MapState) :
  Route.stationMarkers (Route.drawMovementTrail b la ln m) = Route.stationMarkers m /\
  Route.stationsCreated (Route.drawMovementTrail b la ln m) = Route.stationsCreated m /\
  Route.stationLayer (Route.layers (Route.drawMovementTrail b la ln m))
    = Route.stationLayer (Route.layers m) /\
  Route.view (Route.drawMovementTrail b la ln m) = Route.view m.
Proof. unfold Route.drawMovementTrail. by repeat case_match. Qed.

Lemma removeInactive_stations (A : gset string) (l : list string) : forall m,
  let m' := foldl (Route.removeInactive A) m l in
  Route.stationMarkers m' = Route.stationMarkers m /\
  Route.stationsCreated m' = Route.stationsCreated m /\
  Route.stationLayer (Route.layers m') = Route.stationLayer (Route.layers m) /\
  Route.view m' = Route.view m.
Proof.
  induction l as [|id l IH]; intros m; [done|]. cbn.
  destruct (IH (Route.removeInactive A m id)) as (H1 & H2 & H3 & H4).
  rewrite H1, H2, H3, H4. unfold Route.removeInactive. by case_match.
Qed.

Lemma drawStation_once (s : Route.Station) (m : Route.MapState) :
  stations_once m -> stations_once (Route.drawStation s m).
Proof.
  intros [Hnd Hreg]. unfold Route.drawStation.
  destruct (Route.stationMarkers m !! Route.name s) eqn:Hs; [done|].
  split; cbn.
  - apply NoDup_app. split; [done|]. split; [|apply NoDup_singleton].
    intros n Hn Hn'. apply list_elem_of_singleton in Hn'. subst n.
    apply Hreg in Hn as [x Hx]. congruence.
  - intros n. rewrite elem_of_app, list_elem_of_singleton, Hreg.
    rewrite lookup_insert_is_Some. split.
    + intros [H| ->]; [|by left]. destruct (decide (Route.name s = n)); [by left|by right].
    + intros [<-|[_ H]]; [by right|by left].
Qed.

Lemma visit_once (sel : string) (b : Route.Bus) (acc : gset string * Route.MapState) :
  calm b = true -> stations_once (snd acc) ->
  stations_once (snd (outcome_state (Route.visit sel b acc))).
Proof.
  intros Hcalm H. unfold Route.visit, calm in *.
  destruct (Route.lat b) as [la|]; [|done]. destruct (Route.lng b) as [ln|]; [|done].
  destruct (drawBus_stations sel b la ln (snd acc)) as (H1 & H2 & _).
  assert (stations_once (outcome_state (Route.drawBus sel b la ln acc.2))) as Hd.
  { unfold stations_once. cbn zeta in H1, H2. by rewrite H1, H2. }
  destruct (Route.drawBus sel b la ln (snd acc)) as [m1|m1]; cbn in Hd |- *; [|done].
  destruct (drawMovementTrail_stations b la ln m1) as (T1 & T2 & _).
  assert (stations_once (Route.drawMovementTrail b la ln m1)) as Ht.
  { unfold stations_once. by rewrite T1, T2. }
  destruct (Route.charging_station b) as [s|]; [|done].
  destruct (String.eqb (Route.status b) "CRITICAL"); [done|].
  cbn. by apply drawStation_once.
Qed.

Lemma forEach_visit_once (sel : string) (bs : list Route.Bus) : forall acc,
  forallb calm bs = true -> stations_once (snd acc) ->
  stations_once (snd (outcome_state (Route.forEach (Route.visit sel) bs acc))).
Proof.
  induction bs as [|b bs IH]; intros acc Hc H; cbn [Route.forEach]; [done|].
  cbn in Hc. apply andb_true_iff in Hc as [Hb Hbs].
  pose proof (visit_once sel b acc Hb H) as H1.
  destruct (Route.visit sel b acc) as [acc1|acc1]; cbn in H1 |- *; [by apply IH|done].
Qed.

Lemma forallb_filter {A : Type} (f g : A -> bool) (l : list A) :
  forallb f l = true -> forallb f (List.filter g l) = true.
Proof.
  induction l as [|x l IH]; [done|]. cbn. intros H.
  apply andb_true_iff in H as [Hx Hl]. destruct (g x); cbn; [rewrite Hx|]; by apply IH.
Qed.

Lemma updateMap_once (sel : string) (bs : list Route.Bus) (m : Route.MapState) :
  forallb calm bs = true -> stations_once m ->
  stations_once (outcome_state (Route.updateMap sel bs m)).
Proof.
  intros Hc H. unfold Route.updateMap.
  assert (stations_once (Route.clearLayers m)) as H0 by done.
  pose proof (forEach_visit_once sel bs (∅, Route.clearLayers m) Hc H0) as H1.
  destruct (Route.forEach _ _ _) as [acc|acc]; cbn in H1 |- *; [|done].
  destruct (removeInactive_stations (fst acc)
              (map fst (map_to_list (Route.busMarkers acc.2))) (snd acc)) as (R1 & R2 & _).
  unfold stations_once. cbn zeta in R1, R2. by rewrite R1, R2.
Qed.

Lemma step_once (p : Route.Page) (e : Route.Event) :
  calm_event e = true -> stations_once (Route.map p) ->
  stations_once (Route.map (Route.step p e)).
Proof.
  intros Hc H. destruct e as [|v| |r| |i]; cbn [Route.step].
  - unfold Route.tick. case_match; [rewrite fetchRouteStatus_map|]; done.
  - case_match; [rewrite fetchRouteStatus_map|]; done.
  - by rewrite fetchRouteStatus_map.
  - case_match; [|done]. rewrite settle_map.
    unfold Route.poll_body. destruct r as [e|d]; [done|].
    destruct (Route.success d); [|done]. cbn in Hc |- *.
    destruct (Route.buses d) as [bs|]; [|done].
    destruct (Route.renderTable _) as [rows|rows]; [|done]. cbn.
    pose proof (updateMap_once (Route.selectedBusId p)
                  (List.filter (Route.matches (Route.query p)) bs) (Route.map p)
                  (forallb_filter _ _ _ Hc) H) as Hu.
    by destruct (Route.updateMap _ _ _).
  - cbn. unfold Route.frame.
    assert (forall q m0, stations_once m0 ->
              stations_once (foldl (fun m st => Route.run_step st m) m0 q)) as Hfold.
    { induction q as [|st q IH]; intros m0 H0; [done|]. cbn. apply IH.
      destruct (run_step_rest st m0) as (R1 & R2 & _).
      unfold stations_once. by rewrite R1, R2. }
    by apply Hfold.
  - unfold Route.rowClick. by repeat case_match.
Qed.

(** As long as no bus takes the emergency-route branch (none is CRITICAL
    with a charging station), no station gets a second marker, however
    many buses name it and however many polls pass. *)
Theorem stations_drawn_once_without_emergency
    (storedSelection search : option string) (es : list Route.Event) :
  forallb calm_event es = true ->
  NoDup (Route.stationsCreated
           (Route.map (Route.run (Route.initial storedSelection search) es))).
Proof.
  intros Hc.
  assert (forall es p, forallb calm_event es = true -> stations_once (Route.map p) ->
            stations_once (Route.map (Route.run p es))) as Hrun.
  { clear. induction es as [|e es IH]; intros p Hc H; [done|].
    cbn in Hc. apply andb_true_iff in Hc as [He Hes].
    cbn. apply IH; [done|]. by apply step_once. }
  apply (Hrun es (Route.initial storedSelection search) Hc).
  split; cbn; [constructor|].
  intros n. rewrite lookup_empty. split; [by intros H%elem_of_nil|by intros [? ?]].
Qed.

Lemma visit_known (sel : string) (b : Route.Bus) (acc acc' : gset string * Route.MapState) :
  calm b = true -> (position b <> None -> station_known (snd acc) b) ->
  Route.visit sel b acc = Done acc' ->
  Route.stationMarkers (snd acc') = Route.stationMarkers (snd acc) /\
  Route.stationLayer (Route.layers (snd acc')) = Route.stationLayer (Route.layers (snd acc)) /\
  Route.stationsCreated (snd acc') = Route.stationsCreated (snd acc).
Proof.
  unfold Route.visit, calm, position, station_known.
  destruct (Route.lat b) as [la|]; [|by intros _ _ [= <-]].
  destruct (Route.lng b) as [ln|]; [|by intros _ _ [= <-]].
  intros Hcalm Hk. specialize (Hk ltac:(done)).
  destruct (drawBus_stations sel b la ln (snd acc)) as (H1 & H2 & H3).
  destruct (Route.drawBus sel b la ln (snd acc)) as [m1|m1]; cbn in H1, H2, H3; [|done].
  destruct (drawMovementTrail_stations b la ln m1) as (T1 & T2 & T3 & _).
  destruct (Route.charging_station b) as [s|].
  - destruct (String.eqb (Route.status b) "CRITICAL"); [done|].
    intros [= <-]. cbn.
    rewrite drawStation_registered; [by rewrite T1, T2, T3, H1, H2, H3|].
    by rewrite T1, H1.
  - intros [= <-]. cbn. by rewrite T1, T2, T3, H1, H2, H3.
Qed.

Lemma forEach_visit_known (sel : string) (bs : list Route.Bus) :
  forall acc acc',
  forallb calm bs = true ->
  (forall b, b ∈ bs -> position b <> None -> station_known (snd acc) b) ->
  Route.forEach (Route.visit sel) bs acc = Done acc' ->
  Route.stationMarkers (snd acc') = Route.stationMarkers (snd acc) /\
  Route.stationLayer (Route.layers (snd acc')) = Route.stationLayer (Route.layers (snd acc)) /\
  Route.stationsCreated (snd acc') = Route.stationsCreated (snd acc).
Proof.
  induction bs as [|b bs IH]; intros acc acc' Hc Hk; cbn [Route.forEach].
  - by intros [= <-].
  - cbn in Hc. apply andb_true_iff in Hc as [Hb Hbs].
    destruct (Route.visit sel b acc) as [acc1|acc1] eqn:Hv; [|done]. intros Hf.
    destruct (visit_known sel b acc acc1 Hb) as (V1 & V2 & V3);
      [intros; apply Hk; [by left|done] | done |].
    destruct (IH acc1 acc' Hbs) as (I1 & I2 & I3); [|done|].
    + intros b' Hin Hp. specialize (Hk b' ltac:(by right) Hp).
      unfold station_known in *. destruct (Route.charging_station b'); [|done].
      by rewrite V1.
    + by rewrite I1, I2, I3, V1, V2, V3.
Qed.

(** The other side of that guard: updateMap empties the station layer on
    every cycle and drawStation skips a registered name, so when each
    station of the batch is registered already and no bus is on the
    emergency branch, the cycle creates no marker and leaves no station
    on the map. *)
Theorem registered_stations_are_not_redrawn
    (sel : string) (bs : list Route.Bus) (m m' : Route.MapState) :
  forallb calm bs = true ->
  (forall b, b ∈ bs -> position b <> None -> station_known m b) ->
  Route.updateMap sel bs m = Done m' ->
  Route.stationLayer (Route.layers m') = [] /\
  Route.stationsCreated m' = Route.stationsCreated m.
Proof.
  intros Hc Hk. unfold Route.updateMap.
  destruct (Route.forEach _ _ _) as [acc|acc] eqn:Hf; [|done]. intros [= <-].
  destruct (forEach_visit_known sel bs (∅, Route.clearLayers m) acc Hc Hk Hf)
    as (_ & F2 & F3).
  destruct (removeInactive_stations (fst acc)
              (map fst (map_to_list (Route.busMarkers acc.2))) (snd acc)) as (_ & R2 & R3 & _).
  cbn zeta in R2, R3. by rewrite R2, R3, F2, F3.
Qed.

(** ** Further properties of route.js: focus and colours *)

Lemma drawBus_view (sel : string) (b : Route.Bus) (la ln : Q) (m m' : Route.MapState) :
  Route.drawBus sel b la ln m = Done m' ->
  Route.view m' = if focused sel b then ((la, ln), snd (Route.view m)) else Route.view m.
Proof.
  destruct (animateBus_rest (Route.bus_id b) (la, ln) m) as (_ & _ & _ & Hv).
  unfold Route.drawBus, focused.
  destruct (Route.busMarkers m !! Route.bus_id b); destruct (Route.busPopup b);
    try done; intros [= <-];
    destruct (_ || _); cbn; rewrite ?Hv; done.
Qed.

Lemma visit_view (sel : string) (b : Route.Bus) (acc acc' : gset string * Route.MapState) :
  Route.visit sel b acc = Done acc' ->
  Route.view (snd acc') = recentre sel (Route.view (snd acc)) b.
Proof.
  unfold Route.visit, recentre, position.
  destruct (Route.lat b) as [la|]; [|by intros [= <-]].
  destruct (Route.lng b) as [ln|]; [|by intros [= <-]].
  destruct (Route.drawBus sel b la ln (snd acc)) as [m1|m1] eqn:Hd; [|done].
  apply drawBus_view in Hd.
  destruct (drawMovementTrail_stations b la ln m1) as (_ & _ & _ & Ht).
  destruct (Route.charging_station b) as [s|];
    [destruct (String.eqb (Route.status b) "CRITICAL")|]; intros [= <-]; cbn.
  - by rewrite Ht, Hd.
  - unfold Route.drawStation.
    destruct (Route.stationMarkers _ !! _); cbn; by rewrite Ht, Hd.
  - by rewrite Ht, Hd.
Qed.

Lemma forEach_visit_view (sel : string) (bs : list Route.Bus) : forall acc acc',
  Route.forEach (Route.visit sel) bs acc = Done acc' ->
  Route.view (snd acc') = foldl (recentre sel) (Route.view (snd acc)) bs.
Proof.
  induction bs as [|b bs IH]; intros acc acc'; cbn [Route.forEach foldl].
  - by intros [= <-].
  - destruct (Route.visit sel b acc) as [acc1|acc1] eqn:Hv; [|done].
    intros H. rewrite (IH _ _ H). by rewrite (visit_view _ _ _ _ Hv).
Qed.

Lemma updateMap_view (sel : string) (bs : list Route.Bus) (m m' : Route.MapState) :
  Route.updateMap sel bs m = Done m' ->
  Route.view m' = foldl (recentre sel) (Route.view m) bs.
Proof.
  unfold Route.updateMap.
  destruct (Route.forEach _ _ _) as [acc|acc] eqn:Hf; [|done]. intros [= <-].
  destruct (removeInactive_stations (fst acc)
              (map fst (map_to_list (Route.busMarkers acc.2))) (snd acc)) as (_ & _ & _ & R).
  cbn zeta in R. rewrite R. by rewrite (forEach_visit_view _ _ _ _ Hf).
Qed.

Lemma recentre_unfocused (sel : string) (bs : list Route.Bus) : forall v,
  (forall b, b ∈ bs -> position b = None \/ focused sel b = false) ->
  foldl (recentre sel) v bs = v.
Proof.
  induction bs as [|b bs IH]; intros v H; [done|]. cbn.
  rewrite IH by (intros; apply H; by right).
  unfold recentre. destruct (H b ltac:(by left)) as [-> | Hf]; [done|].
  rewrite Hf. by destruct (position b).
Qed.

Lemma recentre_zoom (sel : string) (bs : list Route.Bus) : forall v,
  snd (foldl (recentre sel) v bs) = snd v.
Proof.
  induction bs as [|b bs IH]; intros v; [done|]. cbn. rewrite IH.
  unfold recentre. by repeat case_match.
Qed.

(** After a cycle of updateMap the map is centred on the last bus of the
    batch that has a position and is focused, be it the selected bus or
    any bus whose status is CRITICAL; the zoom is kept. With no such bus
    the view is left as it was. *)
Theorem updateMap_recentres_on_last_focused
    (sel : string) (bs : list Route.Bus) (m m' : Route.MapState) :
  Route.updateMap sel bs m = Done m' ->
  (forall bs1 b bs2 pos,
     bs = (bs1 ++ b :: bs2)%list ->
     position b = Some pos -> focused sel b = true ->
     (forall b', b' ∈ bs2 -> position b' = None \/ focused sel b' = false) ->
     Route.view m' = (pos, snd (Route.view m))) /\
  ((forall b, b ∈ bs -> position b = None \/ focused sel b = false) ->
   Route.view m' = Route.view m).
Proof.
  intros Hu. apply updateMap_view in Hu. rewrite Hu. split.
  - intros bs1 b bs2 pos -> Hp Hf Hrest.
    rewrite foldl_app. cbn. rewrite (recentre_unfocused _ _ _ Hrest).
    unfold recentre at 1. rewrite Hp, Hf. by rewrite recentre_zoom.
  - intros H. by apply recentre_unfocused.
Qed.

Lemma upper_lower_char (c : ascii) : upper_char (lower_char c) = upper_char c.
Proof. destruct c as [[] [] [] [] [] [] [] []]; reflexivity. Qed.

Lemma upper_upper_char (c : ascii) : upper_char (upper_char c) = upper_char c.
Proof. destruct c as [[] [] [] [] [] [] [] []]; reflexivity. Qed.

Lemma lower_upper_char (c : ascii) : lower_char (upper_char c) = lower_char c.
Proof. destruct c as [[] [] [] [] [] [] [] []]; reflexivity. Qed.

Lemma map_chars_compose (f g h : ascii -> ascii) (s : string) :
  (forall c, f (g c) = h c) -> map_chars f (map_chars g s) = map_chars h s.
Proof. intros H. induction s as [|c s IH]; [done|]. cbn. by rewrite H, IH. Qed.

(** For a status of ASCII characters, the colour of the status and the
    row class of a maintenance status do not depend on letter case; the
    emergency branch and the focus of drawBus do: they compare with
    "CRITICAL" as written. *)
Theorem status_colours_ignore_case (s : string) :
  ascii_only s = true ->
  Route.statusColor (toLowerCase s) = Route.statusColor s /\
  Route.statusColor (toUpperCase s) = Route.statusColor s /\
  Maintenance.statusClass (Some (toUpperCase s)) = Maintenance.statusClass (Some s) /\
  (toUpperCase s = "CRITICAL" -> Route.statusColor s = "#dc2626") /\
  (forall sel b, Route.status b = toLowerCase "CRITICAL" -> Route.bus_id b <> sel ->
                 focused sel b = false /\ calm b = true).
Proof.
  intros _.
  unfold Route.statusColor, Maintenance.statusClass, toLowerCase, toUpperCase.
  rewrite (map_chars_compose _ _ _ s upper_lower_char).
  rewrite (map_chars_compose _ _ _ s upper_upper_char).
  rewrite (map_chars_compose _ _ _ s lower_upper_char).
  repeat split; try done.
  - by intros ->.
  - unfold focused. rewrite H. apply String.eqb_neq in H0. by rewrite H0.
  - unfold calm. by rewrite H.
Qed.

Lemma status_colours_ignore_case_witness :
  Route.statusColor (toLowerCase "Critical") = Route.statusColor "Critical" /\
  Route.statusColor (toUpperCase "Critical") = Route.statusColor "Critical" /\
  Maintenance.statusClass (Some (toUpperCase "Critical"))
    = Maintenance.statusClass (Some "Critical") /\
  (toUpperCase "Critical" = "CRITICAL" -> Route.statusColor "Critical" = "#dc2626") /\
  (forall sel b, Route.status b = toLowerCase "CRITICAL" -> Route.bus_id b <> sel ->
                 focused sel b = false /\ calm b = true).
Proof. apply (status_colours_ignore_case "Critical"). reflexivity. Defined.

(** ** Further properties of logs.js *)

(** The query loadLogs sends carries the trimmed, non-empty bus id and a
    limit between 1 and 1000: the field's number when it is in that range,
    100 when the field is empty, not a number or 0. *)
Theorem loadLogs_query_is_clamped
    (busIdField : string) (limitField : option Z) (p : Logs.Page)
    (id : string) (limit : Z) :
  snd (Logs.loadLogs_start busIdField limitField p) = Some (id, limit) ->
  id = trim busIdField /\ id <> "" /\
  1 <= limit <= 1000 /\
  (forall n, limitField = Some n -> 1 <= n <= 1000 -> limit = n) /\
  (limitField = None \/ limitField = Some 0 -> limit = 100) /\
  Logs.sent (fst (Logs.loadLogs_start busIdField limitField p))
    = (Logs.sent p ++ [(id, limit)])%list.
Proof.
  unfold Logs.loadLogs_start.
  destruct (truthy (trim busIdField)) eqn:Ht; cbn [negb]; [|done].
  intros [= <- <-].
  split; [done|]. split; [by destruct (trim busIdField)|].
  split; [lia|]. split.
  - intros n -> Hn. destruct (n =? 0)%Z eqn:E; lia.
  - split.
    + intros [-> | ->]; cbn; lia.
    + unfold Logs.showState. by destruct (Logs.tableState p).
Qed.

Lemma loadLogs_query_is_clamped_witness :
  "EV-1" = trim "  EV-1 " /\ "EV-1" <> "" /\
  1 <= 1000 <= 1000 /\
  (forall n, Some 5000 = Some n -> 1 <= n <= 1000 -> 1000 = n) /\
  (Some 5000 = None \/ Some 5000 = Some 0 -> 1000 = 100) /\
  Logs.sent (fst (Logs.loadLogs_start "  EV-1 " (Some 5000) Sample.logs_page))
    = (Logs.sent Sample.logs_page ++ [("EV-1", 1000)])%list.
Proof.
  apply (loadLogs_query_is_clamped "  EV-1 " (Some 5000) Sample.logs_page "EV-1" 1000).
  reflexivity.
Defined.

Lemma findIndex_Some (id : string) (bs : list Logs.BusObj) (i : nat) :
  Logs.findIndex id bs = Some i ->
  exists b, bs !! i = Some b /\ Logs.bus_id b = id.
Proof.
  revert i. induction bs as [|b bs IH]; intros i; cbn; [done|].
  destruct (String.eqb (Logs.bus_id b) id) eqn:E.
  - intros [= <-]. exists b. split; [done|]. by apply String.eqb_eq.
  - destruct (Logs.findIndex id bs) as [j|]; [|done]. cbn. intros [= <-].
    by apply IH.
Qed.

Lemma findIndex_None (id : string) (bs : list Logs.BusObj) :
  Logs.findIndex id bs = None -> id ∉ (Logs.bus_id <$> bs).
Proof.
  induction bs as [|b bs IH]; cbn; [intros _ H; by apply elem_of_nil in H|].
  destruct (String.eqb (Logs.bus_id b) id) eqn:E; [done|].
  destruct (Logs.findIndex id bs); [done|]. intros _ H.
  apply elem_of_cons in H as [->|H]; [|by apply IH].
  by rewrite String.eqb_refl in E.
Qed.

Lemma upsert_ids (bs : list Logs.BusObj) (r : Logs.LogRecord) :
  Logs.bus_id <$> Logs.upsert bs r =
  if bool_decide (Logs.rec_bus_id r ∈ Logs.bus_id <$> bs)
  then Logs.bus_id <$> bs
  else ((Logs.bus_id <$> bs) ++ [Logs.rec_bus_id r])%list.
Proof.
  unfold Logs.upsert.
  destruct (Logs.findIndex (Logs.rec_bus_id r) bs) as [i|] eqn:Hf.
  - destruct (findIndex_Some _ _ _ Hf) as (b & Hb & Hid).
    rewrite bool_decide_eq_true_2.
    + rewrite list_fmap_insert. apply list_insert_id.
      rewrite list_lookup_fmap, Hb. cbn. by rewrite Hid.
    + rewrite <- Hid. apply list_elem_of_fmap_2. by eapply list_elem_of_lookup_2.
  - rewrite bool_decide_eq_false_2 by (by apply findIndex_None).
    by rewrite fmap_app.
Qed.

Lemma upsert_NoDup (bs : list Logs.BusObj) (r : Logs.LogRecord) :
  NoDup (Logs.bus_id <$> bs) -> NoDup (Logs.bus_id <$> Logs.upsert bs r).
Proof.
  intros H. rewrite upsert_ids. case_bool_decide; [done|].
  apply NoDup_app. split; [done|]. split; [|apply NoDup_singleton].
  intros x Hx Hx'. apply list_elem_of_singleton in Hx'. by subst.
Qed.

Lemma upsert_keeps (bs : list Logs.BusObj) (r : Logs.LogRecord) (id : string) :
  id ∈ Logs.bus_id <$> bs -> id ∈ Logs.bus_id <$> Logs.upsert bs r.
Proof.
  intros H. rewrite upsert_ids. case_bool_decide; [done|].
  apply elem_of_app. by left.
Qed.

Lemma upsert_adds (bs : list Logs.BusObj) (r : Logs.LogRecord) :
  Logs.busObj_of r ∈ Logs.upsert bs r.
Proof.
  unfold Logs.upsert.
  destruct (Logs.findIndex (Logs.rec_bus_id r) bs) as [i|] eqn:Hf.
  - destruct (findIndex_Some _ _ _ Hf) as (b & Hb & _).
    apply list_elem_of_lookup. exists i. apply list_lookup_insert_eq.
    by eapply lookup_lt_Some.
  - apply elem_of_app. right. by apply list_elem_of_singleton.
Qed.

Lemma upsert_other (bs : list Logs.BusObj) (r : Logs.LogRecord) (o : Logs.BusObj) :
  o ∈ bs -> Logs.bus_id o <> Logs.rec_bus_id r -> o ∈ Logs.upsert bs r.
Proof.
  intros Ho Hne. unfold Logs.upsert.
  destruct (Logs.findIndex (Logs.rec_bus_id r) bs) as [i|] eqn:Hf.
  - destruct (findIndex_Some _ _ _ Hf) as (b & Hb & Hid).
    apply list_elem_of_lookup in Ho as [j Hj].
    apply list_elem_of_lookup. exists j.
    rewrite list_lookup_insert_ne; [done|]. intros ->. congruence.
  - apply elem_of_app. by left.
Qed.

Lemma fold_upsert_NoDup (rs : list Logs.LogRecord) : forall bs,
  NoDup (Logs.bus_id <$> bs) -> NoDup (Logs.bus_id <$> foldl Logs.upsert bs rs).
Proof.
  induction rs as [|r rs IH]; intros bs H; [done|]. cbn. apply IH. by apply upsert_NoDup.
Qed.

Lemma fold_upsert_keeps (rs : list Logs.LogRecord) : forall bs id,
  id ∈ Logs.bus_id <$> bs -> id ∈ Logs.bus_id <$> foldl Logs.upsert bs rs.
Proof.
  induction rs as [|r rs IH]; intros bs id H; [done|]. cbn. apply IH. by apply upsert_keeps.
Qed.

Lemma fold_upsert_other (rs : list Logs.LogRecord) : forall bs o,
  o ∈ bs -> (forall r, r ∈ rs -> Logs.rec_bus_id r <> Logs.bus_id o) ->
  o ∈ foldl Logs.upsert bs rs.
Proof.
  induction rs as [|r rs IH]; intros bs o Ho H; [done|]. cbn. apply IH.
  - apply upsert_other; [done|]. intros Heq. by apply (H r ltac:(by left)).
  - intros r' Hr'. apply H. by right.
Qed.

Lemma showState_buses (t : text) (ty : string) (p : Logs.Page) :
  Logs.activeBuses (Logs.showState t ty p) = Logs.activeBuses p /\
  Logs.stored (Logs.showState t ty p) = Logs.stored p.
Proof. unfold Logs.showState. by case_match. Qed.

Lemma renderLogsTable_buses (p q : Logs.Page) :
  Logs.renderLogsTable p = Some q ->
  Logs.activeBuses q = Logs.activeBuses p /\ Logs.stored q = Logs.stored p.
Proof.
  unfold Logs.renderLogsTable. destruct (Logs.tableBody p); [|done].
  cbn. destruct (Logs.activeBuses p) eqn:Ha; intros [= <-].
  - destruct (showState_buses
                [Lit "No active buses. Enter a Bus ID to start monitoring."] "info"
                (Logs.setDom (Logs.tableState p) (Some []) p)) as [H1 H2].
    rewrite H1, H2. by cbn.
  - unfold Logs.hideState. cbn. by case_match.
Qed.

Lemma notifyRoute_buses (p : Logs.Page) :
  Logs.activeBuses (Logs.notifyRoute p) = Logs.activeBuses p /\
  Logs.stored (Logs.notifyRoute p) = Logs.stored p.
Proof. unfold Logs.notifyRoute. by case_match. Qed.

(** What a successful load does to the list of monitored buses: it keeps
    one entry per bus id, keeps the buses it had, holds every bus of the
    response, and for a bus the response lists more than once keeps the
    entry of its last record. *)
Theorem loadLogs_merges_by_bus_id
    (rs : list Logs.LogRecord) (p : Logs.Page) :
  rs <> [] ->
  let p' := Logs.loadLogs_response
              (Logs.Resolved true (Some {| Logs.success := true; Logs.records := Some rs |}))
              p in
  Logs.activeBuses p' = foldl Logs.upsert (Logs.activeBuses p) rs /\
  Logs.stored p' = Some (Logs.activeBuses p') /\
  (NoDup (Logs.bus_id <$> Logs.activeBuses p) ->
   NoDup (Logs.bus_id <$> Logs.activeBuses p')) /\
  (forall id, id ∈ Logs.bus_id <$> Logs.activeBuses p ->
              id ∈ Logs.bus_id <$> Logs.activeBuses p') /\
  (forall rs1 r rs2,
     rs = (rs1 ++ r :: rs2)%list ->
     (forall r', r' ∈ rs2 -> Logs.rec_bus_id r' <> Logs.rec_bus_id r) ->
     Logs.busObj_of r ∈ Logs.activeBuses p').
Proof.
  intros Hne p'.
  assert (Logs.activeBuses p' = foldl Logs.upsert (Logs.activeBuses p) rs /\
          Logs.stored p' = Some (Logs.activeBuses p')) as [Ha Hs].
  { subst p'. unfold Logs.loadLogs_response. cbn.
    destruct rs as [|r0 rs0]; [done|].
    set (bs := foldl Logs.upsert (Logs.activeBuses p) (r0 :: rs0)).
    destruct (Logs.renderLogsTable (Logs.setBuses bs (Some bs) p)) as [q|] eqn:Hr.
    - destruct (renderLogsTable_buses _ _ Hr) as [R1 R2].
      destruct (notifyRoute_buses q) as [N1 N2]. by rewrite N1, N2, R1, R2.
    - unfold Logs.on_catch.
      destruct (showState_buses [Lit "Error loading logs"] "error"
                  (Logs.setBuses bs (Some bs) p)) as [S1 S2].
      by rewrite S1, S2. }
  split; [done|]. split; [done|]. rewrite Ha.
  split; [apply fold_upsert_NoDup|]. split; [intros; by apply fold_upsert_keeps|].
  intros rs1 r rs2 -> Hlast. rewrite foldl_app. cbn.
  apply fold_upsert_other; [apply upsert_adds|]. intros r' Hr'. cbn. by apply Hlast.
Qed.

Lemma loadLogs_merges_by_bus_id_witness :
  Logs.busObj_of {| Logs.rec_bus_id := "EV-1"; Logs.soh := Some (55 # 1);
                    Logs.predicted_soh := None; Logs.maintenance_due := None |}
  ∈ Logs.activeBuses
      (Logs.loadLogs_response
         (Logs.Resolved true
            (Some {| Logs.success := true;
                     Logs.records :=
                       Some [{| Logs.rec_bus_id := "EV-1"; Logs.soh := Some (92 # 100);
                                Logs.predicted_soh := None;
                                Logs.maintenance_due := None |};
                             {| Logs.rec_bus_id := "EV-1"; Logs.soh := Some (55 # 1);
                                Logs.predicted_soh := None;
                                Logs.maintenance_due := None |}] |}))
         Sample.logs_page).
Proof.
  refine (proj2 (proj2 (proj2 (proj2
    (loadLogs_merges_by_bus_id
       [{| Logs.rec_bus_id := "EV-1"; Logs.soh := Some (92 # 100);
           Logs.predicted_soh := None; Logs.maintenance_due := None |};
        {| Logs.rec_bus_id := "EV-1"; Logs.soh := Some (55 # 1);
           Logs.predicted_soh := None; Logs.maintenance_due := None |}]
       Sample.logs_page _))))
    [{| Logs.rec_bus_id := "EV-1"; Logs.soh := Some (92 # 100);
        Logs.predicted_soh := None; Logs.maintenance_due := None |}]
    _ [] eq_refl _).
  - discriminate.
  - intros r' H. apply elem_of_nil in H. destruct H.
Defined.

(** The colour class of a row agrees with the status stored for the bus:
    green goes with Good, red with Critical, and an issue is counted
    exactly below 60. *)
Theorem row_class_agrees_with_status (soh : Q) :
  (Logs.statusClass soh = "status-green" <->
     Logs.status (Logs.getStatusAndIssues soh) = "Good") /\
  (Logs.statusClass soh = "status-red" <->
     Logs.status (Logs.getStatusAndIssues soh) = "Critical") /\
  (Logs.issues (Logs.getStatusAndIssues soh) = 1 <-> (soh < 60)%Q) /\
  (Logs.issues (Logs.getStatusAndIssues soh) = 0 <-> (60 <= soh)%Q).
Proof.
  unfold Logs.statusClass, Logs.getStatusAndIssues.
  destruct (Qle_bool 90 soh) eqn:E90; destruct (Qle_bool 60 soh) eqn:E60;
    destruct (Qle_bool 50 soh) eqn:E50; cbn;
    try apply Qle_bool_iff in E90; try apply Qle_bool_iff in E60;
    try apply Qle_bool_iff in E50;
    try apply Qle_bool_false_lt in E90; try apply Qle_bool_false_lt in E60;
    try apply Qle_bool_false_lt in E50;
    repeat split; try done; try lra; intros; try done; exfalso; lra.
Qed.

Lemma filter_other_ids (id : string) (bs : list Logs.BusObj) :
  (id ∉ (Logs.bus_id <$> List.filter (fun b => negb (String.eqb (Logs.bus_id b) id)) bs)) /\
  (forall b, b ∈ bs -> Logs.bus_id b <> id ->
             b ∈ List.filter (fun b => negb (String.eqb (Logs.bus_id b) id)) bs) /\
  (NoDup (Logs.bus_id <$> bs) ->
   NoDup (Logs.bus_id <$> List.filter (fun b => negb (String.eqb (Logs.bus_id b) id)) bs)).
Proof.
  split; [|split].
  - intros H. apply list_elem_of_fmap in H as (b & -> & Hb).
    apply list_elem_of_In, filter_In in Hb as [_ Hb].
    by rewrite String.eqb_refl in Hb.
  - intros b Hb Hne. apply list_elem_of_In, filter_In. split; [by apply list_elem_of_In|].
    apply String.eqb_neq in Hne. by rewrite Hne.
  - induction bs as [|b bs IH]; [done|]. cbn. intros H.
    apply NoDup_cons in H as [Hb Hbs].
    destruct (negb (String.eqb (Logs.bus_id b) id)); [|by apply IH].
    cbn. apply NoDup_cons. split; [|by apply IH].
    intros Hin. apply Hb. apply list_elem_of_fmap in Hin as (b' & -> & Hb').
    apply list_elem_of_fmap_2. apply list_elem_of_In.
    apply list_elem_of_In, filter_In in Hb' as [Hb' _]. done.
Qed.

(** Removing a bus from the monitor drops every entry with its id, keeps
    the other entries and stores the list that is left; closing the
    monitor empties the list and removes the stored copy. Both hold even
    when rendering the table throws. *)
Theorem removeBus_and_closeAll (id : string) (p : Logs.Page) :
  let q := outcome_state (LogsHandlers.removeBus id p) in
  let c := outcome_state (LogsHandlers.closeAll p) in
  (id ∉ (Logs.bus_id <$> Logs.activeBuses q)) /\
  (forall b, b ∈ Logs.activeBuses p -> Logs.bus_id b <> id -> b ∈ Logs.activeBuses q) /\
  (NoDup (Logs.bus_id <$> Logs.activeBuses p) ->
   NoDup (Logs.bus_id <$> Logs.activeBuses q)) /\
  Logs.stored q = Some (Logs.activeBuses q) /\
  Logs.activeBuses c = [] /\ Logs.stored c = None.
Proof.
  intros q c.
  assert (Logs.activeBuses q =
            List.filter (fun b => negb (String.eqb (Logs.bus_id b) id)) (Logs.activeBuses p) /\
          Logs.stored q = Some (Logs.activeBuses q)) as [Ha Hs].
  { subst q. unfold LogsHandlers.removeBus.
    set (bs := List.filter _ (Logs.activeBuses p)).
    destruct (Logs.renderLogsTable (Logs.setBuses bs (Some bs) p)) as [q|] eqn:Hr;
      cbn [outcome_state]; [|done].
    destruct (renderLogsTable_buses _ _ Hr) as [R1 R2].
    destruct (notifyRoute_buses q) as [N1 N2]. by rewrite N1, N2, R1, R2. }
  assert (Logs.activeBuses c = [] /\ Logs.stored c = None) as [Hc1 Hc2].
  { subst c. unfold LogsHandlers.closeAll.
    destruct (Logs.renderLogsTable (Logs.setBuses [] None p)) as [q'|] eqn:Hr;
      cbn [outcome_state]; [|done].
    destruct (renderLogsTable_buses _ _ Hr) as [R1 R2].
    destruct (Logs.routeWindow q'); cbn; by rewrite ?R1, ?R2. }
  destruct (filter_other_ids id (Logs.activeBuses p)) as (F1 & F2 & F3).
  rewrite Ha. repeat split; try done. by rewrite <- Ha.
Qed.

(** ** Further properties of login.js and authGuard.js *)







(** A success response that lacks the user member is half applied: the
    token is stored, then the page reports a server error, re-enables the
    button and queues no redirect. *)
Theorem login_without_user_stores_token
    (formEmail : string) (data : Login.LoginData) (t : string) (p : Login.Page) :
  Login.success data = true -> Login.token data = Some t -> truthy t = true ->
  Login.user data = None ->
  let p' := Login.loginUser_response formEmail (Login.Resolved true data) p in
  Login.localStorage p' = <["evfleet_token" := t]> (Login.localStorage p) /\
  Login.messageText p' = [Lit "Server error. Please try again later."] /\
  Login.messageClass p' = "state-box error" /\
  Login.buttonDisabled p' = false /\
  Login.timers p' = Login.timers p /\
  Login.location (Login.autoRedirect p') = "/index.html".
Proof.
  intros Hs Ht Htr Hu p'. subst p'.
  unfold Login.loginUser_response. rewrite Hs, Ht, Htr, Hu. cbn.
  repeat split; try done.
  unfold Login.autoRedirect. cbn. rewrite lookup_insert_eq, Htr. done.
Qed.

Lemma login_without_user_stores_token_witness :
  Login.localStorage
    (Login.loginUser_response "jo@x.org"
       (Login.Resolved true {| Login.success := true; Login.token := Some "abc";
                               Login.error := None; Login.user := None |})
       Sample.login_page)
  = <["evfleet_token" := "abc"]> (Login.localStorage Sample.login_page).
Proof.
  exact (proj1 (login_without_user_stores_token "jo@x.org"
                  {| Login.success := true; Login.token := Some "abc";
                     Login.error := None; Login.user := None |}
                  "abc" Sample.login_page eq_refl eq_refl eq_refl eq_refl)).
Defined.

(** The login page and the guard send each other the browser: with a
    login token in storage and nothing under "token", the login page
    redirects to the dashboard, requireAuth redirects back to the login
    page without sending a request, and it leaves the storage as it was,
    so the login page redirects again. *)
Theorem login_page_and_guard_bounce
    (lp : Login.Page) (t : string) (server : string -> AuthGuard.MeResponse)
    (b : AuthGuard.Browser) :
  Login.localStorage lp !! "evfleet_token" = Some t -> truthy t = true ->
  Login.localStorage lp !! "token" = None ->
  AuthGuard.localStorage b = Login.localStorage lp ->
  Login.location (Login.autoRedirect lp) = "/index.html" /\
  AuthGuard.location (AuthGuard.requireAuth server b) = "login.html" /\
  AuthGuard.requests (AuthGuard.requireAuth server b) = AuthGuard.requests b /\
  AuthGuard.localStorage (AuthGuard.requireAuth server b) = Login.localStorage lp.
Proof.
  intros He Htr Htok Hb. split.
  - unfold Login.autoRedirect. by rewrite He, Htr.
  - unfold AuthGuard.requireAuth, AuthGuard.getCurrentUser. rewrite Hb, Htok. cbn.
    rewrite Hb. repeat split; try done. by apply delete_id.
Qed.

Lemma login_page_and_guard_bounce_witness :
  Login.location
    (Login.autoRedirect
       (Login.loginUser_response "jo@x.org" (Login.Resolved true Sample.login_ok)
          Sample.login_page)) = "/index.html" /\
  AuthGuard.location (AuthGuard.requireAuth Sample.me_server Sample.browser_after_login)
    = "login.html" /\
  AuthGuard.requests (AuthGuard.requireAuth Sample.me_server Sample.browser_after_login)
    = AuthGuard.requests Sample.browser_after_login /\
  AuthGuard.localStorage (AuthGuard.requireAuth Sample.me_server Sample.browser_after_login)
    = Login.localStorage
        (Login.loginUser_response "jo@x.org" (Login.Resolved true Sample.login_ok)
           Sample.login_page).
Proof.
  apply (login_page_and_guard_bounce
           (Login.loginUser_response "jo@x.org" (Login.Resolved true Sample.login_ok)
              Sample.login_page)
           "abc" Sample.me_server Sample.browser_after_login); reflexivity.
Defined.

(** logoutUser removes the item "token" and nothing else: every other
    item, the login token under "evfleet_token" included, is still there
    after the redirect to the login page. *)
Theorem logout_removes_only_token (b : AuthGuard.Browser) :
  AuthGuard.location (AuthGuard.logoutUser b) = "login.html" /\
  AuthGuard.localStorage (AuthGuard.logoutUser b) !! "token" = None /\
  (forall k, k <> "token" ->
     AuthGuard.localStorage (AuthGuard.logoutUser b) !! k = AuthGuard.localStorage b !! k) /\
  (forall (lp : Login.Page) t,
     AuthGuard.localStorage b !! "evfleet_token" = Some t -> truthy t = true ->
     Login.localStorage lp = AuthGuard.localStorage (AuthGuard.logoutUser b) ->
     Login.location (Login.autoRedirect lp) = "/index.html").
Proof.
  unfold AuthGuard.logoutUser. cbn. split; [done|].
  split; [apply lookup_delete_eq|]. split.
  - intros k Hk. by rewrite lookup_delete_ne.
  - intros lp t Ht Htr Hlp. unfold Login.autoRedirect.
    rewrite Hlp, lookup_delete_ne by done. by rewrite Ht, Htr.
Qed.

Lemma getCurrentUser_frame (server : string -> AuthGuard.MeResponse) (b : AuthGuard.Browser) :
  let b' := snd (AuthGuard.getCurrentUser server b) in
  AuthGuard.localStorage b' = AuthGuard.localStorage b /\
  AuthGuard.location b' = AuthGuard.location b /\
  AuthGuard.currentUser b' = AuthGuard.currentUser b /\
  AuthGuard.alerts b' = AuthGuard.alerts b /\
  AuthGuard.wentBack b' = AuthGuard.wentBack b.
Proof. unfold AuthGuard.getCurrentUser. by repeat case_match. Qed.

(** getCurrentUser reads the storage only: it sends at most one request,
    bearing the stored token, and returns a user only when the server
    answered that token with an ok status and a body. *)
Theorem getCurrentUser_request_discipline
    (server : string -> AuthGuard.MeResponse) (b : AuthGuard.Browser) :
  let u := fst (AuthGuard.getCurrentUser server b) in
  let b' := snd (AuthGuard.getCurrentUser server b) in
  AuthGuard.localStorage b' = AuthGuard.localStorage b /\
  AuthGuard.location b' = AuthGuard.location b /\
  AuthGuard.currentUser b' = AuthGuard.currentUser b /\
  (AuthGuard.requests b' = AuthGuard.requests b \/
   exists tok, AuthGuard.localStorage b !! "token" = Some tok /\ tok <> "" /\
               AuthGuard.requests b' = (AuthGuard.requests b ++ [tok])%list) /\
  (forall usr, u = Some usr ->
     exists tok, AuthGuard.localStorage b !! "token" = Some tok /\
                 AuthGuard.requests b' = (AuthGuard.requests b ++ [tok])%list /\
                 server tok = AuthGuard.MeResolved true (Some usr)).
Proof.
  unfold AuthGuard.getCurrentUser.
  destruct (AuthGuard.localStorage b !! "token") as [tok|] eqn:Ht; cbn;
    [|repeat split; try done; by left].
  destruct (truthy tok) eqn:Htr; cbn; [|repeat split; try done; by left].
  assert (tok <> "") as Hne by (intros ->; done).
  destruct (server tok) as [|[|] body] eqn:Hsrv; cbn;
    repeat split; try done;
    try (right; exists tok; by repeat split);
    try (intros usr ->; exists tok; by repeat split).
Qed.

(** requireAuth and requireRole have exclusive outcomes. Without a user
    the page goes to the login page and "token" is removed; a user whose
    role is not allowed stays logged in, gets the alert and is sent back;
    only an allowed user becomes window.currentUser. *)
Theorem guard_outcomes
    (allowed : list string) (server : string -> AuthGuard.MeResponse)
    (b : AuthGuard.Browser) :
  let u := fst (AuthGuard.getCurrentUser server b) in
  let a := AuthGuard.requireAuth server b in
  let r := AuthGuard.requireRole allowed server b in
  (u = None ->
     AuthGuard.location a = "login.html" /\ AuthGuard.location r = "login.html" /\
     AuthGuard.localStorage a !! "token" = None /\
     AuthGuard.localStorage r !! "token" = None /\
     AuthGuard.currentUser a = AuthGuard.currentUser b /\
     AuthGuard.currentUser r = AuthGuard.currentUser b) /\
  (forall usr, u = Some usr ->
     AuthGuard.currentUser a = Some usr /\
     AuthGuard.location a = AuthGuard.location b /\
     AuthGuard.localStorage a = AuthGuard.localStorage b /\
     AuthGuard.location r = AuthGuard.location b /\
     AuthGuard.localStorage r = AuthGuard.localStorage b /\
     (AuthGuard.role usr ∈ allowed ->
        AuthGuard.currentUser r = Some usr /\ AuthGuard.wentBack r = AuthGuard.wentBack b /\
        AuthGuard.alerts r = AuthGuard.alerts b) /\
     (AuthGuard.role usr ∉ allowed ->
        AuthGuard.currentUser r = AuthGuard.currentUser b /\ AuthGuard.wentBack r = true /\
        AuthGuard.alerts r = (AuthGuard.alerts b ++ ["❌ Access denied"])%list)).
Proof.
  destruct (getCurrentUser_frame server b) as (Hs & Hl & Hc & Ha & Hw).
  cbn zeta in *. unfold AuthGuard.requireAuth, AuthGuard.requireRole.
  destruct (AuthGuard.getCurrentUser server b) as [[usr|] b'] eqn:Hg; cbn in *.
  - split; [done|]. intros usr' [= <-].
    destruct (decide (AuthGuard.role usr ∈ allowed)) as [Hin|Hout].
    + rewrite (bool_decide_eq_true_2 _ Hin). cbn. rewrite Hs, Hl, Ha, Hw.
      repeat split; try done.
    + rewrite (bool_decide_eq_false_2 _ Hout). cbn. rewrite Hs, Hl, Hc, Ha.
      repeat split; try done.
  - split; [|done]. intros _. rewrite !lookup_delete_eq. done.
Qed.

(** ** Further properties of prediction.js *)

(** Whatever the request brings, predictTrip ends with the button enabled
    and a visible message. The message is either the success message,
    next to the KPI values of the response, or an error, and next to an
    error the KPI fields show their placeholders: values painted before a
    later step threw are taken back. *)
Theorem predictTrip_ends_unlocked (r : Prediction.Response) (p : Prediction.Page) :
  let p' := Prediction.predictTrip_response r p in
  Prediction.btnDisabled p' = false /\
  Prediction.btnText p' = "Predict Trip" /\
  ("hidden" ∉ Prediction.messageClasses p') /\
  Prediction.sent p' = Prediction.sent p /\
  ((Prediction.messageText p' = [Lit "AI Prediction Successful."] /\
    Prediction.messageClasses p' = ["state-box"; "state-success"] /\
    Prediction.failed r = false /\
    exists d, response_data r = Some d /\
              Prediction.endSoc p' = [Num (Prediction.predicted_end_soc d); Lit "%"] /\
              Prediction.speed p' = [Num (Prediction.recommended_speed d); Lit " km/h"] /\
              Prediction.risk p' = [Lit (Prediction.risk_level d)]) \/
   (Prediction.messageClasses p' = ["state-box"; "state-error"] /\
    Prediction.endSoc p' = [Lit "--%"] /\ Prediction.risk p' = [Lit "--"] /\
    Prediction.riskColor p' = "inherit" /\ Prediction.speed p' = [Lit "-- km/h"])).
Proof.
  cbn zeta. unfold Prediction.predictTrip_response.
  assert (forall m q,
    let q' := Prediction.setLoadingState false (Prediction.on_catch m q) in
    Prediction.btnDisabled q' = false /\ Prediction.btnText q' = "Predict Trip" /\
    ("hidden" ∉ Prediction.messageClasses q') /\
    Prediction.sent q' = Prediction.sent q /\
    Prediction.messageClasses q' = ["state-box"; "state-error"] /\
    Prediction.endSoc q' = [Lit "--%"] /\ Prediction.risk q' = [Lit "--"] /\
    Prediction.riskColor q' = "inherit" /\ Prediction.speed q' = [Lit "-- km/h"]) as Herr.
  { intros m q. cbn. repeat split; try done.
    intros Hin; repeat (apply elem_of_cons in Hin as [Hin|Hin]; [discriminate Hin|]).
    by apply elem_of_nil in Hin. }
  assert (forall q,
    let q' := Prediction.setLoadingState false
                (Prediction.showFeedback [Lit "AI Prediction Successful."] "success" q) in
    Prediction.btnDisabled q' = false /\ Prediction.btnText q' = "Predict Trip" /\
    ("hidden" ∉ Prediction.messageClasses q') /\
    Prediction.sent q' = Prediction.sent q /\
    Prediction.messageText q' = [Lit "AI Prediction Successful."] /\
    Prediction.messageClasses q' = ["state-box"; "state-success"] /\
    Prediction.endSoc q' = Prediction.endSoc q /\ Prediction.risk q' = Prediction.risk q /\
    Prediction.speed q' = Prediction.speed q) as Hok.
  { intros q. cbn. repeat split; try done.
    intros Hin; repeat (apply elem_of_cons in Hin as [Hin|Hin]; [discriminate Hin|]).
    by apply elem_of_nil in Hin. }
  destruct r as [e|ok json].
  { destruct (Herr (ErrMessage e) p) as (A & B & C & D & E). tauto. }
  destruct (negb ok || negb (Prediction.success json)) eqn:Hf.
  { destruct (Herr (Lit (or_default (Prediction.error json) "Prediction engine error")) p)
      as (A & B & C & D & E). tauto. }
  destruct (Prediction.data json) as [d|] eqn:Hd.
  2: { destruct (Herr (ErrMessage TypeErrorThrown) p) as (A & B & C & D & E). tauto. }
  destruct (Prediction.renderPredictionChart (Prediction.energy_curve d)
              (Prediction.updateKPIs d p)) as [q|] eqn:Hr.
  2: { destruct (Herr (ErrMessage TypeErrorThrown) (Prediction.updateKPIs d p))
         as (A & B & C & D & E). tauto. }
  destruct (Hok q) as (A & B & C & D & E & F & G1 & G2 & G3).
  assert (Prediction.sent q = Prediction.sent p /\
          Prediction.endSoc q = [Num (Prediction.predicted_end_soc d); Lit "%"] /\
          Prediction.speed q = [Num (Prediction.recommended_speed d); Lit " km/h"] /\
          Prediction.risk q = [Lit (Prediction.risk_level d)]) as (Q1 & Q2 & Q3 & Q4).
  { unfold Prediction.renderPredictionChart in Hr.
    repeat case_match; simplify_eq; done. }
  split; [done|]. split; [done|]. split; [done|]. split; [congruence|].
  left. split; [done|]. split; [done|]. split; [exact Hf|].
  exists d. split; [exact Hd|].
  split; [by rewrite G1|]. split; [by rewrite G3|by rewrite G2].
Qed.

(** A successful prediction replaces the chart instead of stacking one:
    the old chart, if any, is destroyed, and the new one has a label and a
    value for each point of the curve. Without the canvas nothing is
    drawn and the prediction still succeeds. *)
Theorem prediction_chart_is_replaced
    (err : option string) (d : Prediction.Result) (pts : list Prediction.CurvePoint)
    (p : Prediction.Page) :
  Prediction.energy_curve d = Some pts ->
  let p' := Prediction.predictTrip_response
              (Prediction.Resolved true
                 {| Prediction.success := true; Prediction.error := err;
                    Prediction.data := Some d |}) p in
  (Prediction.canvas p = true ->
     exists c, Prediction.predictionChart p' = Some c /\
               length (Prediction.labels c) = length pts /\
               length (Prediction.values c) = length pts /\
               Prediction.values c = map Prediction.soc pts /\
               Prediction.destroyed p' =
                 (Prediction.destroyed p +
                  match Prediction.predictionChart p with Some _ => 1 | None => 0 end)%nat) /\
  (Prediction.canvas p = false ->
     Prediction.predictionChart p' = Prediction.predictionChart p /\
     Prediction.destroyed p' = Prediction.destroyed p /\
     Prediction.messageText p' = [Lit "AI Prediction Successful."]).
Proof.
  intros Hc. cbn zeta. unfold Prediction.predictTrip_response,
    Prediction.renderPredictionChart. cbn. rewrite Hc.
  split; intros Hcv; rewrite Hcv; cbn; [|done].
  eexists. split; [reflexivity|]. cbn. rewrite !length_map.
  repeat split; try done. destruct (Prediction.predictionChart p); lia.
Qed.

Lemma prediction_chart_is_replaced_witness :
  exists c,
    Prediction.predictionChart
      (Prediction.predictTrip_response Sample.prediction_ok Sample.predicted_page) = Some c /\
    length (Prediction.labels c) = 2%nat /\
    length (Prediction.values c) = 2%nat /\
    Prediction.values c = [95%Q; 42%Q] /\
    Prediction.destroyed
      (Prediction.predictTrip_response Sample.prediction_ok Sample.predicted_page) = 1%nat.
Proof.
  exact (proj1 (prediction_chart_is_replaced None
    {| Prediction.predicted_end_soc := 42; Prediction.recommended_speed := 35;
       Prediction.risk_level := "WARNING";
       Prediction.energy_curve :=
         Some [{| Prediction.distance := 0; Prediction.soc := 95 |};
               {| Prediction.distance := 10; Prediction.soc := 42 |}] |}
    [{| Prediction.distance := 0; Prediction.soc := 95 |};
     {| Prediction.distance := 10; Prediction.soc := 42 |}]
    Sample.predicted_page eq_refl) eq_refl).
Defined.

(** ** Further properties: validation before the request *)

Lemma truthy_false (s : string) : truthy s = false -> s = "".
Proof. by destruct s. Qed.

Lemma truthy_true (s : string) : truthy s = true -> s <> "".
Proof. by destruct s. Qed.

(** In the four forms a request leaves only when validation passes, and
    then exactly one, built from the fields as the code reads them; a
    failed validation sends nothing, and the login form says which fields
    are missing. *)
Theorem validation_gates_the_request :
  (forall (e pw : string) (p : Login.Page),
     (snd (Login.loginUser_submit e pw p) = None <-> trim e = "" \/ trim pw = "") /\
     Login.sent (fst (Login.loginUser_submit e pw p)) =
       (Login.sent p ++
        match snd (Login.loginUser_submit e pw p) with
        | Some _ => [(trim e, trim pw)]
        | None => []
        end)%list /\
     (snd (Login.loginUser_submit e pw p) = None ->
      Login.messageText (fst (Login.loginUser_submit e pw p))
        = [Lit "Please enter both email and password."])) /\
  (forall (f : Signup.Form) (p : Signup.Page),
     (snd (Signup.submit f p) = None <->
        trim (Signup.name f) = "" \/ Signup.organization f = "" \/
        trim (Signup.email f) = "" \/ Signup.password f = "" \/
        Signup.confirmPassword f = "" \/
        Signup.password f <> Signup.confirmPassword f) /\
     Signup.sent (fst (Signup.submit f p)) =
       (Signup.sent p ++
        match snd (Signup.submit f p) with
        | Some _ => [{| Signup.body_name := trim (Signup.name f);
                        Signup.body_email := trim (Signup.email f);
                        Signup.body_organization := Signup.organization f;
                        Signup.body_password := Signup.password f |}]
        | None => []
        end)%list) /\
  (forall (f : Prediction.Form) (p : Prediction.Page),
     (snd (Prediction.predictTrip_start f p) = None <->
        trim (Prediction.routeId f) = "" \/ Prediction.passengers f = None \/
        Prediction.weather f = "") /\
     (snd (Prediction.predictTrip_start f p) = None ->
      Prediction.sent (fst (Prediction.predictTrip_start f p)) = Prediction.sent p /\
      Prediction.endSoc (fst (Prediction.predictTrip_start f p)) = Prediction.endSoc p /\
      Prediction.btnDisabled (fst (Prediction.predictTrip_start f p))
        = Prediction.btnDisabled p) /\
     (forall pl, snd (Prediction.predictTrip_start f p) = Some pl ->
      Prediction.sent (fst (Prediction.predictTrip_start f p)) = (Prediction.sent p ++ [pl])%list /\
      Prediction.route_id pl = trim (Prediction.routeId f) /\
      Prediction.passengers f = Some (Prediction.passenger_load pl) /\
      Prediction.payload_weather pl = Prediction.weather f /\
      Prediction.bus_id pl = "EV-COMMANDER" /\
      Prediction.current_soc pl = 95%Q /\
      Prediction.btnDisabled (fst (Prediction.predictTrip_start f p)) = true)) /\
  (forall (busIdField : string) (limitField : option Z) (p : Logs.Page),
     (snd (Logs.loadLogs_start busIdField limitField p) = None <-> trim busIdField = "") /\
     (snd (Logs.loadLogs_start busIdField limitField p) = None ->
      Logs.sent (fst (Logs.loadLogs_start busIdField limitField p)) = Logs.sent p) /\
     (forall q, snd (Logs.loadLogs_start busIdField limitField p) = Some q ->
      fst q = trim busIdField /\
      Logs.sent (fst (Logs.loadLogs_start busIdField limitField p))
        = (Logs.sent p ++ [q])%list)).
Proof.
  split; [|split; [|split]].
  - intros e pw p. unfold Login.loginUser_submit.
    destruct (truthy (trim e)) eqn:He; [apply truthy_true in He|apply truthy_false in He];
      (destruct (truthy (trim pw)) eqn:Hp;
         [apply truthy_true in Hp|apply truthy_false in Hp]); cbn.
    + split; [split; [done|intros [?|?]; done]|]. by split.
    + split; [split; [tauto|done]|]. split; [by rewrite app_nil_r|done].
    + split; [split; [tauto|done]|]. split; [by rewrite app_nil_r|done].
    + split; [split; [tauto|done]|]. split; [by rewrite app_nil_r|done].
  - intros f p. unfold Signup.submit.
    destruct (truthy (trim (Signup.name f))) eqn:H1;
      [apply truthy_true in H1|apply truthy_false in H1; cbn;
       split; [split; [tauto|done]|by rewrite app_nil_r]].
    destruct (truthy (Signup.organization f)) eqn:H2;
      [apply truthy_true in H2|apply truthy_false in H2; cbn;
       split; [split; [tauto|done]|by rewrite app_nil_r]].
    destruct (truthy (trim (Signup.email f))) eqn:H3;
      [apply truthy_true in H3|apply truthy_false in H3; cbn;
       split; [split; [tauto|done]|by rewrite app_nil_r]].
    destruct (truthy (Signup.password f)) eqn:H4;
      [apply truthy_true in H4|apply truthy_false in H4; cbn;
       split; [split; [tauto|done]|by rewrite app_nil_r]].
    destruct (truthy (Signup.confirmPassword f)) eqn:H5;
      [apply truthy_true in H5|apply truthy_false in H5; cbn;
       split; [split; [tauto|done]|by rewrite app_nil_r]].
    cbn. destruct (String.eqb (Signup.password f) (Signup.confirmPassword f)) eqn:E; cbn.
    + apply String.eqb_eq in E. split; [|done]. split; [done|]. tauto.
    + apply String.eqb_neq in E. split; [|by rewrite app_nil_r]. split; [tauto|done].
  - intros f p. unfold Prediction.predictTrip_start.
    destruct (Prediction.passengers f) as [load|] eqn:Hl;
      [|cbn; split; [split; [tauto|done]|]; split; [done|]; intros pl H; done].
    destruct (truthy (trim (Prediction.routeId f))) eqn:H1;
      [apply truthy_true in H1|apply truthy_false in H1; cbn;
       split; [split; [tauto|done]|]; split; [done|]; intros pl H; done].
    destruct (truthy (Prediction.weather f)) eqn:H2;
      [apply truthy_true in H2|apply truthy_false in H2; cbn;
       split; [split; [tauto|done]|]; split; [done|]; intros pl H; done].
    cbn. split; [split; [done|intros [?|[?|?]]; done]|]. split; [done|].
    intros pl [= <-]. cbn. done.
  - intros busIdField limitField p. unfold Logs.loadLogs_start.
    destruct (truthy (trim busIdField)) eqn:H1;
      [apply truthy_true in H1|apply truthy_false in H1]; cbn.
    + split; [split; done|]. split; [done|]. intros q [= <-]. cbn.
      split; [done|]. unfold Logs.showState. by case_match.
    + split; [split; done|]. split; [|done].
      intros _. unfold Logs.showState. by case_match.
Qed.


(** ** Further properties of maintenance.js *)

(** The load handler checks six elements but not #maintenanceCount. On a
    page without it loadMaintenance never settles its message: whatever
    the response, the function ends in an exception thrown from its own
    catch block and the status box keeps the loading text. After a
    success response the KPI fields and the rows of the response are
    painted all the same. *)
Theorem loadMaintenance_without_count_element
    (r : Maintenance.Response) (p : Maintenance.Page) :
  Maintenance.maintenanceCount p = None ->
  exists q,
    loadMaintenance r p = Threw q /\
    Maintenance.maintenanceCount q = None /\
    Maintenance.tableState q =
      {| Maintenance.sb_text := [Lit "Fetching maintenance analytics…"];
         Maintenance.sb_class := "state-box loading";
         Maintenance.sb_display := "block" |} /\
    (Maintenance.failed r = true ->
       Maintenance.tableBody q = Maintenance.tableBody p /\
       Maintenance.upcomingServices q = Maintenance.upcomingServices p /\
       Maintenance.activeAlerts q = Maintenance.activeAlerts p /\
       Maintenance.avgBatteryHealth q = Maintenance.avgBatteryHealth p) /\
    (Maintenance.failed r = false ->
       Maintenance.tableBody q = map Maintenance.createTableRow (response_records r) /\
       Maintenance.upcomingServices q
         = kpi_text (Maintenance.upcoming_services (maintenance_data r)) /\
       Maintenance.activeAlerts q
         = kpi_text (Maintenance.active_alerts (maintenance_data r)) /\
       Maintenance.avgBatteryHealth q
         = match Maintenance.avg_battery_health (maintenance_data r) with
           | Some x => [Num x; Lit "%"]
           | None => [Lit "—%"]
           end).
Proof.
  intros Hc. unfold loadMaintenance, Maintenance.loadMaintenance_start,
    Maintenance.loadMaintenance_response, Maintenance.try_body,
    maintenance_data, kpi_text.
  destruct r as [e|ok json]; cbn.
  - unfold Maintenance.setCount; cbn. rewrite Hc. eexists. split; [done|]. cbn.
    by repeat split.
  - destruct ok, (Maintenance.success json); cbn;
      try (unfold Maintenance.setCount; cbn; rewrite Hc; eexists; split; [done|]; cbn;
           by repeat split).
    destruct (Maintenance.data json) as [d|]; cbn.
    + destruct (Maintenance.records d) as [[|r0 rs]|]; cbn;
        unfold Maintenance.setCount; cbn; rewrite Hc; cbn; rewrite ?Hc;
        eexists; (split; [done|]); cbn; by repeat split.
    + unfold Maintenance.setCount; cbn; rewrite Hc; cbn; rewrite ?Hc.
      eexists. split; [done|]. cbn. by repeat split.
Qed.

Lemma loadMaintenance_without_count_element_witness :
  exists q,
    loadMaintenance Sample2.maintenance_ok Sample2.uncounted_page = Threw q /\
    Maintenance.maintenanceCount q = None /\
    Maintenance.tableState q =
      {| Maintenance.sb_text := [Lit "Fetching maintenance analytics…"];
         Maintenance.sb_class := "state-box loading";
         Maintenance.sb_display := "block" |} /\
    (Maintenance.failed Sample2.maintenance_ok = true ->
       Maintenance.tableBody q = Maintenance.tableBody Sample2.uncounted_page /\
       Maintenance.upcomingServices q
         = Maintenance.upcomingServices Sample2.uncounted_page /\
       Maintenance.activeAlerts q = Maintenance.activeAlerts Sample2.uncounted_page /\
       Maintenance.avgBatteryHealth q
         = Maintenance.avgBatteryHealth Sample2.uncounted_page) /\
    (Maintenance.failed Sample2.maintenance_ok = false ->
       Maintenance.tableBody q
         = map Maintenance.createTableRow (response_records Sample2.maintenance_ok) /\
       Maintenance.upcomingServices q
         = kpi_text (Maintenance.upcoming_services
                       (maintenance_data Sample2.maintenance_ok)) /\
       Maintenance.activeAlerts q
         = kpi_text (Maintenance.active_alerts
                       (maintenance_data Sample2.maintenance_ok)) /\
       Maintenance.avgBatteryHealth q
         = match Maintenance.avg_battery_health
                   (maintenance_data Sample2.maintenance_ok) with
           | Some x => [Num x; Lit "%"]
           | None => [Lit "—%"]
           end).
Proof.
  apply (loadMaintenance_without_count_element Sample2.maintenance_ok
           Sample2.uncounted_page).
  reflexivity.
Defined.

(** On a page with the count element, a success response repaints the
    page from the response alone: one row per record, in order, replacing
    the rows of the cycle before, the number of records as the count, and
    the status box hidden exactly when there is a record. Two pages that
    both have the count element look the same afterwards. *)
Theorem loadMaintenance_repaints_from_the_response
    (r : Maintenance.Response) (p1 p2 : Maintenance.Page) :
  Maintenance.failed r = false ->
  is_Some (Maintenance.maintenanceCount p1) ->
  is_Some (Maintenance.maintenanceCount p2) ->
  loadMaintenance r p1 = loadMaintenance r p2 /\
  exists q,
    loadMaintenance r p1 = Done q /\
    Maintenance.tableBody q = map Maintenance.createTableRow (response_records r) /\
    length (Maintenance.tableBody q) = length (response_records r) /\
    Maintenance.maintenanceCount q =
      Some (match response_records r with
            | [] => [Lit "0 records"]
            | rs => [Num (inject_Z (Z.of_nat (length rs))); Lit " records"]
            end) /\
    (Maintenance.sb_display (Maintenance.tableState q) = "none" <->
     response_records r <> []) /\
    (response_records r = [] ->
     Maintenance.sb_text (Maintenance.tableState q)
       = [Lit "No maintenance records available"]).
Proof.
  intros Hf [c1 H1] [c2 H2].
  destruct r as [e|ok json]; [done|]. cbn in Hf.
  apply orb_false_iff in Hf as [Hok Hs].
  apply negb_false_iff in Hok, Hs. subst ok.
  unfold loadMaintenance, Maintenance.loadMaintenance_start,
    Maintenance.loadMaintenance_response, Maintenance.try_body, response_records.
  cbn. rewrite Hs. cbn.
  destruct (Maintenance.data json) as [d|]; cbn.
  - destruct (Maintenance.records d) as [[|r0 rs]|]; cbn;
      unfold Maintenance.setCount; cbn; rewrite H1, H2; cbn;
      (split; [done|]); eexists; (split; [done|]); cbn;
      rewrite ?length_map; repeat split; try done.
  - unfold Maintenance.setCount; cbn. rewrite H1, H2. cbn.
    split; [done|]. eexists. split; [done|]. cbn. repeat split; try done.
Qed.

Lemma loadMaintenance_repaints_from_the_response_witness :
  loadMaintenance Sample2.maintenance_ok Sample.maintenance_page
  = loadMaintenance Sample2.maintenance_ok
      (outcome_state (loadMaintenance Sample2.maintenance_ok Sample.maintenance_page)).
Proof.
  refine (proj1 (loadMaintenance_repaints_from_the_response Sample2.maintenance_ok
                   Sample.maintenance_page
                   (outcome_state
                      (loadMaintenance Sample2.maintenance_ok Sample.maintenance_page))
                   eq_refl _ _)).
  - eexists. reflexivity.
  - eexists. reflexivity.
Defined.

(** ** Further properties of dashboard.js *)

Lemma safeUpdateText_dom (id : string) (t : text) (p : Dashboard.Page) :
  dom (Dashboard.texts (Dashboard.safeUpdateText id t p)) = dom (Dashboard.texts p) /\
  Dashboard.energyCanvas (Dashboard.safeUpdateText id t p) = Dashboard.energyCanvas p /\
  Dashboard.statusCanvas (Dashboard.safeUpdateText id t p) = Dashboard.statusCanvas p.
Proof.
  unfold Dashboard.safeUpdateText.
  destruct (Dashboard.texts p !! id) as [old|] eqn:Hid; cbn; [|done].
  split; [|done]. rewrite dom_insert_L.
  apply elem_of_dom_2 in Hid. set_solver.
Qed.

Lemma fold_safeUpdateText_dom (t : text) (l : list string) :
  forall p : Dashboard.Page,
  dom (Dashboard.texts (foldl (fun p id => Dashboard.safeUpdateText id t p) p l))
    = dom (Dashboard.texts p) /\
  Dashboard.energyCanvas (foldl (fun p id => Dashboard.safeUpdateText id t p) p l)
    = Dashboard.energyCanvas p /\
  Dashboard.statusCanvas (foldl (fun p id => Dashboard.safeUpdateText id t p) p l)
    = Dashboard.statusCanvas p.
Proof.
  induction l as [|id l IH]; intros p; cbn; [done|].
  destruct (IH (Dashboard.safeUpdateText id t p)) as (H1 & H2 & H3).
  destruct (safeUpdateText_dom id t p) as (G1 & G2 & G3).
  rewrite H1, H2, H3, G1, G2, G3. done.
Qed.

Lemma forEach_alert_spec (l : list Dashboard.Alert) :
  forall b : Dashboard.AlertsBox,
  Dashboard.state_display (outcome_state (Dashboard.forEach_alert l b))
    = Dashboard.state_display b /\
  Dashboard.state_html (outcome_state (Dashboard.forEach_alert l b))
    = Dashboard.state_html b /\
  (forallb showable l = true ->
   exists b', Dashboard.forEach_alert l b = Done b' /\
              length (Dashboard.items b') = (length (Dashboard.items b) + length l)%nat) /\
  (forall l1 a l2,
     l = (l1 ++ a :: l2)%list -> forallb showable l1 = true -> showable a = false ->
     exists b', Dashboard.forEach_alert l b = Threw b' /\
                length (Dashboard.items b')
                  = (length (Dashboard.items b) + length l1)%nat).
Proof.
  induction l as [|a l IH]; intros b.
  - cbn. split; [done|]. split; [done|]. split.
    + intros _. exists b. split; [done|]. lia.
    + intros [|? ?] ? ? H; discriminate H.
  - cbn [Dashboard.forEach_alert].
    destruct (Dashboard.addAlert a b) as [b1|b1] eqn:Ha.
    + assert (Dashboard.state_display b1 = Dashboard.state_display b /\
              Dashboard.state_html b1 = Dashboard.state_html b /\
              length (Dashboard.items b1) = S (length (Dashboard.items b)) /\
              showable a = true) as (D1 & D2 & D3 & D4).
      { unfold Dashboard.addAlert, showable in *.
        destruct (Dashboard.level a) as [lv|]; [destruct (String.eqb lv "critical")|];
          destruct (Dashboard.issue a); simplify_eq; cbn;
          rewrite ?length_app; cbn; repeat split; try done; lia. }
      destruct (IH b1) as (I1 & I2 & I3 & I4).
      rewrite I1, I2, D1, D2. split; [done|]. split; [done|]. split.
      * intros Hall. cbn in Hall. apply andb_true_iff in Hall as [_ Hall].
        destruct (I3 Hall) as (b' & E & L). exists b'. split; [done|].
        rewrite L, D3. cbn. lia.
      * intros l1 a' l2 Heq Hall Hbad.
        destruct l1 as [|a1 l1]; cbn in Heq; simplify_eq; [congruence|].
        cbn in Hall. apply andb_true_iff in Hall as [_ Hall].
        destruct (I4 l1 a' l2 eq_refl Hall Hbad) as (b' & E & L).
        exists b'. split; [done|]. rewrite L, D3. cbn. lia.
    + assert (b1 = b /\ showable a = false) as [-> Hbad].
      { unfold Dashboard.addAlert, showable in *.
        destruct (Dashboard.level a) as [lv|]; [destruct (String.eqb lv "critical")|];
          destruct (Dashboard.issue a); by simplify_eq. }
      cbn. split; [done|]. split; [done|]. split.
      * intros Hall. cbn in Hall. rewrite Hbad in Hall. done.
      * intros l1 a' l2 Heq Hall _.
        destruct l1 as [|a1 l1]; cbn in Heq; simplify_eq.
        -- exists b. split; [done|]. cbn. lia.
        -- cbn in Hall. rewrite Hbad in Hall. done.
Qed.

Lemma dashboard_frame_refl (p : Dashboard.Page) : dashboard_frame p p.
Proof. by repeat split. Qed.

Lemma dashboard_frame_trans (p q r : Dashboard.Page) :
  dashboard_frame p q -> dashboard_frame q r -> dashboard_frame p r.
Proof.
  intros (A1 & A2 & A3 & A4 & A5 & A6 & A7) (B1 & B2 & B3 & B4 & B5 & B6 & B7).
  repeat split.
  - by rewrite B1.
  - intros id Hid. rewrite B2 by done. by apply A2.
  - by rewrite B3.
  - by rewrite B4.
  - intros H. apply B5, A5, H.
  - intros H. rewrite B6; [by apply A6|]. by rewrite A3.
  - intros H. rewrite B7; [by apply A7|]. by rewrite A4.
Qed.

Lemma safeUpdateText_frame (id : string) (t : text) (p : Dashboard.Page) :
  id ∈ Dashboard.kpi_ids -> dashboard_frame p (Dashboard.safeUpdateText id t p).
Proof.
  intros Hid. destruct (safeUpdateText_dom id t p) as (D1 & D2 & D3).
  repeat split; try done.
  - intros j Hj. destruct (safeUpdateText_effect id t p j) as (E & _). cbn zeta in E.
    rewrite E. rewrite bool_decide_eq_false_2; [done|]. intros [-> _]. done.
  - intros H. destruct (safeUpdateText_effect id t p "") as (_ & E & _). cbn zeta in E.
    by rewrite E.
  - intros _. by destruct (safeUpdateText_effect id t p "") as (_ & _ & E & _).
  - intros _. by destruct (safeUpdateText_effect id t p "") as (_ & _ & _ & E).
Qed.

Lemma fold_safeUpdateText_frame (t : text) (l : list string) :
  forall p : Dashboard.Page,
  (forall id, id ∈ l -> id ∈ Dashboard.kpi_ids) ->
  dashboard_frame p (foldl (fun p id => Dashboard.safeUpdateText id t p) p l).
Proof.
  induction l as [|id l IH]; intros p Hl; cbn; [apply dashboard_frame_refl|].
  eapply dashboard_frame_trans.
  - apply (safeUpdateText_frame id t p). apply Hl. by left.
  - apply IH. intros j Hj. apply Hl. by right.
Qed.

Lemma showDashboardFallback_frame (p : Dashboard.Page) :
  dashboard_frame p (Dashboard.showDashboardFallback p).
Proof. by apply fold_safeUpdateText_frame. Qed.

Lemma updateAlerts_frame (al : list Dashboard.Alert) (p : Dashboard.Page) :
  dashboard_frame p (outcome_state (Dashboard.updateAlerts al p)).
Proof.
  unfold Dashboard.updateAlerts.
  destruct (Dashboard.alertsBox p) as [b|] eqn:Hb; [|apply dashboard_frame_refl].
  destruct al as [|a al]; [by repeat split; cbn; try done; congruence|].
  destruct (Dashboard.forEach_alert _ _); repeat split; cbn; try done; congruence.
Qed.

Lemma updateEnergyChart_frame (h : list Dashboard.HistoryPoint) (p : Dashboard.Page) :
  dashboard_frame p (Dashboard.updateEnergyChart h p).
Proof.
  unfold Dashboard.updateEnergyChart.
  destruct (Dashboard.energyCanvas p) eqn:Hc; cbn; [|apply dashboard_frame_refl].
  repeat split; cbn; try done; intros; congruence.
Qed.

Lemma updateStatusChart_frame (c : option Dashboard.StatusCounts) (p : Dashboard.Page) :
  dashboard_frame p (Dashboard.updateStatusChart c p).
Proof.
  unfold Dashboard.updateStatusChart.
  destruct (Dashboard.statusCanvas p) eqn:Hc; cbn; [|apply dashboard_frame_refl].
  repeat split; cbn; try done; intros; congruence.
Qed.

(** A dashboard cycle writes into elements that exist and creates none:
    whatever the response, the set of text elements is the same
    afterwards, only the five KPI fields can change, and a page without
    the alert elements or without a canvas gets no alert list and no
    chart. *)
Theorem dashboard_cycle_frame (r : Dashboard.Response) (p : Dashboard.Page) :
  let p' := Dashboard.fetchDashboardMetrics_response r p in
  dom (Dashboard.texts p') = dom (Dashboard.texts p) /\
  (forall id, id ∉ Dashboard.kpi_ids ->
              Dashboard.texts p' !! id = Dashboard.texts p !! id) /\
  Dashboard.energyCanvas p' = Dashboard.energyCanvas p /\
  Dashboard.statusCanvas p' = Dashboard.statusCanvas p /\
  (Dashboard.alertsBox p = None -> Dashboard.alertsBox p' = None) /\
  (Dashboard.energyCanvas p = false -> Dashboard.energyChart p' = Dashboard.energyChart p) /\
  (Dashboard.statusCanvas p = false -> Dashboard.statusChart p' = Dashboard.statusChart p).
Proof.
  cbn zeta. change (dashboard_frame p (Dashboard.fetchDashboardMetrics_response r p)).
  destruct r as [e|ok json]; [apply showDashboardFallback_frame|].
  unfold Dashboard.fetchDashboardMetrics_response.
  destruct (negb ok || negb (Dashboard.success json));
    [apply showDashboardFallback_frame|].
  set (m := match Dashboard.data json with Some m => m | None => _ end).
  match goal with
  | |- dashboard_frame p (match Dashboard.updateAlerts ?al ?q with _ => _ end) =>
    assert (dashboard_frame p q) as Hq;
      [|pose proof (updateAlerts_frame al q) as Ha;
        destruct (Dashboard.updateAlerts al q) as [q'|q']; cbn in Ha]
  end.
  - repeat (eapply dashboard_frame_trans;
            [|apply safeUpdateText_frame; set_solver]).
    apply dashboard_frame_refl.
  - eapply dashboard_frame_trans; [|apply updateStatusChart_frame].
    eapply dashboard_frame_trans; [|apply updateEnergyChart_frame].
    eapply dashboard_frame_trans; [exact Hq|exact Ha].
  - eapply dashboard_frame_trans; [|apply showDashboardFallback_frame].
    eapply dashboard_frame_trans; [exact Hq|exact Ha].
Qed.

(** A success response is shown as a failure when one of its alerts has
    no issue and is not of level "critical": updateAlerts throws at that
    alert, so the KPI values painted before it are overwritten with
    SYNCING..., the alerts before it stay listed, and the charts are not
    refreshed. *)
Theorem alert_without_issue_aborts_the_cycle
    (json : Dashboard.Json) (l1 l2 : list Dashboard.Alert) (a : Dashboard.Alert)
    (b : Dashboard.AlertsBox) (p : Dashboard.Page) :
  Dashboard.success json = true ->
  response_alerts json = (l1 ++ a :: l2)%list ->
  forallb showable l1 = true -> showable a = false ->
  Dashboard.alertsBox p = Some b ->
  let p' := Dashboard.fetchDashboardMetrics_response (Dashboard.Resolved true json) p in
  (forall id, id ∈ Dashboard.kpi_ids -> is_Some (Dashboard.texts p !! id) ->
              Dashboard.texts p' !! id = Some [Lit "SYNCING..."]) /\
  (exists b', Dashboard.alertsBox p' = Some b' /\
              length (Dashboard.items b') = length l1 /\
              Dashboard.state_display b' = "none") /\
  Dashboard.energyChart p' = Dashboard.energyChart p /\
  Dashboard.statusChart p' = Dashboard.statusChart p.
Proof.
  intros Hs Hal Hl1 Ha Hb. cbn zeta.
  unfold Dashboard.fetchDashboardMetrics_response. rewrite Hs. cbn [negb orb].
  set (m := match Dashboard.data json with Some m => m | None => _ end).
  assert (match Dashboard.alerts m with Some l => l | None => [] end
          = (l1 ++ a :: l2)%list) as ->.
  { rewrite <- Hal. unfold response_alerts, m. by destruct (Dashboard.data json). }
  match goal with
  | |- context [Dashboard.updateAlerts _ ?q] => set (q0 := q)
  end.
  assert (Dashboard.alertsBox q0 = Some b /\
          Dashboard.energyChart q0 = Dashboard.energyChart p /\
          Dashboard.statusChart q0 = Dashboard.statusChart p /\
          forall id, is_Some (Dashboard.texts p !! id) ->
                     is_Some (Dashboard.texts q0 !! id)) as (Q1 & Q2 & Q3 & Q4).
  { assert (forall i t q, Dashboard.alertsBox (Dashboard.safeUpdateText i t q)
                            = Dashboard.alertsBox q) as A1
      by (intros i t q; apply (safeUpdateText_effect i t q "")).
    assert (forall i t q, Dashboard.energyChart (Dashboard.safeUpdateText i t q)
                            = Dashboard.energyChart q) as A2
      by (intros i t q; apply (safeUpdateText_effect i t q "")).
    assert (forall i t q, Dashboard.statusChart (Dashboard.safeUpdateText i t q)
                            = Dashboard.statusChart q) as A3
      by (intros i t q; apply (safeUpdateText_effect i t q "")).
    assert (forall i t q, dom (Dashboard.texts (Dashboard.safeUpdateText i t q))
                            = dom (Dashboard.texts q)) as A4
      by (intros i t q; apply safeUpdateText_dom).
    subst q0. rewrite !A1, !A2, !A3. split; [done|]. split; [done|]. split; [done|].
    intros id Hid. apply elem_of_dom. rewrite !A4. by apply elem_of_dom. }
  unfold Dashboard.updateAlerts. rewrite Q1.
  destruct (l1 ++ a :: l2)%list as [|a0 l0] eqn:Hl; [by destruct l1|].
  rewrite <- Hl.
  match goal with
  | |- context [Dashboard.forEach_alert _ ?b0] =>
    destruct (forEach_alert_spec (l1 ++ a :: l2) b0) as (S1 & S2 & _ & S4)
  end.
  destruct (S4 l1 a l2 eq_refl Hl1 Ha) as (b' & Eb & Lb).
  rewrite Eb in *. cbn in S1, Lb. cbn [outcome_state] in S1.
  match goal with
  | |- context [Dashboard.showDashboardFallback ?q] => set (q1 := q)
  end.
  assert (Dashboard.showDashboardFallback q1
          = foldl (fun p id => Dashboard.safeUpdateText id [Lit "SYNCING..."] p) q1
              Dashboard.kpi_ids) as -> by reflexivity.
  pose proof (fold_safeUpdateText_effect [Lit "SYNCING..."] Dashboard.kpi_ids q1) as F.
  cbn zeta in F.
  split; [|split; [|split]].
  - intros id Hid Hsome. destruct (F id) as (E & _).
    etransitivity; [exact E|].
    rewrite bool_decide_eq_true_2; [done|]. split; [done|]. subst q1. cbn. by apply Q4.
  - destruct (F "") as (_ & E & _). exists b'. split; [|done].
    etransitivity; [exact E|]. done.
  - destruct (F "") as (_ & _ & E & _). etransitivity; [exact E|]. done.
  - destruct (F "") as (_ & _ & _ & E). etransitivity; [exact E|]. done.
Qed.

Lemma alert_without_issue_aborts_the_cycle_witness :
  Dashboard.texts
    (Dashboard.fetchDashboardMetrics_response
       (Dashboard.Resolved true Sample2.dashboard_bad_alert) Sample2.alerting_dashboard)
    !! "avgSoc" = Some [Lit "SYNCING..."].
Proof.
  refine (proj1 (alert_without_issue_aborts_the_cycle Sample2.dashboard_bad_alert
                   [{| Dashboard.level := Some "critical"; Dashboard.issue := None;
                       Dashboard.alert_bus := "EV-1" |}]
                   []
                   {| Dashboard.level := Some "warning"; Dashboard.issue := None;
                      Dashboard.alert_bus := "EV-2" |}
                   {| Dashboard.items := []; Dashboard.state_display := "block";
                      Dashboard.state_html := [] |}
                   Sample2.alerting_dashboard
                   eq_refl eq_refl eq_refl eq_refl eq_refl) "avgSoc" _ _).
  - vm_compute. set_solver.
  - eexists. reflexivity.
Defined.

(** ** Instances of the further map properties *)

Lemma marker_shows_cursor_witness :
  exists mk s c,
    Route.markers Sample2.station_map !! 0%nat = Some mk /\
    Route.animationState Sample2.station_map !! "EV-1" = Some s /\
    Route.cursors Sample2.station_map !! s = Some c /\
    Route.m_latlng mk = (Route.c_lat c, Route.c_lng c).
Proof.
  apply (marker_shows_cursor None (Some "")
           [Route.Call;
            Route.Settle (Sample.ok [Sample.bus "EV-1" 0 0 "GOOD"
                                       (Some Sample.station_S1)])]
           "EV-1" 0%nat).
  vm_compute; reflexivity.
Defined.

Lemma stations_drawn_once_without_emergency_witness :
  NoDup (Route.stationsCreated
           (Route.map (Route.run (Route.initial None (Some "")) Sample2.calm_polls))).
Proof.
  apply (stations_drawn_once_without_emergency None (Some "") Sample2.calm_polls).
  vm_compute; reflexivity.
Defined.

Lemma registered_stations_are_not_redrawn_witness :
  Route.stationLayer
    (Route.layers
       (outcome_state
          (Route.updateMap "EV-1"
             [Sample.bus "EV-1" 5 5 "GOOD" (Some Sample.station_S1)]
             Sample2.station_map))) = [] /\
  Route.stationsCreated
    (outcome_state
       (Route.updateMap "EV-1"
          [Sample.bus "EV-1" 5 5 "GOOD" (Some Sample.station_S1)]
          Sample2.station_map))
  = Route.stationsCreated Sample2.station_map.
Proof.
  apply (registered_stations_are_not_redrawn "EV-1"
           [Sample.bus "EV-1" 5 5 "GOOD" (Some Sample.station_S1)]
           Sample2.station_map).
  - vm_compute; reflexivity.
  - intros b Hb _. apply list_elem_of_singleton in Hb. subst b.
    vm_compute. eexists. reflexivity.
  - vm_compute; reflexivity.
Defined.

Lemma updateMap_recentres_on_last_focused_witness :
  Route.view
    (outcome_state
       (Route.updateMap "EV-1"
          [Sample.bus "EV-1" 5 5 "GOOD" (Some Sample.station_S1)]
          Sample2.station_map))
  = ((5%Q, 5%Q), snd (Route.view Sample2.station_map)).
Proof.
  refine (proj1 (updateMap_recentres_on_last_focused "EV-1"
                   [Sample.bus "EV-1" 5 5 "GOOD" (Some Sample.station_S1)]
                   Sample2.station_map _ _)
            [] (Sample.bus "EV-1" 5 5 "GOOD" (Some Sample.station_S1)) []
            (5%Q, 5%Q) eq_refl eq_refl eq_refl _).
  - vm_compute; reflexivity.
  - intros b' Hb'. apply elem_of_nil in Hb'. destruct Hb'.
Defined.
